(** * Garage layout planner: the layout optimizer (Garage_Optimizer.py)

    A shallow embedding of the optimisation engine of [Garage_Optimizer.py]:
    constraint generation, demand planning, greedy placement, the overhead
    pass and the score, with the measurement parser, the grid of the layout
    picture and the loader of the layout file, followed by the properties
    the specification states about them and further properties of the code.

    Numbers.  The program computes with Python numbers (ints and floats that
    hold inch measurements).  They are embedded as rationals [Q]: sums,
    differences, halving and comparisons are exact, [==] is Python's [==]
    on numbers, and [int(...)] is truncation toward zero.  Values that Python
    keeps as [int] (priorities, section counts, loop indices) are [Z].
    Floating-point rounding, infinities and NaN are outside the model.

    Dictionaries.  [priorities] and [preferences] are open maps and are
    embedded as [gmap string _]; the dictionaries with a fixed set of keys
    (a vehicle, a wall feature, a storage category, a work activity, a zone
    demand) are records whose optional keys are [option] fields.

    Strings.  Texts are ASCII strings; [lower], [strip], [split], the
    substring test and the regular expressions of the measurement parser and
    of the loader are embedded on them.

    Mutable lists.  The lists that [optimize_layout] appends to (the local
    [placed_zones] and the zones, reasoning and warnings of the
    recommendation) are threaded through the two passes as an explicit run
    state. *)

From Stdlib Require Import QArith Qround Lqa ZArith List Ascii String Bool Lia.
From Stdlib Require Import DecimalString DecimalPos Qminmax Sorted Permutation.
From stdpp Require Import gmap strings.
Import ListNotations.

Local Open Scope Q_scope.

(** ** Python numeric primitives *)

Module Py.

(** [a < b] on numbers, as a boolean. *)
Definition ltb (a b : Q) : bool := negb (Qle_bool b a).

(** [a <= b] on numbers, as a boolean. *)
Definition leb (a b : Q) : bool := Qle_bool a b.

(** [a > b] and [a >= b]. *)
Definition gtb (a b : Q) : bool := ltb b a.
Definition geb (a b : Q) : bool := leb b a.

(** [max(a, b)]: Python returns the first argument unless the second is
    strictly greater. *)
Definition max (a b : Q) : Q := if ltb a b then b else a.

(** [min(a, b)]: the first argument unless the second is strictly smaller. *)
Definition min (a b : Q) : Q := if ltb b a then b else a.

(** [int(x)]: truncation toward zero. *)
Definition int (x : Q) : Z := Z.quot (Qnum x) (Zpos (Qden x)).

(** [range(0, stop, step)] for a positive [step]. *)
Definition range0 (stop step : Z) : list Z :=
  if (stop <=? 0)%Z then []
  else map (fun i => (Z.of_nat i * step)%Z)
           (seq 0 (Z.to_nat ((stop + step - 1) / step))).

End Py.

(** ** Collision predicate *)

(** [rectangles_overlap(x1, y1, w1, h1, x2, y2, w2, h2)]. *)
Definition rectangles_overlap (x1 y1 w1 h1 x2 y2 w2 h2 : Q) : bool :=
  negb (Py.leb (x1 + w1) x2 || Py.leb (x2 + w2) x1
        || Py.leb (y1 + h1) y2 || Py.leb (y2 + h2) y1).

(** ** Python string primitives (ASCII) *)

Module Str.

Definition code (c : ascii) : N := N_of_ascii c.

(** [\d] on ASCII text. *)
Definition is_digit (c : ascii) : bool :=
  ((48 <=? code c) && (code c <=? 57))%N.

(** [\s] and the characters removed by [str.strip()]: tab to carriage
    return, the four separators 28-31, and the space. *)
Definition is_space (c : ascii) : bool :=
  (((9 <=? code c) && (code c <=? 13)) || ((28 <=? code c) && (code c <=? 32)))%N.

Definition lower_char (c : ascii) : ascii :=
  if ((65 <=? code c) && (code c <=? 90))%N then ascii_of_N (code c + 32) else c.

(** [s.lower()]. *)
Fixpoint lower (s : string) : string :=
  match s with
  | EmptyString => EmptyString
  | String c s' => String (lower_char c) (lower s')
  end.

(** [needle in hay]. *)
Fixpoint contains (needle hay : string) : bool :=
  String.prefix needle hay ||
  match hay with
  | EmptyString => false
  | String _ hay' => contains needle hay'
  end.

Fixpoint lstrip (s : string) : string :=
  match s with
  | String c s' => if is_space c then lstrip s' else s
  | EmptyString => EmptyString
  end.

Fixpoint rstrip (s : string) : string :=
  match s with
  | EmptyString => EmptyString
  | String c s' =>
      match rstrip s' with
      | EmptyString => if is_space c then EmptyString else String c EmptyString
      | t => String c t
      end
  end.

(** [s.strip()]. *)
Definition strip (s : string) : string := rstrip (lstrip s).

(** [str(n)] for an integer. *)
Definition of_Z (n : Z) : string := DecimalString.NilZero.string_of_int (Z.to_int n).

End Str.

(** ** The fragment of [re] used by the measurement parser

    A backtracking matcher with Python's greedy, leftmost-first semantics for
    literals, greedy repetition of a character class, concatenation, greedy
    optional groups, capture groups and [$]. *)

Module Re.

Inductive regex : Type :=
| Chr (c : ascii)                      (* a literal character *)
| Rep (p : ascii -> bool) (lo : nat)   (* [p{lo,}], greedy *)
| Cat (r1 r2 : regex)
| Opt (r : regex)                      (* [(?:r)?], greedy *)
| Grp (n : nat) (r : regex)            (* capture group number [n] *)
| Eol.                                 (* [$] *)

(** The text of [s] up to the suffix [rest]. *)
Definition consumed (s rest : string) : string :=
  String.substring 0 (String.length s - String.length rest) s.

Fixpoint rep_greedy {A} (p : ascii -> bool) (lo : nat) (s : string)
    (k : string -> option A) : option A :=
  let stop := match lo with O => k s | S _ => None end in
  match s with
  | String c s' =>
      if p c then
        match rep_greedy p (Nat.pred lo) s' k with
        | Some a => Some a
        | None => stop
        end
      else stop
  | EmptyString => stop
  end.

Fixpoint rmatch {A} (r : regex) (s : string) (g : gmap nat string)
    (k : string -> gmap nat string -> option A) : option A :=
  match r with
  | Chr c =>
      match s with
      | String c' s' => if Ascii.eqb c c' then k s' g else None
      | EmptyString => None
      end
  | Rep p lo => rep_greedy p lo s (fun s' => k s' g)
  | Cat r1 r2 => rmatch r1 s g (fun s' g' => rmatch r2 s' g' k)
  | Opt r1 =>
      match rmatch r1 s g k with
      | Some a => Some a
      | None => k s g
      end
  | Grp n r1 => rmatch r1 s g (fun s' g' => k s' (<[n := consumed s s']> g'))
  | Eol =>
      match s with
      | EmptyString => k s g
      | String c EmptyString => if Ascii.eqb c "010" then k s g else None
      | _ => None
      end
  end.

(** [re.match(r, s)]: the groups of a match anchored at the start. *)
Definition match_ (r : regex) (s : string) : option (gmap nat string) :=
  rmatch r s ∅ (fun _ g => Some g).

(** [re.search(r, s)]: the groups of the leftmost match. *)
Fixpoint search (r : regex) (s : string) : option (gmap nat string) :=
  match match_ r s with
  | Some g => Some g
  | None =>
      match s with
      | String _ s' => search r s'
      | EmptyString => None
      end
  end.

Definition digits1 : regex := Rep Str.is_digit 1.
Definition spaces0 : regex := Rep Str.is_space 0.

(** [\d+(?:\.\d+)?] *)
Definition number : regex := Cat digits1 (Opt (Cat (Chr ".") digits1)).

End Re.

(** ** Measurement parsing *)

Fixpoint digits_value (acc : Z) (s : string) : Z :=
  match s with
  | EmptyString => acc
  | String c s' => digits_value (10 * acc + (Z.of_N (Str.code c) - 48))%Z s'
  end.

Fixpoint split_point (s : string) : string * string :=
  match s with
  | EmptyString => (EmptyString, EmptyString)
  | String c s' =>
      if Ascii.eqb c "." then (EmptyString, s')
      else let '(a, b) := split_point s' in (String c a, b)
  end.

(** [float(s)] for a text matched by [\d+(?:\.\d+)?], as an exact rational. *)
Definition float_of (s : string) : Q :=
  let '(ip, fp) := split_point s in
  Qmake (digits_value 0 (ip ++ fp)) (Z.to_pos (10 ^ Z.of_nat (String.length fp))).

(** [(\d+(?:\.\d+)?)'] *)
Definition feet_pattern : Re.regex :=
  Re.Cat (Re.Grp 1 Re.number) (Re.Chr "'").

(** [(\d+(?:\.\d+)?)\s*(?:(\d+)/(\d+))?\s*Q] where [Q] is the
    double-quote character (code 34). *)
Definition inches_pattern : Re.regex :=
  Re.Cat (Re.Grp 1 Re.number)
   (Re.Cat Re.spaces0
    (Re.Cat (Re.Opt (Re.Cat (Re.Grp 2 Re.digits1)
                     (Re.Cat (Re.Chr "/") (Re.Grp 3 Re.digits1))))
     (Re.Cat Re.spaces0 (Re.Chr "034")))).

(** [^(\d+(?:\.\d+)?)$], used with [re.match], which anchors at the start. *)
Definition plain_pattern : Re.regex :=
  Re.Cat (Re.Grp 1 Re.number) Re.Eol.

Definition group (g : gmap nat string) (n : nat) : string :=
  default EmptyString (g !! n).

(** [measurement_to_inches(measurement)]. *)
Definition measurement_to_inches (measurement : string) : option Q :=
  if String.eqb measurement EmptyString || String.eqb measurement "N/A" then None
  else
    let total_inches := 0 in
    let feet_match := Re.search feet_pattern measurement in
    let total_inches :=
      match feet_match with
      | Some g => total_inches + float_of (group g 1) * 12
      | None => total_inches
      end in
    let inches_match := Re.search inches_pattern measurement in
    let total_inches :=
      match inches_match with
      | Some g =>
          let inches := float_of (group g 1) in
          let inches :=
            match g !! 2%nat, g !! 3%nat with
            | Some n, Some d =>
                (* a zero denominator raises ZeroDivisionError in Python
                   and is outside the model (Q's division returns 0) *)
                inches + float_of n / float_of d
            | _, _ => inches
            end in
          total_inches + inches
      | None => total_inches
      end in
    let total_inches :=
      match feet_match, inches_match with
      | None, None =>
          match Re.match_ plain_pattern (Str.strip measurement) with
          | Some g => float_of (group g 1)
          | None => total_inches
          end
      | _, _ => total_inches
      end in
    if Py.gtb total_inches 0 then Some total_inches else None.

(** [round(x)] to the nearest integer, ties to even: the rounding of the
    [.0f] format. *)
Definition round_half_even (x : Q) : Z :=
  let n := Qfloor x in
  let r := x - inject_Z n in
  if Py.ltb r (1 # 2) then n
  else if Py.ltb (1 # 2) r then (n + 1)%Z
  else if Z.even n then n else (n + 1)%Z.

(** [inches_to_feet_str(inches)]. *)
Definition inches_to_feet_str (inches : Q) : string :=
  let feet := Qfloor (inches / 12) in
  let remaining_inches := inches - 12 * inject_Z feet in
  let rem := Str.of_Z (round_half_even remaining_inches) in
  if Qeq_bool remaining_inches 0 then Str.of_Z feet ++ "'"
  else if (feet =? 0)%Z then rem ++ String "034" EmptyString
  else Str.of_Z feet ++ "' " ++ rem ++ String "034" EmptyString.

Local Open Scope string_scope.

(** ** Data structures *)

Inductive ZoneType : Type :=
| VEHICLE | WORKBENCH | WALL_STORAGE | OVERHEAD_STORAGE | FLOOR_STORAGE
| CLEARANCE.

Definition ZoneType_eqb (a b : ZoneType) : bool :=
  match a, b with
  | VEHICLE, VEHICLE | WORKBENCH, WORKBENCH | WALL_STORAGE, WALL_STORAGE
  | OVERHEAD_STORAGE, OVERHEAD_STORAGE | FLOOR_STORAGE, FLOOR_STORAGE
  | CLEARANCE, CLEARANCE => true
  | _, _ => false
  end.

Module Zone.
Record t : Type := mk {
  zone_type : ZoneType;
  name : string;
  x : Q;        (* position from west wall (inches) *)
  y : Q;        (* position from north wall (inches) *)
  width : Q;    (* east-west dimension (inches) *)
  depth : Q;    (* north-south dimension (inches) *)
  wall : string;
  priority : Z;
  notes : string
}.
End Zone.

Module Constraint.
Record t : Type := mk {
  constraint_type : string;
  x : Q;
  y : Q;
  width : Q;
  depth : Q;
  wall : string;
  description : string
}.
End Constraint.

(** A wall feature: a dictionary read with [get] and a default per key. *)
Module Feature.
Record t : Type := mk {
  name : option string;
  type : option string;
  position : option Q;
  width : option Q
}.
End Feature.

Module GarageSpace.
Record t : Type := mk {
  width : Q;
  depth : Q;
  ceiling_height : Q;
  north_features : list Feature.t;
  east_features : list Feature.t;
  south_features : list Feature.t;
  west_features : list Feature.t;
  floor_features : list Feature.t
}.
End GarageSpace.

(** A vehicle of the usage profile; [length] and [width] are measurement
    texts. *)
Module Vehicle.
Record t : Type := mk {
  length : option string;
  width : option string;
  must_fit_inside : option bool;
  year : option string;
  make : option string;
  model : option string
}.
End Vehicle.

Module StorageCategory.
Record t : Type := mk { needs_accessibility : option string }.
End StorageCategory.

Module WorkActivity.
Record t : Type := mk { space_needed : option string }.
End WorkActivity.

Module UsageProfile.
Record t : Type := mk {
  vehicles : list Vehicle.t;
  storage_categories : list StorageCategory.t;
  work_activities : list WorkActivity.t;
  priorities : gmap string Z;
  preferences : gmap string bool;
  notes : string
}.
End UsageProfile.

Module LayoutRecommendation.
Record t : Type := mk {
  zones : list Zone.t;
  constraints : list Constraint.t;
  reasoning : list string;
  warnings : list string;
  score : Q
}.
End LayoutRecommendation.

(** An entry of [zones_needed]. *)
Module ZoneSpec.
Record t : Type := mk {
  type : ZoneType;
  name : string;
  width : Q;
  depth : Q;
  priority : Z;
  vehicle_index : option Z;
  total_vehicles : option Z
}.
End ZoneSpec.

(** ** Layout constants *)

Definition CLEARANCES : gmap string Q :=
  list_to_map
    [ ("garage_door", 36); ("entry_door", 36); ("service_door", 36);
      ("electrical_panel", 36); ("water_heater", 24); ("furnace", 24);
      ("window", 6); ("vehicle_side", 24); ("vehicle_front", 12);
      ("vehicle_rear", 12); ("workbench_front", 36); ("walkway", 30) ].

(** [CLEARANCES[key]] for a key of the table. *)
Definition clearance (key : string) : Q := default 0 (CLEARANCES !! key).

Module Size.
Record t : Type := mk { width : Q; depth : Q }.
End Size.

Definition ZONE_SIZES : gmap string Size.t :=
  list_to_map
    [ ("workbench_small", Size.mk 48 24); ("workbench_medium", Size.mk 72 30);
      ("workbench_large", Size.mk 96 30);
      ("wall_storage_section", Size.mk 48 18);
      ("overhead_storage", Size.mk 48 96) ].

(** [ZONE_SIZES[key]] for a key of the table. *)
Definition zone_size (key : string) : Size.t :=
  default (Size.mk 0 0) (ZONE_SIZES !! key).

(** ** Constraint generation *)

(** The test of the garage-door special case. *)
Definition indicates_garage_door (ftype name : string) : bool :=
  Str.contains "garage_door" ftype || Str.contains "garage door" (Str.lower name).

(** The body of the loop of [add_wall_constraints]: the constraint of one
    feature, or nothing for an unknown wall. *)
Definition wall_constraint (garage : GarageSpace.t) (wall : string)
    (feature : Feature.t) : option Constraint.t :=
  let pos := default 0 (Feature.position feature) in
  let width := default 36 (Feature.width feature) in
  let name := default "Unknown" (Feature.name feature) in
  let ftype := Str.lower (default EmptyString (Feature.type feature)) in
  let clearance := default 24 (CLEARANCES !! ftype) in
  let geometry :=
    if String.eqb wall "N" then Some (pos - width / 2, 0, width, clearance)
    else if String.eqb wall "S" then
      Some (pos - width / 2, GarageSpace.depth garage - clearance, width, clearance)
    else if String.eqb wall "E" then
      Some (GarageSpace.width garage - clearance, pos - width / 2, clearance, width)
    else if String.eqb wall "W" then
      Some (0, pos - width / 2, clearance, width)
    else None in
  match geometry with
  | None => None
  | Some (x, y, c_width, c_depth) =>
      let '(y, c_depth) :=
        if indicates_garage_door ftype name then
          if String.eqb wall "S" then (GarageSpace.depth garage - 60, 60)
          else if String.eqb wall "N" then (0, 60)
          else (y, c_depth)
        else (y, c_depth) in
      Some (Constraint.mk ftype (Py.max 0 x) (Py.max 0 y) c_width c_depth wall
              (name ++ " - keep " ++ inches_to_feet_str clearance ++ " clear"))
  end.

Definition add_wall_constraints (garage : GarageSpace.t)
    (features : list Feature.t) (wall : string) : list Constraint.t :=
  omap (wall_constraint garage wall) features.

(** [generate_constraints(garage)]. *)
Definition generate_constraints (garage : GarageSpace.t) : list Constraint.t :=
  add_wall_constraints garage (GarageSpace.north_features garage) "N"
  ++ add_wall_constraints garage (GarageSpace.east_features garage) "E"
  ++ add_wall_constraints garage (GarageSpace.south_features garage) "S"
  ++ add_wall_constraints garage (GarageSpace.west_features garage) "W".

(** ** Python list primitives *)

(** Insertion of [x] before the first element it may precede. *)
Fixpoint insert_by {A} (le : A -> A -> bool) (x : A) (l : list A) : list A :=
  match l with
  | [] => [x]
  | y :: l' => if le x y then x :: l else y :: insert_by le x l'
  end.

(** A stable sort: elements that compare equal keep their order. *)
Definition stable_sort {A} (le : A -> A -> bool) (l : list A) : list A :=
  fold_right (insert_by le) [] l.

(** [sorted(l, key=key)]. *)
Definition sorted_by_key {A} (key : A -> Z) (l : list A) : list A :=
  stable_sort (fun a b => (key a <=? key b)%Z) l.

(** [sorted(l, key=key, reverse=True)]: descending and still stable. *)
Definition sorted_by_key_reverse {A} (key : A -> Z) (l : list A) : list A :=
  stable_sort (fun a b => (key b <=? key a)%Z) l.

(** [range(n)]. *)
Definition range (n : Z) : list Z := map Z.of_nat (seq 0 (Z.to_nat n)).

(** [o or d] for an optional number: [None] and [0] are falsy. *)
Definition or_else (o : option Q) (d : Q) : Q :=
  match o with
  | Some q => if Qeq_bool q 0 then d else q
  | None => d
  end.

(** The first [Some] result of [f] along [l]: a loop that returns from its
    body. *)
Fixpoint first_some {A B} (f : A -> option B) (l : list A) : option B :=
  match l with
  | [] => None
  | a :: l' => match f a with Some b => Some b | None => first_some f l' end
  end.

(** ** Placement *)

(** [position_is_clear(x, y, width, depth, garage, constraints, placed_zones)]. *)
Definition position_is_clear (x y width depth : Q) (garage : GarageSpace.t)
    (constraints : list Constraint.t) (placed_zones : list Zone.t) : bool :=
  if Py.ltb x 0 || Py.ltb y 0 then false
  else if Py.gtb (x + width) (GarageSpace.width garage)
          || Py.gtb (y + depth) (GarageSpace.depth garage) then false
  else if existsb (fun c => rectangles_overlap x y width depth
                     (Constraint.x c) (Constraint.y c)
                     (Constraint.width c) (Constraint.depth c)) constraints
  then false
  else if existsb (fun z => rectangles_overlap x y width depth
                     (Zone.x z) (Zone.y z) (Zone.width z) (Zone.depth z))
            placed_zones
  then false
  else true.

Definition is_type (t : ZoneType) (z : Zone.t) : bool :=
  ZoneType_eqb (Zone.zone_type z) t.

(** The candidate list [positions_to_try] of [find_vehicle_position]. *)
Definition positions_to_try (garage : GarageSpace.t) (placed_zones : list Zone.t)
    (width depth : Q) (zone_spec : ZoneSpec.t) : list (Q * Q) :=
  let total_vehicles := default 1%Z (ZoneSpec.total_vehicles zone_spec) in
  let placed_vehicles := List.filter (is_type VEHICLE) placed_zones in
  let y := GarageSpace.depth garage - depth in
  if (total_vehicles =? 1)%Z then
    [ ((GarageSpace.width garage - width) / 2, y);
      (clearance "walkway", y);
      (GarageSpace.width garage - width - clearance "walkway", y) ]
  else
    match last placed_vehicles with
    | None => [ (clearance "walkway", y) ]
    | Some last_vehicle =>
        [ (Zone.x last_vehicle + Zone.width last_vehicle + 12, y) ]
    end.

(** The body of the candidate loop of [find_vehicle_position]. *)
Definition vehicle_candidate_ok (garage : GarageSpace.t)
    (constraints : list Constraint.t) (placed_zones : list Zone.t)
    (width depth : Q) (pos : Q * Q) : option (Q * Q) :=
  let '(x, y) := pos in
  if Py.ltb x 0 || Py.ltb y 0 then None
  else if Py.gtb (x + width) (GarageSpace.width garage)
          || Py.gtb (y + depth) (GarageSpace.depth garage) then None
  else
    let overlaps :=
      existsb (fun c => rectangles_overlap x y width depth
                 (Constraint.x c) (Constraint.y c)
                 (Constraint.width c) (Constraint.depth c)
               && negb (Str.contains "garage_door" (Constraint.constraint_type c)))
        constraints in
    let overlaps :=
      overlaps ||
      existsb (fun z => rectangles_overlap x y width depth
                 (Zone.x z) (Zone.y z) (Zone.width z) (Zone.depth z))
        placed_zones in
    if negb overlaps then Some (x, y) else None.

(** [find_vehicle_position(garage, constraints, placed_zones, width, depth,
    zone_spec)]. *)
Definition find_vehicle_position (garage : GarageSpace.t)
    (constraints : list Constraint.t) (placed_zones : list Zone.t)
    (width depth : Q) (zone_spec : ZoneSpec.t) : option (Q * Q) :=
  first_some (vehicle_candidate_ok garage constraints placed_zones width depth)
    (positions_to_try garage placed_zones width depth zone_spec).

Definition mentions_electrical (f : Feature.t) : bool :=
  let name := Str.lower (default EmptyString (Feature.name f)) in
  Str.contains "electrical" name || Str.contains "panel" name.

(** The body of the wall loop of [find_best_wall_for_workbench]. *)
Definition workbench_on_wall (garage : GarageSpace.t)
    (constraints : list Constraint.t) (placed_zones : list Zone.t)
    (width depth : Q) (wall : string) : option (string * Q * Q) :=
  let geometry :=
    if String.eqb wall "N" then Some (clearance "walkway", 0, width, depth)
    else if String.eqb wall "E" then
      Some (GarageSpace.width garage - depth, clearance "walkway", depth, width)
    else if String.eqb wall "W" then
      Some (0, clearance "walkway", depth, width)
    else None in
  match geometry with
  | None => None
  | Some (x, y, w, d) =>
      if position_is_clear x y w d garage constraints placed_zones
      then Some (wall, x, y) else None
  end.

(** [find_best_wall_for_workbench(garage, constraints, placed_zones, width,
    depth)]. *)
Definition find_best_wall_for_workbench (garage : GarageSpace.t)
    (constraints : list Constraint.t) (placed_zones : list Zone.t)
    (width depth : Q) : option (string * Q * Q) :=
  (* the entries of [walls_to_check] also carry a base position that the
     loop never reads *)
  let walls_to_check := [ "N"; "E"; "W" ] in
  let has_electrical : gmap string bool :=
    fold_left
      (fun h f => if mentions_electrical f then <["E" := true]> h else h)
      (GarageSpace.east_features garage)
      (list_to_map [ ("N", false); ("E", false); ("W", false); ("S", false) ]) in
  let walls_to_check :=
    sorted_by_key_reverse
      (fun w => Z.b2z (default false (has_electrical !! w))) walls_to_check in
  first_some (workbench_on_wall garage constraints placed_zones width depth)
    walls_to_check.

(** The scan of one wall in [find_wall_storage_spot], at the given step. *)
Definition scan_wall (garage : GarageSpace.t) (constraints : list Constraint.t)
    (placed_zones : list Zone.t) (width depth : Q) (step : Z) (wall : string)
    : option (string * Q * Q) :=
  if String.eqb wall "N" then
    first_some
      (fun x : Z =>
         if position_is_clear (inject_Z x) 0 width depth garage constraints placed_zones
         then Some (wall, inject_Z x, 0) else None)
      (Py.range0 (Py.int (GarageSpace.width garage - width)) step)
  else if String.eqb wall "E" then
    first_some
      (fun y : Z =>
         if position_is_clear (GarageSpace.width garage - depth) (inject_Z y)
              depth width garage constraints placed_zones
         then Some (wall, GarageSpace.width garage - depth, inject_Z y) else None)
      (Py.range0 (Py.int (GarageSpace.depth garage - width)) step)
  else if String.eqb wall "W" then
    first_some
      (fun y : Z =>
         if position_is_clear 0 (inject_Z y) depth width garage constraints placed_zones
         then Some (wall, 0, inject_Z y) else None)
      (Py.range0 (Py.int (GarageSpace.depth garage - width)) step)
  else None.

(** The dictionary [wall_counts] of [find_wall_storage_spot]. *)
Definition wall_counts (placed_zones : list Zone.t) : gmap string Z :=
  fold_left
    (fun counts z =>
       if is_type WALL_STORAGE z then
         match counts !! Zone.wall z with
         | Some n => <[Zone.wall z := (n + 1)%Z]> counts
         | None => counts
         end
       else counts)
    placed_zones
    (list_to_map [ ("N", 0%Z); ("E", 0%Z); ("W", 0%Z) ]).

(** [find_wall_storage_spot(garage, constraints, placed_zones, width, depth)]. *)
Definition find_wall_storage_spot (garage : GarageSpace.t)
    (constraints : list Constraint.t) (placed_zones : list Zone.t)
    (width depth : Q) : option (string * Q * Q) :=
  let counts := wall_counts placed_zones in
  let walls := sorted_by_key (fun w => default 0%Z (counts !! w)) [ "N"; "E"; "W" ] in
  match first_some (scan_wall garage constraints placed_zones width depth 24) walls with
  | Some spot => Some spot
  | None =>
      first_some (scan_wall garage constraints placed_zones width depth 12)
        [ "N"; "E"; "W" ]
  end.

(** [place_zone(zone_spec, garage, constraints, placed_zones, preferences)]. *)
Definition place_zone (zone_spec : ZoneSpec.t) (garage : GarageSpace.t)
    (constraints : list Constraint.t) (placed_zones : list Zone.t)
    (preferences : gmap string bool) : option Zone.t :=
  let zone_type := ZoneSpec.type zone_spec in
  let width := ZoneSpec.width zone_spec in
  let depth := ZoneSpec.depth zone_spec in
  let name := ZoneSpec.name zone_spec in
  let priority := ZoneSpec.priority zone_spec in
  match zone_type with
  | VEHICLE =>
      match find_vehicle_position garage constraints placed_zones width depth zone_spec with
      | Some (x, y) =>
          Some (Zone.mk zone_type name x y width depth "S" priority
                  "Pull in from garage door")
      | None => None
      end
  | WORKBENCH =>
      match find_best_wall_for_workbench garage constraints placed_zones width depth with
      | Some (wall, x, y) =>
          Some (Zone.mk zone_type name x y width depth wall priority
                  "Position for good lighting and electrical access")
      | None => None
      end
  | WALL_STORAGE =>
      match find_wall_storage_spot garage constraints placed_zones width depth with
      | Some (wall, x, y) =>
          Some (Zone.mk zone_type name x y width depth wall priority EmptyString)
      | None => None
      end
  | _ => None
  end.

(** ** Demand planning *)

Definition priority_of (profile : UsageProfile.t) (key : string) (dflt : Z) : Z :=
  default dflt (UsageProfile.priorities profile !! key).

Definition preference_of (profile : UsageProfile.t) (key : string) (dflt : bool) : bool :=
  default dflt (UsageProfile.preferences profile !! key).

Definition vehicles_must_fit (profile : UsageProfile.t) : list Vehicle.t :=
  List.filter (fun v => default false (Vehicle.must_fit_inside v))
    (UsageProfile.vehicles profile).

Definition vehicle_name (vehicle : Vehicle.t) : string :=
  Str.strip (default EmptyString (Vehicle.year vehicle) ++ " "
             ++ default EmptyString (Vehicle.make vehicle) ++ " "
             ++ default EmptyString (Vehicle.model vehicle)).

(** The demand of the [i]-th vehicle that must fit inside. *)
Definition vehicle_spec (profile : UsageProfile.t) (num_vehicles : Z)
    (i : nat) (vehicle : Vehicle.t) : ZoneSpec.t :=
  let v_length :=
    or_else (measurement_to_inches (default "180" (Vehicle.length vehicle))) 180 in
  let v_width :=
    or_else (measurement_to_inches (default "72" (Vehicle.width vehicle))) 72 in
  let side_clearance :=
    if (num_vehicles =? 1)%Z then clearance "vehicle_side" * 2
    else clearance "vehicle_side" in
  ZoneSpec.mk VEHICLE (vehicle_name vehicle)
    (v_width + side_clearance)
    (v_length + clearance "vehicle_front" + clearance "vehicle_rear")
    (priority_of profile "vehicle_storage" 3)
    (Some (Z.of_nat i)) (Some num_vehicles).

Definition vehicle_specs (profile : UsageProfile.t) : list ZoneSpec.t :=
  let fit := vehicles_must_fit profile in
  imap (vehicle_spec profile (Z.of_nat (List.length fit))) fit.

Definition needs_large (profile : UsageProfile.t) : bool :=
  existsb
    (fun a =>
       let s := Str.lower (default EmptyString (WorkActivity.space_needed a)) in
       String.eqb s "medium" || String.eqb s "large")
    (UsageProfile.work_activities profile).

Definition is_empty {A} (l : list A) : bool :=
  match l with [] => true | _ => false end.

Definition workbench_specs (profile : UsageProfile.t) : list ZoneSpec.t :=
  if negb (is_empty (UsageProfile.work_activities profile))
     || (3 <=? priority_of profile "workspace" 0)%Z
  then
    let workspace_priority := priority_of profile "workspace" 3 in
    let wb_size :=
      if (5 <=? workspace_priority)%Z
         || ((4 <=? workspace_priority)%Z && needs_large profile)
      then zone_size "workbench_large"
      else if needs_large profile || (4 <=? workspace_priority)%Z
      then zone_size "workbench_medium"
      else zone_size "workbench_small" in
    [ ZoneSpec.mk WORKBENCH "Workbench" (Size.width wb_size)
        (Size.depth wb_size + clearance "workbench_front")
        (priority_of profile "workspace" 3) None None ]
  else [].

Definition count_access (profile : UsageProfile.t) (freq : string) : Z :=
  Z.of_nat
    (List.length
       (List.filter
          (fun s => String.eqb
                      (default EmptyString (StorageCategory.needs_accessibility s))
                      freq)
          (UsageProfile.storage_categories profile))).

Definition base_sections (profile : UsageProfile.t) : Z :=
  let storage_count := Z.of_nat (List.length (UsageProfile.storage_categories profile)) in
  let daily_access := count_access profile "daily" in
  let weekly_access := count_access profile "weekly" in
  (2 + storage_count + daily_access * 2 + weekly_access)%Z.

Definition sections_needed (profile : UsageProfile.t) : Z :=
  let storage_priority := priority_of profile "general_storage" 3 in
  if (5 <=? storage_priority)%Z then 20%Z
  else if (4 <=? storage_priority)%Z then
    Z.min 15 (Py.int (inject_Z (base_sections profile) * (3 # 2)))
  else Z.min 8 (base_sections profile).

Definition wall_storage_specs (profile : UsageProfile.t) : list ZoneSpec.t :=
  if preference_of profile "wall_storage" true then
    map
      (fun i =>
         ZoneSpec.mk WALL_STORAGE ("Wall Storage " ++ Str.of_Z (i + 1))
           (Size.width (zone_size "wall_storage_section"))
           (Size.depth (zone_size "wall_storage_section"))
           (priority_of profile "general_storage" 3) None None)
      (range (sections_needed profile))
  else [].

(** The list [zones_needed] before it is sorted. *)
Definition zones_needed (profile : UsageProfile.t) : list ZoneSpec.t :=
  vehicle_specs profile ++ workbench_specs profile ++ wall_storage_specs profile.

(** [zones_needed] after [zones_needed.sort(key=priority, reverse=True)]. *)
Definition zones_needed_sorted (profile : UsageProfile.t) : list ZoneSpec.t :=
  sorted_by_key_reverse ZoneSpec.priority (zones_needed profile).

(** ** The main placement pass *)

(** The run state: the local list [placed_zones] and the three lists of the
    recommendation that the passes append to. *)
Module Run.
Record t : Type := mk {
  placed_zones : list Zone.t;
  zones : list Zone.t;
  reasoning : list string;
  warnings : list string
}.
Definition init : t := mk [] [] [] [].
End Run.

Definition or_floor (wall : string) : string :=
  if String.eqb wall EmptyString then "floor" else wall.

Definition placed_message (zone : Zone.t) : string :=
  "Placed " ++ Zone.name zone ++ " on " ++ or_floor (Zone.wall zone)
  ++ " wall at (" ++ inches_to_feet_str (Zone.x zone) ++ ", "
  ++ inches_to_feet_str (Zone.y zone) ++ ")".

Definition unplaced_message (zone_spec : ZoneSpec.t) : string :=
  "Could not place " ++ ZoneSpec.name zone_spec ++ " - insufficient space".

(** The body of the placement loop. *)
Definition place_step (garage : GarageSpace.t) (constraints : list Constraint.t)
    (preferences : gmap string bool) (st : Run.t) (zone_spec : ZoneSpec.t) : Run.t :=
  match place_zone zone_spec garage constraints (Run.placed_zones st) preferences with
  | Some zone =>
      Run.mk (Run.placed_zones st ++ [zone]) (Run.zones st ++ [zone])
        (Run.reasoning st ++ [placed_message zone]) (Run.warnings st)
  | None =>
      Run.mk (Run.placed_zones st) (Run.zones st) (Run.reasoning st)
        (Run.warnings st ++ [unplaced_message zone_spec])
  end.

(** The placement loop over a demand list, from a given state. *)
Definition place_all (garage : GarageSpace.t) (constraints : list Constraint.t)
    (preferences : gmap string bool) (specs : list ZoneSpec.t) (st : Run.t) : Run.t :=
  fold_left (place_step garage constraints preferences) specs st.

(** ** The overhead pass *)

Module Loc.
Record t : Type := mk { name : string; x : Q; y : Q; width : Q; depth : Q }.
End Loc.

Definition min_clearance : Q := 84.
Definition overhead_depth : Q := 48.

(** The list [overhead_locations]. *)
Definition overhead_locations (garage : GarageSpace.t) (placed_zones : list Zone.t)
    : list Loc.t :=
  let workbench_zones := List.filter (is_type WORKBENCH) placed_zones in
  let wb_end_x :=
    match workbench_zones with
    | wb :: _ => Zone.x wb + Zone.width wb + 24
    | [] => 0
    end in
  let north :=
    if Py.ltb wb_end_x (GarageSpace.width garage - 96) then
      [ Loc.mk "Overhead Storage - North" wb_end_x 0
          (Py.min (GarageSpace.width garage - wb_end_x - 24) 144) overhead_depth ]
    else [] in
  let vehicle_zones := List.filter (is_type VEHICLE) placed_zones in
  let west :=
    match vehicle_zones with
    | v :: _ =>
        let west_overhead_depth := Py.min (Zone.y v - 24) 120 in
        if Py.gtb west_overhead_depth 48 then
          [ Loc.mk "Overhead Storage - West" 0 72 overhead_depth west_overhead_depth ]
        else []
    | [] => []
    end in
  let east :=
    [ Loc.mk "Overhead Storage - East" (GarageSpace.width garage - overhead_depth)
        48 overhead_depth 96 ] in
  north ++ west ++ east.

Definition overhead_zone (profile : UsageProfile.t) (loc : Loc.t) : Zone.t :=
  Zone.mk OVERHEAD_STORAGE (Loc.name loc) (Loc.x loc) (Loc.y loc)
    (Loc.width loc) (Loc.depth loc) "ceiling"
    (priority_of profile "general_storage" 3)
    ("Mount at " ++ inches_to_feet_str min_clearance ++ " minimum clearance").

Definition overhead_message (loc : Loc.t) : string :=
  "Placed " ++ Loc.name loc ++ " (" ++ inches_to_feet_str (Loc.width loc)
  ++ " x " ++ inches_to_feet_str (Loc.depth loc) ++ ") - ceiling height allows".

(** The body of the loop over [overhead_locations]. *)
Definition overhead_step (profile : UsageProfile.t) (st : Run.t) (loc : Loc.t) : Run.t :=
  if Py.gtb (Loc.width loc) 36 && Py.gtb (Loc.depth loc) 36 then
    Run.mk (Run.placed_zones st) (Run.zones st ++ [overhead_zone profile loc])
      (Run.reasoning st ++ [overhead_message loc]) (Run.warnings st)
  else st.

(** Step 4 of [optimize_layout]. *)
Definition overhead_pass (garage : GarageSpace.t) (profile : UsageProfile.t)
    (st : Run.t) : Run.t :=
  if preference_of profile "overhead_storage" false
     && Py.geb (GarageSpace.ceiling_height garage) 96
  then fold_left (overhead_step profile)
         (overhead_locations garage (Run.placed_zones st)) st
  else st.

(** ** Score *)

(** [calculate_layout_score(recommendation, profile)], on the zones and the
    warnings of the recommendation. *)
Definition calculate_layout_score (zones : list Zone.t) (warnings : list string)
    (profile : UsageProfile.t) : Q :=
  let score := 100 in
  let score := score - inject_Z (Z.of_nat (List.length warnings)) * 15 in
  let vehicle_placed := existsb (is_type VEHICLE) zones in
  let score :=
    if vehicle_placed && (4 <=? priority_of profile "vehicle_storage" 0)%Z
    then score + 10 else score in
  let workbench_placed := existsb (is_type WORKBENCH) zones in
  let score :=
    if workbench_placed && (4 <=? priority_of profile "workspace" 0)%Z
    then score + 10 else score in
  Py.max 0 (Py.min 100 score).

(** ** The optimizer *)

(** The state after step 3 (the main placement pass). *)
Definition main_pass (garage : GarageSpace.t) (profile : UsageProfile.t) : Run.t :=
  place_all garage (generate_constraints garage)
    (UsageProfile.preferences profile) (zones_needed_sorted profile) Run.init.

(** [optimize_layout(garage, profile)]. *)
Definition optimize_layout (garage : GarageSpace.t) (profile : UsageProfile.t)
    : LayoutRecommendation.t :=
  let st := overhead_pass garage profile (main_pass garage profile) in
  LayoutRecommendation.mk (Run.zones st) (generate_constraints garage)
    (Run.reasoning st) (Run.warnings st)
    (calculate_layout_score (Run.zones st) (Run.warnings st) profile).

(** * The specification's formulas

    Definitions that follow the words of the specification, to be compared
    with the program's. *)

#[global] Instance ZoneType_eq_dec : EqDecision ZoneType.
Proof. solve_decision. Defined.

(** A zone rectangle within the garage rectangle. *)
Definition within_garage (garage : GarageSpace.t) (z : Zone.t) : Prop :=
  0 <= Zone.x z /\ 0 <= Zone.y z
  /\ Zone.x z + Zone.width z <= GarageSpace.width garage
  /\ Zone.y z + Zone.depth z <= GarageSpace.depth garage.

(** [overlap(a, b)] on two zones. *)
Definition zones_overlap (a b : Zone.t) : bool :=
  rectangles_overlap (Zone.x a) (Zone.y a) (Zone.width a) (Zone.depth a)
    (Zone.x b) (Zone.y b) (Zone.width b) (Zone.depth b).

(** The priority of a category, 3 when the profile does not give it. *)
Definition spec_priority (profile : UsageProfile.t) (key : string) : Z :=
  default 3%Z (UsageProfile.priorities profile !! key).

(** The bonus of the score for a zone type: 10 when a zone of the type was
    placed and the category's priority is at least 4. *)
Definition spec_bonus (zones : list Zone.t) (profile : UsageProfile.t)
    (t : ZoneType) (key : string) : Q :=
  if bool_decide (Exists (fun z => Zone.zone_type z = t) zones
                  /\ (4 <= spec_priority profile key)%Z)
  then 10 else 0.

(** Score = 100 - 15 x warnings, + 10 per bonus, clamped to [0, 100]. *)
Definition spec_score (zones : list Zone.t) (warnings : list string)
    (profile : UsageProfile.t) : Q :=
  Qmax 0 (Qmin 100
    (100 - 15 * inject_Z (Z.of_nat (List.length warnings))
     + spec_bonus zones profile VEHICLE "vehicle_storage"
     + spec_bonus zones profile WORKBENCH "workspace")).

(** The base count of wall-storage sections: 2, plus one per storage
    category, plus 2 per category accessed daily, plus 1 per category
    accessed weekly. *)
Definition spec_base (profile : UsageProfile.t) : Z :=
  let cats := UsageProfile.storage_categories profile in
  let accessed freq :=
    List.filter
      (fun s => bool_decide (StorageCategory.needs_accessibility s = Some freq)) cats in
  (2 + Z.of_nat (List.length cats)
   + 2 * Z.of_nat (List.length (accessed "daily"))
   + 1 * Z.of_nat (List.length (accessed "weekly")))%Z.

(** The tiers of the section count, for a given reading of the middle tier. *)
Definition spec_sections (middle : Z -> Z) (profile : UsageProfile.t) : Z :=
  let priority := spec_priority profile "general_storage" in
  if bool_decide (5 <= priority)%Z then 20%Z
  else if bool_decide (4 <= priority)%Z then Z.min 15 (middle (spec_base profile))
  else Z.min 8 (spec_base profile).

(** [round(base x 1.5)], to the nearest integer with ties to even, and with
    ties upward. *)
Definition round_times_1_5 (base : Z) : Z :=
  round_half_even (inject_Z base * (3 # 2)).

Definition round_up_times_1_5 (base : Z) : Z :=
  Qfloor (inject_Z base * (3 # 2) + (1 # 2)).

(** [base x 1.5] rounded down. *)
Definition floor_times_1_5 (base : Z) : Z := (3 * base / 2)%Z.

(** The number of WALL_STORAGE demands in a demand list. *)
Definition wall_storage_demands (specs : list ZoneSpec.t) : Z :=
  Z.of_nat
    (List.length
       (List.filter (fun d => ZoneType_eqb (ZoneSpec.type d) WALL_STORAGE) specs)).

(** The rectangle that the placement check of a zone examined: along the
    east and west walls the check swaps the two dimensions. *)
Definition rotated (z : Zone.t) : bool :=
  String.eqb (Zone.wall z) "E" || String.eqb (Zone.wall z) "W".

Definition checked_width (z : Zone.t) : Q :=
  if rotated z then Zone.depth z else Zone.width z.

Definition checked_depth (z : Zone.t) : Q :=
  if rotated z then Zone.width z else Zone.depth z.

(** * Scenarios and auxiliary predicates *)

(** A measurement entry of a vehicle, read with its default text when the
    key is absent, parses to the given number of inches. *)
Definition reads_as (entry : option string) (dflt : string) (inches : Q) : Prop :=
  measurement_to_inches (default dflt entry) = Some inches.

(** The 300 x 300 garage of the scenarios, with empty feature lists. *)
Definition garage_300 (ceiling_height : Q) : GarageSpace.t :=
  GarageSpace.mk 300 300 ceiling_height [] [] [] [] [].

(** Scenario D: one storage category without access flags, general_storage
    priority 5. *)
Definition scenario_D : UsageProfile.t :=
  UsageProfile.mk [] [ StorageCategory.mk None ] []
    {[ "general_storage" := 5%Z ]} ∅ EmptyString.

(** Three storage categories without access flags, general_storage
    priority 4: the base count is 5 and 5 x 1.5 = 7.5. *)
Definition three_categories : UsageProfile.t :=
  UsageProfile.mk [] (List.repeat (StorageCategory.mk None) 3) []
    {[ "general_storage" := 4%Z ]} ∅ EmptyString.

(** Scenario E: a garage door of type garage_door, 192 inches wide and
    centred at 150 inches, on the south wall of a 300 x 300 garage. *)
Definition garage_door : Feature.t :=
  Feature.mk (Some "Garage Door") (Some "garage_door") (Some 150) (Some 192).

Definition scenario_E : GarageSpace.t :=
  GarageSpace.mk 300 300 96 [] [] [ garage_door ] [] [].

(** The same garage door on the east wall, and on the south wall of a
    garage that is only 48 inches deep. *)
Definition door_on_east : GarageSpace.t :=
  GarageSpace.mk 300 300 96 [] [ garage_door ] [] [] [].

Definition shallow_garage : GarageSpace.t :=
  GarageSpace.mk 300 48 96 [] [] [ garage_door ] [] [].

(** The east platform: 48 by 96 at x = width - 48, y = 48. *)
Definition east_platform (garage : GarageSpace.t) (profile : UsageProfile.t) : Zone.t :=
  Zone.mk OVERHEAD_STORAGE "Overhead Storage - East"
    (GarageSpace.width garage - 48) 48 48 96 "ceiling"
    (priority_of profile "general_storage" 3)
    ("Mount at " ++ inches_to_feet_str 84 ++ " minimum clearance").

(** Two vehicles 100 inches wide in a 300 x 300 garage with an 8-foot
    ceiling and overhead storage requested. *)
Definition wide_car : Vehicle.t :=
  Vehicle.mk (Some "180") (Some "100") (Some true) None None None.

Definition two_wide_cars : UsageProfile.t :=
  UsageProfile.mk [ wide_car; wide_car ] [] [] ∅
    {[ "overhead_storage" := true ]} EmptyString.

(** What a successful placement check says about a candidate rectangle. *)
Definition clear_at (garage : GarageSpace.t) (placed_zones : list Zone.t)
    (x y w d : Q) : Prop :=
  (0 <= x /\ 0 <= y
   /\ x + w <= GarageSpace.width garage /\ y + d <= GarageSpace.depth garage)
  /\ (forall z, In z placed_zones ->
        rectangles_overlap x y w d (Zone.x z) (Zone.y z)
          (Zone.width z) (Zone.depth z) = false).

(** Where a strategy may put a zone. *)
Definition placed_by_strategy (garage : GarageSpace.t) (placed_zones : list Zone.t)
    (spec : ZoneSpec.t) (z : Zone.t) : Prop :=
  (Zone.zone_type z = VEHICLE /\ Zone.wall z = "S"
   /\ In (Zone.x z, Zone.y z)
        (positions_to_try garage placed_zones (ZoneSpec.width spec)
           (ZoneSpec.depth spec) spec))
  \/ (Zone.zone_type z = WORKBENCH
      /\ ((Zone.wall z = "N" /\ Zone.x z = 30 /\ Zone.y z = 0)
          \/ (Zone.wall z = "E"
              /\ Zone.x z = GarageSpace.width garage - Zone.depth z
              /\ Zone.y z = 30)
          \/ (Zone.wall z = "W" /\ Zone.x z = 0 /\ Zone.y z = 30)))
  \/ (Zone.zone_type z = WALL_STORAGE
      /\ ((Zone.wall z = "N" /\ Zone.y z = 0)
          \/ (Zone.wall z = "E"
              /\ Zone.x z = GarageSpace.width garage - Zone.depth z)
          \/ (Zone.wall z = "W" /\ Zone.x z = 0))).

(** Scenarios A and B: one, respectively two, vehicles 72 inches wide and
    180 inches long that must fit inside, everything else at its default. *)
Definition car : Vehicle.t :=
  Vehicle.mk (Some "180") (Some "72") (Some true) None None None.

Definition scenario_A : UsageProfile.t :=
  UsageProfile.mk [ car ] [] [] ∅ ∅ EmptyString.

Definition scenario_B : UsageProfile.t :=
  UsageProfile.mk [ car; car ] [] [] ∅ ∅ EmptyString.

(** A garage 200 wide and 100 deep with an 8-foot ceiling; overhead storage
    requested and wall storage declined. *)
Definition low_garage : GarageSpace.t :=
  GarageSpace.mk 200 100 96 [] [] [] [] [].

Definition overhead_only : UsageProfile.t :=
  UsageProfile.mk [] [] [] ∅
    {[ "overhead_storage" := true; "wall_storage" := false ]} EmptyString.

(** One storage category, workspace priority 3: a small workbench and three
    wall-storage sections are requested. *)
Definition bench_and_storage : UsageProfile.t :=
  UsageProfile.mk [] [ StorageCategory.mk None ] []
    {[ "workspace" := 3%Z ]} ∅ EmptyString.

(** A rectangle that a zone, as recorded, does not overlap. *)
Definition clear_of (x y w d : Q) (z : Zone.t) : Prop :=
  rectangles_overlap x y w d (Zone.x z) (Zone.y z) (Zone.width z) (Zone.depth z)
  = false.

(** The zone that [place_zone] builds for a vehicle demand at a position. *)
Definition vehicle_zone (d : ZoneSpec.t) (x y : Q) : Zone.t :=
  Zone.mk VEHICLE (ZoneSpec.name d) x y (ZoneSpec.width d) (ZoneSpec.depth d) "S"
    (ZoneSpec.priority d) "Pull in from garage door".

(** A demand that cannot reach the centred parking slot of a 300 x 300
    garage: a workbench at most 66 deep or a wall-storage section at most 90
    wide and deep. *)
Definition small_demand (s : ZoneSpec.t) : Prop :=
  (ZoneSpec.type s = WORKBENCH /\ ZoneSpec.depth s <= 66)
  \/ (ZoneSpec.type s = WALL_STORAGE
      /\ ZoneSpec.width s <= 90 /\ ZoneSpec.depth s <= 90).


(** A 300 x 240 garage with a window on the north wall, an electrical panel
    without a width on the east wall, a garage door on the south wall, a
    window on the west wall and a drain in the floor. *)
Definition furnished_garage : GarageSpace.t :=
  GarageSpace.mk 300 240 108
    [ Feature.mk (Some "Window") (Some "window") (Some 60) (Some 36) ]
    [ Feature.mk (Some "Electrical Panel") (Some "electrical_panel") (Some 40) None ]
    [ garage_door ]
    [ Feature.mk (Some "Window") (Some "window") (Some 120) (Some 36) ]
    [ Feature.mk (Some "Drain") (Some "drain") (Some 150) (Some 12) ].

(** A constraint whose type marks the garage door's drive-through area. *)
Definition is_garage_door_constraint (c : Constraint.t) : bool :=
  Str.contains "garage_door" (Constraint.constraint_type c).

(** A rectangle within the garage rectangle. *)
Definition rect_in_garage (garage : GarageSpace.t) (x y w d : Q) : Prop :=
  0 <= x /\ 0 <= y
  /\ x + w <= GarageSpace.width garage /\ y + d <= GarageSpace.depth garage.

(** The acceptance test of the overhead pass: both dimensions above 36. *)
Definition useful_size (loc : Loc.t) : bool :=
  Py.gtb (Loc.width loc) 36 && Py.gtb (Loc.depth loc) 36.

(** The zone types that the main placement pass can produce. *)
Definition floor_zone (z : Zone.t) : Prop :=
  Zone.zone_type z = VEHICLE \/ Zone.zone_type z = WORKBENCH
  \/ Zone.zone_type z = WALL_STORAGE.

(** ** Predicates on texts and patterns *)

(** Every character of [s] satisfies [p]. *)
Fixpoint all_chars (p : ascii -> bool) (s : string) : bool :=
  match s with
  | EmptyString => true
  | String c s' => p c && all_chars p s'
  end.





(** The text is empty or starts with a character that is not a digit. *)
Definition no_digit_first (s : string) : Prop :=
  match s with
  | EmptyString => True
  | String c _ => Str.is_digit c = false
  end.

Definition not_digit (c : ascii) : bool := negb (Str.is_digit c).




(** A profile without priorities whose only activity needs a large space. *)
Definition hobby_profile : UsageProfile.t :=
  UsageProfile.mk [] [] [ WorkActivity.mk (Some "Large") ] ∅ ∅ EmptyString.

(** The number of wall-storage zones recorded on a wall. *)
Definition sections_on (wall : string) (placed_zones : list Zone.t) : Z :=
  Z.of_nat
    (List.length
       (List.filter
          (fun z => is_type WALL_STORAGE z && String.eqb (Zone.wall z) wall)
          placed_zones)).

Definition is_storage_wall (wall : string) : bool :=
  String.eqb wall "N" || String.eqb wall "E" || String.eqb wall "W".

(** ** The layout picture

    The character grid of [generate_layout_ascii], before its rows are
    joined into the text.  The grid is a list of rows that the function
    updates cell by cell; IndexError is [None]. *)

(** The position that index [i] denotes in a list of length [n]: Python
    counts a negative index from the end and raises IndexError outside
    [-n, n). *)
Definition py_index (n : nat) (i : Z) : option nat :=
  if (0 <=? i)%Z && (i <? Z.of_nat n)%Z then Some (Z.to_nat i)
  else if (- Z.of_nat n <=? i)%Z && (i <? 0)%Z
       then Some (Z.to_nat (i + Z.of_nat n))
  else None.

(** [grid[y][x] = c]. *)
Definition set_cell (grid : list (list ascii)) (y x : Z) (c : ascii) : option (list (list ascii)) :=
  match py_index (List.length grid) y with
  | None => None
  | Some iy =>
      match grid !! iy with
      | None => None
      | Some row =>
          match py_index (List.length row) x with
          | None => None
          | Some ix => Some (<[iy := <[ix := c]> row]> grid)
          end
      end
  end.

(** A loop whose body may raise: the state after the last element, or
    [None]. *)
Fixpoint for_each {A S} (body : S -> A -> option S) (l : list A) (s : S)
    : option S :=
  match l with
  | [] => Some s
  | a :: l' =>
      match body s a with
      | Some s' => for_each body l' s'
      | None => None
      end
  end.

(** [range(start, stop)]. *)
Definition range_from (start stop : Z) : list Z :=
  map (fun i => (start + Z.of_nat i)%Z) (seq 0 (Z.to_nat (stop - start))).

Definition scale : Q := 6.

Definition grid_width (garage : GarageSpace.t) : Z :=
  (Py.int (GarageSpace.width garage / scale) + 2)%Z.

Definition grid_height (garage : GarageSpace.t) : Z :=
  (Py.int (GarageSpace.depth garage / scale) + 2)%Z.

(** The dictionary [zone_chars]; it has every zone type as a key. *)
Definition zone_chars (t : ZoneType) : ascii :=
  match t with
  | VEHICLE => "V"
  | WORKBENCH => "W"
  | WALL_STORAGE => "S"
  | OVERHEAD_STORAGE => "O"
  | FLOOR_STORAGE => "F"
  | CLEARANCE => "."
  end.

(** The borders: the two loops and the four corners. *)
Definition draw_borders (garage : GarageSpace.t) (grid : list (list ascii)) : option (list (list ascii)) :=
  let grid_width := grid_width garage in
  let grid_height := grid_height garage in
  match
    for_each
      (fun grid x =>
         match set_cell grid 0 x "-" with
         | Some grid => set_cell grid (grid_height - 1) x "-"
         | None => None
         end)
      (range grid_width) grid
  with
  | None => None
  | Some grid =>
      match
        for_each
          (fun grid y =>
             match set_cell grid y 0 "|" with
             | Some grid => set_cell grid y (grid_width - 1) "|"
             | None => None
             end)
          (range grid_height) grid
      with
      | None => None
      | Some grid =>
          for_each (fun grid '(y, x) => set_cell grid y x "+")
            [ (0, 0); (0, grid_width - 1); (grid_height - 1, 0);
              (grid_height - 1, grid_width - 1) ]%Z
            grid
      end
  end.

(** The body of the loop over the zones. *)
Definition draw_zone (garage : GarageSpace.t) (grid : list (list ascii)) (zone : Zone.t)
    : option (list (list ascii)) :=
  let char := zone_chars (Zone.zone_type zone) in
  let x_start := (Py.int (Zone.x zone / scale) + 1)%Z in
  let y_start := (Py.int (Zone.y zone / scale) + 1)%Z in
  let x_end := (Py.int ((Zone.x zone + Zone.width zone) / scale) + 1)%Z in
  let y_end := (Py.int ((Zone.y zone + Zone.depth zone) / scale) + 1)%Z in
  for_each
    (fun grid y =>
       for_each (fun grid x => set_cell grid y x char)
         (range_from (Z.max 1 x_start) (Z.min (grid_width garage - 1) x_end))
         grid)
    (range_from (Z.max 1 y_start) (Z.min (grid_height garage - 1) y_end))
    grid.

(** The letter of a constraint, if it gets one. *)
Definition constraint_letter (constraint : Constraint.t) : option ascii :=
  let t := Str.lower (Constraint.constraint_type constraint) in
  if Str.contains "door" t then Some "D"%char
  else if Str.contains "panel" t || Str.contains "electrical" t then Some "E"%char
  else if Str.contains "window" t then Some "w"%char
  else None.

(** The body of the loop over the constraints. *)
Definition draw_constraint (garage : GarageSpace.t) (grid : list (list ascii))
    (constraint : Constraint.t) : option (list (list ascii)) :=
  let x_pos :=
    (Py.int ((Constraint.x constraint + Constraint.width constraint / 2) / scale)
     + 1)%Z in
  let y_pos :=
    (Py.int ((Constraint.y constraint + Constraint.depth constraint / 2) / scale)
     + 1)%Z in
  if (0 <? x_pos)%Z && (x_pos <? grid_width garage - 1)%Z
     && (0 <? y_pos)%Z && (y_pos <? grid_height garage - 1)%Z
  then
    match constraint_letter constraint with
    | Some c => set_cell grid y_pos x_pos c
    | None => Some grid
    end
  else Some grid.

(** The grid of [generate_layout_ascii(garage, recommendation)]. *)
Definition layout_grid (garage : GarageSpace.t)
    (recommendation : LayoutRecommendation.t) : option (list (list ascii)) :=
  let grid : list (list ascii) :=
    replicate (Z.to_nat (grid_height garage))
      (replicate (Z.to_nat (grid_width garage)) " "%char) in
  match draw_borders garage grid with
  | None => None
  | Some grid =>
      match
        for_each (draw_zone garage) (LayoutRecommendation.zones recommendation)
          grid
      with
      | None => None
      | Some grid =>
          for_each (draw_constraint garage)
            (LayoutRecommendation.constraints recommendation) grid
      end
  end.

(** ** Reading the picture *)

(** The character at row [y], column [x] of a grid. *)
Definition cell_at (grid : list (list ascii)) (y x : nat) : option ascii :=
  match grid !! y with
  | Some row => row !! x
  | None => None
  end.

(** A grid of [h] rows of [w] characters. *)
Definition grid_of_size (w h : nat) (grid : list (list ascii)) : Prop :=
  List.length grid = h /\ Forall (fun row => List.length row = w) grid.

(** The last [Some] result of [f] along [l]. *)
Fixpoint last_some {A B} (f : A -> option B) (l : list A) : option B :=
  match l with
  | [] => None
  | a :: l' =>
      match last_some f l' with
      | Some b => Some b
      | None => f a
      end
  end.

(** The frame of a picture of [w] columns and [h] rows. *)
Definition frame_char (w h y x : nat) : ascii :=
  if ((y =? 0) || (y =? h - 1))%nat && ((x =? 0) || (x =? w - 1))%nat then "+"
  else if ((x =? 0) || (x =? w - 1))%nat then "|"
  else "-".

Definition on_frame (w h y x : nat) : Prop :=
  y = 0%nat \/ y = (h - 1)%nat \/ x = 0%nat \/ x = (w - 1)%nat.

(** The cells that the loop over the zones fills for [zone]. *)
Definition zone_covers (garage : GarageSpace.t) (zone : Zone.t) (y x : nat) : bool :=
  let x_start := (Py.int (Zone.x zone / scale) + 1)%Z in
  let y_start := (Py.int (Zone.y zone / scale) + 1)%Z in
  let x_end := (Py.int ((Zone.x zone + Zone.width zone) / scale) + 1)%Z in
  let y_end := (Py.int ((Zone.y zone + Zone.depth zone) / scale) + 1)%Z in
  ((Z.max 1 y_start <=? Z.of_nat y) && (Z.of_nat y <? Z.min (grid_height garage - 1) y_end)
   && (Z.max 1 x_start <=? Z.of_nat x) && (Z.of_nat x <? Z.min (grid_width garage - 1) x_end))%Z.

(** The letter that [constraint] puts on the cell, if any. *)
Definition constraint_marks (garage : GarageSpace.t) (constraint : Constraint.t)
    (y x : nat) : option ascii :=
  let x_pos :=
    (Py.int ((Constraint.x constraint + Constraint.width constraint / 2) / scale)
     + 1)%Z in
  let y_pos :=
    (Py.int ((Constraint.y constraint + Constraint.depth constraint / 2) / scale)
     + 1)%Z in
  if ((0 <? x_pos) && (x_pos <? grid_width garage - 1)
      && (0 <? y_pos) && (y_pos <? grid_height garage - 1)
      && (Z.of_nat y =? y_pos) && (Z.of_nat x =? x_pos))%Z
  then constraint_letter constraint
  else None.

(** A write at [p] reaches the cell at row [y], column [x]. *)
Definition hit (p : Z * Z) (y x : nat) : bool :=
  ((y =? Z.to_nat (fst p)) && (x =? Z.to_nat (snd p)))%nat.

Definition in_grid (w h : nat) (p : Z * Z) : Prop :=
  (0 <= fst p < Z.of_nat h)%Z /\ (0 <= snd p < Z.of_nat w)%Z.

Definition on_frameb (w h y x : nat) : bool :=
  ((y =? 0) || (y =? h - 1) || (x =? 0) || (x =? w - 1))%nat.

(** The character of the last zone of the list that covers the cell. *)
Definition zone_letter (garage : GarageSpace.t) (zones : list Zone.t)
    (y x : nat) : option ascii :=
  last_some
    (fun zone =>
       if zone_covers garage zone y x
       then Some (zone_chars (Zone.zone_type zone)) else None)
    zones.

(** What the picture shows at a cell: the letter of the last constraint
    that marks it, else the character of the last zone that covers it, else
    the frame or a blank. *)
Definition picture_char (garage : GarageSpace.t)
    (recommendation : LayoutRecommendation.t) (y x : nat) : ascii :=
  let w := Z.to_nat (grid_width garage) in
  let h := Z.to_nat (grid_height garage) in
  match
    last_some (fun c => constraint_marks garage c y x)
      (LayoutRecommendation.constraints recommendation)
  with
  | Some c => c
  | None =>
      match zone_letter garage (LayoutRecommendation.zones recommendation) y x with
      | Some c => c
      | None => if on_frameb w h y x then frame_char w h y x else " "%char
      end
  end.

(** ** Loading the garage layout

    [load_garage_layout] reads a text file.  The file system is the
    argument [file]: the content of the file, or [None] when the file does
    not exist (FileNotFoundError); the warning printed in that case is not
    modelled.  In ASCII text the bullet character of the feature lines does
    not occur, which leaves the dash and the star. *)

(** [s.split(sep)] for a non-empty separator; [skip] counts the characters
    of a separator that was found and is being passed over. *)
Fixpoint split_from (sep s : string) (skip : nat) : list string :=
  match s with
  | EmptyString => [ EmptyString ]
  | String c s' =>
      match skip with
      | S k => split_from sep s' k
      | O =>
          if String.prefix sep s
          then EmptyString :: split_from sep s' (String.length sep - 1)
          else
            match split_from sep s' 0 with
            | part :: parts => String c part :: parts
            | [] => [ String c EmptyString ]
            end
      end
  end.

Definition split (sep s : string) : list string := split_from sep s 0.

(** [s.lstrip(chars)]. *)
Fixpoint lstrip_chars (chars : ascii -> bool) (s : string) : string :=
  match s with
  | String c s' => if chars c then lstrip_chars chars s' else s
  | EmptyString => EmptyString
  end.

(** [s.replace(' ', '_')]. *)
Fixpoint replace_spaces (s : string) : string :=
  match s with
  | EmptyString => EmptyString
  | String c s' =>
      String (if Ascii.eqb c " " then "_"%char else c) (replace_spaces s')
  end.

(** The regular expression of a literal text. *)
Fixpoint literal (s : string) : Re.regex :=
  match s with
  | EmptyString => Re.Rep (fun _ => false) 0
  | String c EmptyString => Re.Chr c
  | String c s' => Re.Cat (Re.Chr c) (literal s')
  end.

Definition not_paren (c : ascii) : bool := negb (Ascii.eqb c "(").
Definition not_newline (c : ascii) : bool := negb (Ascii.eqb c "010").

(** [Dimensions:\s*([^(]+)\s*\(E-W\)\s*x\s*([^(]+)\s*\(N-S\)] *)
Definition dim_pattern : Re.regex :=
  Re.Cat (literal "Dimensions:")
   (Re.Cat Re.spaces0
    (Re.Cat (Re.Grp 1 (Re.Rep not_paren 1))
     (Re.Cat Re.spaces0
      (Re.Cat (literal "(E-W)")
       (Re.Cat Re.spaces0
        (Re.Cat (Re.Chr "x")
         (Re.Cat Re.spaces0
          (Re.Cat (Re.Grp 2 (Re.Rep not_paren 1))
           (Re.Cat Re.spaces0 (literal "(N-S)")))))))))).

(** [Ceiling Height:\s*(.+)] *)
Definition ceiling_pattern : Re.regex :=
  Re.Cat (literal "Ceiling Height:")
   (Re.Cat Re.spaces0 (Re.Grp 1 (Re.Rep not_newline 1))).

(** The wall section after a line: the chain of tests on the section
    headers. *)
Definition wall_after (line : string) (current_wall : option string)
    : option string :=
  if Str.contains "NORTH WALL:" line then Some "N"
  else if Str.contains "EAST WALL:" line then Some "E"
  else if Str.contains "SOUTH WALL:" line then Some "S"
  else if Str.contains "WEST WALL:" line then Some "W"
  else if Str.contains "FLOOR FEATURES:" line then Some "FLOOR"
  else current_wall.

(** [line.startswith(('-', bullet, '*'))]. *)
Definition starts_feature (line : string) : bool :=
  match line with
  | String c _ => Ascii.eqb c "-" || Ascii.eqb c "*"
  | EmptyString => false
  end.

Definition bullet_or_space (c : ascii) : bool :=
  Ascii.eqb c "-" || Ascii.eqb c "*" || Ascii.eqb c " ".

(** The feature dictionary built from a feature line. *)
Definition loaded_feature (line : string) : Feature.t :=
  let parts := split " at " (lstrip_chars bullet_or_space line) in
  let feature_name := Str.strip (nth 0 parts EmptyString) in
  let position :=
    match parts with
    | _ :: second :: _ => Str.strip second
    | _ => "0"
    end in
  let width := 36 in
  let width :=
    if Str.contains "garage door" (Str.lower feature_name) then 192
    else if Str.contains "door" (Str.lower feature_name) then 36
    else if Str.contains "window" (Str.lower feature_name) then 36
    else if Str.contains "panel" (Str.lower feature_name) then 24
    else width in
  Feature.mk (Some feature_name)
    (Some (replace_spaces (Str.lower feature_name)))
    (Some (or_else (measurement_to_inches position) 0))
    (Some width).

(** The [append] chosen by the current wall section. *)
Definition add_feature (garage : GarageSpace.t) (wall : string)
    (feature : Feature.t) : GarageSpace.t :=
  let '(GarageSpace.mk width depth ceiling north east south west floor) := garage in
  if String.eqb wall "N" then
    GarageSpace.mk width depth ceiling (north ++ [ feature ]) east south west floor
  else if String.eqb wall "E" then
    GarageSpace.mk width depth ceiling north (east ++ [ feature ]) south west floor
  else if String.eqb wall "S" then
    GarageSpace.mk width depth ceiling north east (south ++ [ feature ]) west floor
  else if String.eqb wall "W" then
    GarageSpace.mk width depth ceiling north east south (west ++ [ feature ]) floor
  else if String.eqb wall "FLOOR" then
    GarageSpace.mk width depth ceiling north east south west (floor ++ [ feature ])
  else garage.

(** The body of the loop over the lines, on the garage and the current
    wall section. *)
Definition load_line (st : GarageSpace.t * option string) (line : string)
    : GarageSpace.t * option string :=
  let '(garage, current_wall) := st in
  let line := Str.strip line in
  let current_wall := wall_after line current_wall in
  match current_wall with
  | Some wall =>
      if starts_feature line
      then (add_feature garage wall (loaded_feature line), current_wall)
      else (garage, current_wall)
  | None => (garage, current_wall)
  end.

(** [load_garage_layout(filepath)], on the content of the file. *)
Definition load_garage_layout (file : option string) : GarageSpace.t :=
  let garage := GarageSpace.mk 0 0 0 [] [] [] [] [] in
  match file with
  | None => garage
  | Some content =>
      let garage :=
        match Re.search dim_pattern content with
        | Some g =>
            GarageSpace.mk
              (or_else (measurement_to_inches (Str.strip (group g 1))) 0)
              (or_else (measurement_to_inches (Str.strip (group g 2))) 0)
              (GarageSpace.ceiling_height garage) [] [] [] [] []
        | None => garage
        end in
      let garage :=
        match Re.search ceiling_pattern content with
        | Some g =>
            GarageSpace.mk (GarageSpace.width garage) (GarageSpace.depth garage)
              (or_else (measurement_to_inches (Str.strip (group g 1))) 0)
              [] [] [] [] []
        | None => garage
        end in
      fst (fold_left load_line (split (String "010" EmptyString) content)
             (garage, None))
  end.

(** The features of a garage, wall by wall and then the floor. *)
Definition all_features (garage : GarageSpace.t) : list Feature.t :=
  GarageSpace.north_features garage ++ GarageSpace.east_features garage
  ++ GarageSpace.south_features garage ++ GarageSpace.west_features garage
  ++ GarageSpace.floor_features garage.


(** * Properties *)

(** ** Comparisons *)

Lemma Py_ltb_lt a b : Py.ltb a b = true <-> a < b.
Proof.
  unfold Py.ltb. rewrite negb_true_iff, <- not_true_iff_false, Qle_bool_iff.
  split; [apply Qnot_le_lt | apply Qlt_not_le].
Qed.

Lemma Py_ltb_ge a b : Py.ltb a b = false <-> b <= a.
Proof.
  unfold Py.ltb. rewrite negb_false_iff, Qle_bool_iff. reflexivity.
Qed.

Lemma Py_leb_le a b : Py.leb a b = true <-> a <= b.
Proof. apply Qle_bool_iff. Qed.

Lemma Py_leb_gt a b : Py.leb a b = false <-> b < a.
Proof.
  unfold Py.leb. rewrite <- not_true_iff_false, Qle_bool_iff.
  split; [apply Qnot_le_lt | apply Qlt_not_le].
Qed.

(** ** The collision predicate *)

Lemma rectangles_overlap_true x1 y1 w1 h1 x2 y2 w2 h2 :
  rectangles_overlap x1 y1 w1 h1 x2 y2 w2 h2 = true <->
  x2 < x1 + w1 /\ x1 < x2 + w2 /\ y2 < y1 + h1 /\ y1 < y2 + h2.
Proof.
  unfold rectangles_overlap.
  rewrite negb_true_iff, !orb_false_iff, !Py_leb_gt. tauto.
Qed.

Lemma rectangles_overlap_false x1 y1 w1 h1 x2 y2 w2 h2 :
  rectangles_overlap x1 y1 w1 h1 x2 y2 w2 h2 = false <->
  x1 + w1 <= x2 \/ x2 + w2 <= x1 \/ y1 + h1 <= y2 \/ y2 + h2 <= y1.
Proof.
  unfold rectangles_overlap.
  rewrite negb_false_iff, !orb_true_iff, !Py_leb_le. tauto.
Qed.

(** C3: [rectangles_overlap] is true exactly when none of the four
    separating inequalities holds; it is symmetric in its two rectangles;
    and two rectangles that touch at an edge do not overlap. *)
Theorem C3_rectangles_overlap_spec (x1 y1 w1 h1 x2 y2 w2 h2 : Q) :
  (rectangles_overlap x1 y1 w1 h1 x2 y2 w2 h2 = true <->
   ~ (x1 + w1 <= x2 \/ x2 + w2 <= x1 \/ y1 + h1 <= y2 \/ y2 + h2 <= y1))
  /\ rectangles_overlap x1 y1 w1 h1 x2 y2 w2 h2
     = rectangles_overlap x2 y2 w2 h2 x1 y1 w1 h1
  /\ (x1 + w1 == x2 \/ x2 + w2 == x1 \/ y1 + h1 == y2 \/ y2 + h2 == y1 ->
      rectangles_overlap x1 y1 w1 h1 x2 y2 w2 h2 = false).
Proof.
  split; [| split].
  - rewrite <- rectangles_overlap_false.
    destruct (rectangles_overlap x1 y1 w1 h1 x2 y2 w2 h2); split; congruence.
  - destruct (rectangles_overlap x2 y2 w2 h2 x1 y1 w1 h1) eqn:E.
    + apply rectangles_overlap_true in E. apply rectangles_overlap_true. tauto.
    + apply rectangles_overlap_false in E. apply rectangles_overlap_false. tauto.
  - intros H. apply rectangles_overlap_false.
    destruct H as [H | [H | [H | H]]]; rewrite H; auto using Qle_refl.
Qed.

(** ** The score *)

Lemma Py_max_Qmax a b : Py.max a b == Qmax a b.
Proof.
  unfold Py.max. destruct (Py.ltb a b) eqn:E.
  - apply Py_ltb_lt in E. symmetry. apply Q.max_r. lra.
  - apply Py_ltb_ge in E. symmetry. apply Q.max_l. exact E.
Qed.

Lemma Py_min_Qmin a b : Py.min a b == Qmin a b.
Proof.
  unfold Py.min. destruct (Py.ltb b a) eqn:E.
  - apply Py_ltb_lt in E. symmetry. apply Q.min_r. lra.
  - apply Py_ltb_ge in E. symmetry. apply Q.min_l. exact E.
Qed.

Lemma ZoneType_eqb_eq a b : ZoneType_eqb a b = true <-> a = b.
Proof. destruct a, b; simpl; split; congruence. Qed.

Lemma is_type_eq t z : is_type t z = true <-> Zone.zone_type z = t.
Proof. apply ZoneType_eqb_eq. Qed.

Lemma existsb_is_type t zones :
  existsb (is_type t) zones = true <-> Exists (fun z => Zone.zone_type z = t) zones.
Proof.
  rewrite existsb_exists, List.Exists_exists.
  split; intros (z & Hin & Hz); exists z; (split; [exact Hin | now apply is_type_eq]).
Qed.

Lemma priority_ge_4 profile key :
  (4 <=? priority_of profile key 0)%Z = true <-> (4 <= spec_priority profile key)%Z.
Proof.
  unfold priority_of, spec_priority. rewrite Z.leb_le.
  destruct (UsageProfile.priorities profile !! key); simpl; lia.
Qed.

Lemma bonus_spec zones profile t key (score : Q) :
  (if existsb (is_type t) zones && (4 <=? priority_of profile key 0)%Z
   then score + 10 else score)
  == score + spec_bonus zones profile t key.
Proof.
  unfold spec_bonus.
  destruct (existsb (is_type t) zones && (4 <=? priority_of profile key 0)%Z) eqn:E.
  - apply andb_true_iff in E. destruct E as [E1 E2].
    apply existsb_is_type in E1. apply priority_ge_4 in E2.
    rewrite bool_decide_eq_true_2 by tauto. reflexivity.
  - rewrite bool_decide_eq_false_2; [lra |].
    intros [E1 E2]. apply existsb_is_type in E1. apply priority_ge_4 in E2.
    rewrite E1, E2 in E. discriminate.
Qed.

(** C8: the score is 100 minus 15 per warning, plus 10 when a VEHICLE zone
    was placed and the vehicle_storage priority is at least 4, plus 10 when a
    WORKBENCH zone was placed and the workspace priority is at least 4,
    clamped to [0, 100]; and the score of a recommendation is this value on
    its own zones and warnings. *)
Theorem C8_score_formula (garage : GarageSpace.t) (profile : UsageProfile.t)
    (zones : list Zone.t) (warnings : list string) :
  calculate_layout_score zones warnings profile == spec_score zones warnings profile
  /\ 0 <= calculate_layout_score zones warnings profile <= 100
  /\ LayoutRecommendation.score (optimize_layout garage profile)
     = calculate_layout_score
         (LayoutRecommendation.zones (optimize_layout garage profile))
         (LayoutRecommendation.warnings (optimize_layout garage profile))
         profile.
Proof.
  assert (E : calculate_layout_score zones warnings profile
              == spec_score zones warnings profile).
  { unfold calculate_layout_score, spec_score.
    rewrite Py_max_Qmax, Py_min_Qmin, !bonus_spec.
    apply Q.max_compat; [reflexivity |]. apply Q.min_compat; [reflexivity |].
    lra. }
  split; [exact E | split; [| reflexivity]].
  rewrite E. unfold spec_score. split.
  - apply Q.le_max_l.
  - apply Q.max_lub; [lra | apply Q.le_min_l].
Qed.

(** ** Sorting *)

Lemma insert_by_perm {A} (le : A -> A -> bool) x l :
  Permutation (insert_by le x l) (x :: l).
Proof.
  induction l as [| y l IH]; simpl; [reflexivity |].
  destruct (le x y); [reflexivity |].
  rewrite IH. apply perm_swap.
Qed.

Lemma stable_sort_perm {A} (le : A -> A -> bool) l :
  Permutation (stable_sort le l) l.
Proof.
  induction l as [| x l IH]; simpl; [reflexivity |].
  rewrite insert_by_perm. now apply perm_skip.
Qed.

Lemma zones_needed_sorted_perm profile :
  Permutation (zones_needed_sorted profile) (zones_needed profile).
Proof. apply stable_sort_perm. Qed.

Lemma filter_length_perm {A} (f : A -> bool) l l' :
  Permutation l l' ->
  List.length (List.filter f l) = List.length (List.filter f l').
Proof.
  induction 1; simpl; auto.
  - destruct (f x); simpl; auto.
  - destruct (f x), (f y); reflexivity.
  - congruence.
Qed.

(** ** Wall-storage demands *)

Lemma filter_none {A} (f : A -> bool) l :
  Forall (fun a => f a = false) l -> List.filter f l = [].
Proof.
  induction 1 as [| a l Ha _ IH]; simpl; [reflexivity |]. now rewrite Ha.
Qed.

Lemma filter_all {A} (f : A -> bool) l :
  Forall (fun a => f a = true) l -> List.filter f l = l.
Proof.
  induction 1 as [| a l Ha _ IH]; simpl; [reflexivity |]. now rewrite Ha, IH.
Qed.

Lemma Forall_imap_intro {A B} (P : B -> Prop) (f : nat -> A -> B) l :
  (forall i a, P (f i a)) -> Forall P (imap f l).
Proof.
  intros H. revert f H.
  induction l as [| a l IH]; intros f H; simpl; constructor; auto.
  apply IH. intros i b. apply H.
Qed.

Lemma vehicle_specs_type profile :
  Forall (fun d => ZoneSpec.type d = VEHICLE) (vehicle_specs profile).
Proof. apply Forall_imap_intro. reflexivity. Qed.

Lemma workbench_specs_type profile :
  Forall (fun d => ZoneSpec.type d = WORKBENCH) (workbench_specs profile).
Proof.
  unfold workbench_specs.
  destruct (_ || _); repeat constructor.
Qed.

Lemma wall_storage_specs_type profile :
  Forall (fun d => ZoneSpec.type d = WALL_STORAGE) (wall_storage_specs profile).
Proof.
  unfold wall_storage_specs.
  destruct (preference_of profile "wall_storage" true); [| constructor].
  apply List.Forall_forall. intros d Hd. apply in_map_iff in Hd.
  destruct Hd as (i & <- & _). reflexivity.
Qed.

Lemma wall_storage_demands_needed profile :
  wall_storage_demands (zones_needed profile)
  = Z.of_nat (List.length (wall_storage_specs profile)).
Proof.
  unfold wall_storage_demands, zones_needed.
  rewrite !List.filter_app, !List.length_app.
  rewrite (filter_none _ (vehicle_specs profile)), (filter_none _ (workbench_specs profile)),
    (filter_all _ (wall_storage_specs profile)); simpl.
  - reflexivity.
  - eapply List.Forall_impl; [| apply wall_storage_specs_type].
    intros d ->. reflexivity.
  - eapply List.Forall_impl; [| apply workbench_specs_type].
    intros d ->. reflexivity.
  - eapply List.Forall_impl; [| apply vehicle_specs_type].
    intros d ->. reflexivity.
Qed.

Lemma count_access_spec profile freq :
  freq <> EmptyString ->
  count_access profile freq
  = Z.of_nat
      (List.length
         (List.filter
            (fun s => bool_decide (StorageCategory.needs_accessibility s = Some freq))
            (UsageProfile.storage_categories profile))).
Proof.
  intros Hfreq. unfold count_access. do 2 f_equal.
  apply List.filter_ext. intros [[a |]]; cbn [StorageCategory.needs_accessibility default from_option id].
  - destruct (String.eqb_spec a freq) as [-> | Hne]; symmetry.
    + now apply bool_decide_eq_true_2.
    + apply bool_decide_eq_false_2. congruence.
  - destruct (String.eqb_spec EmptyString freq) as [<- | Hne]; [congruence |].
    symmetry. now apply bool_decide_eq_false_2.
Qed.

Lemma base_sections_spec profile : base_sections profile = spec_base profile.
Proof.
  unfold base_sections, spec_base.
  rewrite !count_access_spec by discriminate. lia.
Qed.

Lemma spec_base_ge_2 profile : (2 <= spec_base profile)%Z.
Proof. unfold spec_base. lia. Qed.

Lemma int_times_1_5 (base : Z) :
  (0 <= base)%Z -> Py.int (inject_Z base * (3 # 2)) = floor_times_1_5 base.
Proof.
  intros H. unfold Py.int, floor_times_1_5. simpl.
  rewrite Z.quot_div_nonneg by lia. f_equal. lia.
Qed.

Lemma sections_needed_spec profile :
  sections_needed profile = spec_sections floor_times_1_5 profile.
Proof.
  unfold sections_needed, spec_sections, priority_of, spec_priority.
  pose proof (spec_base_ge_2 profile) as Hb.
  rewrite base_sections_spec, int_times_1_5 by lia.
  generalize dependent (spec_base profile). intros b Hb.
  generalize (default 3%Z (UsageProfile.priorities profile !! "general_storage")).
  intros p.
  destruct (Z.leb_spec 5 p), (Z.leb_spec 4 p); repeat case_bool_decide;
    solve [lia | reflexivity].
Qed.

Lemma sections_needed_nonneg profile : (0 <= sections_needed profile)%Z.
Proof.
  rewrite sections_needed_spec. unfold spec_sections, floor_times_1_5.
  pose proof (spec_base_ge_2 profile) as Hb.
  generalize dependent (spec_base profile). intros b Hb.
  repeat case_bool_decide; try lia.
  apply Z.min_glb; [lia | apply Z.div_pos; lia].
Qed.

(** C5 (amended): with the wall_storage preference enabled (the default),
    the number of WALL_STORAGE demands, before and after the priority sort,
    is 20 when the general_storage priority is at least 5, min(15, base x 1.5
    rounded down) when it is at least 4, and min(8, base) otherwise, where
    base = 2 + categories + 2 x daily + 1 x weekly. *)
Theorem C5_wall_storage_demand_count (profile : UsageProfile.t) :
  preference_of profile "wall_storage" true = true ->
  wall_storage_demands (zones_needed profile) = spec_sections floor_times_1_5 profile
  /\ wall_storage_demands (zones_needed_sorted profile)
     = spec_sections floor_times_1_5 profile.
Proof.
  intros Hpref.
  assert (E : wall_storage_demands (zones_needed profile)
              = spec_sections floor_times_1_5 profile).
  { rewrite wall_storage_demands_needed. unfold wall_storage_specs.
    rewrite Hpref, List.length_map. unfold range.
    rewrite List.length_map, List.length_seq, Z2Nat.id by apply sections_needed_nonneg.
    apply sections_needed_spec. }
  split; [exact E |].
  rewrite <- E. unfold wall_storage_demands. f_equal.
  apply filter_length_perm, zones_needed_sorted_perm.
Qed.

(** Scenario D yields exactly 20 WALL_STORAGE demands. *)
Lemma C5_scenario_D :
  preference_of scenario_D "wall_storage" true = true
  /\ wall_storage_demands (zones_needed scenario_D) = 20%Z
  /\ wall_storage_demands (zones_needed_sorted scenario_D) = 20%Z.
Proof.
  split; [reflexivity |].
  destruct (C5_wall_storage_demand_count scenario_D eq_refl) as [E1 E2].
  rewrite E1, E2. split; reflexivity.
Defined.

(** C5 as stated fails: on [three_categories] the program generates 7
    WALL_STORAGE demands, where rounding 7.5 (to even or upward) gives 8. *)
Lemma C5_rounding_counterexample :
  preference_of three_categories "wall_storage" true = true
  /\ wall_storage_demands (zones_needed three_categories) = 7%Z
  /\ spec_sections round_times_1_5 three_categories = 8%Z
  /\ spec_sections round_up_times_1_5 three_categories = 8%Z.
Proof. repeat split; vm_compute; reflexivity. Qed.

(** ** Garage-door constraints *)

Lemma in_add_wall_constraints garage features wall f c :
  In f features -> wall_constraint garage wall f = Some c ->
  In c (add_wall_constraints garage features wall).
Proof.
  intros Hin Hc. apply list_elem_of_In, list_elem_of_omap.
  exists f. split; [now apply list_elem_of_In | exact Hc].
Qed.

Lemma in_generate_constraints garage c :
  In c (generate_constraints garage) <->
  In c (add_wall_constraints garage (GarageSpace.north_features garage) "N")
  \/ In c (add_wall_constraints garage (GarageSpace.east_features garage) "E")
  \/ In c (add_wall_constraints garage (GarageSpace.south_features garage) "S")
  \/ In c (add_wall_constraints garage (GarageSpace.west_features garage) "W").
Proof. unfold generate_constraints. rewrite !in_app_iff. tauto. Qed.

Lemma Py_max_0_nonneg a : 0 <= a -> Py.max 0 a == a.
Proof.
  intros H. unfold Py.max. destruct (Py.ltb 0 a) eqn:E; [reflexivity |].
  apply Py_ltb_ge in E. lra.
Qed.

(** C4 (amended): for a feature that indicates a garage door, the override
    to a 60-inch clearance depth applies on the north and south walls only.
    On the south wall the constraint has depth 60 and y = max(0, garage.depth
    - 60), which is garage.depth - 60 when the garage is at least 60 deep; on
    the north wall it has depth 60 and y = 0.  On the east and west walls no
    override applies: the width is the per-type clearance (36 for type
    garage_door, 24 for a type outside the table) and the depth is the
    feature's width. *)
Theorem C4_garage_door_constraint (garage : GarageSpace.t) (f : Feature.t) :
  let ftype := Str.lower (default EmptyString (Feature.type f)) in
  let name := default "Unknown" (Feature.name f) in
  let pos := default 0 (Feature.position f) in
  let width := default 36 (Feature.width f) in
  let table := default 24 (CLEARANCES !! ftype) in
  indicates_garage_door ftype name = true ->
  (In f (GarageSpace.south_features garage) ->
   exists c, In c (generate_constraints garage)
     /\ Constraint.wall c = "S" /\ Constraint.constraint_type c = ftype
     /\ Constraint.depth c = 60 /\ Constraint.width c = width
     /\ Constraint.x c = Py.max 0 (pos - width / 2)
     /\ Constraint.y c = Py.max 0 (GarageSpace.depth garage - 60)
     /\ (60 <= GarageSpace.depth garage ->
         Constraint.y c == GarageSpace.depth garage - 60))
  /\ (In f (GarageSpace.north_features garage) ->
      exists c, In c (generate_constraints garage)
        /\ Constraint.wall c = "N" /\ Constraint.constraint_type c = ftype
        /\ Constraint.depth c = 60 /\ Constraint.width c = width
        /\ Constraint.x c = Py.max 0 (pos - width / 2)
        /\ Constraint.y c == 0)
  /\ (In f (GarageSpace.east_features garage) ->
      exists c, In c (generate_constraints garage)
        /\ Constraint.wall c = "E" /\ Constraint.constraint_type c = ftype
        /\ Constraint.depth c = width /\ Constraint.width c = table
        /\ Constraint.x c = Py.max 0 (GarageSpace.width garage - table)
        /\ Constraint.y c = Py.max 0 (pos - width / 2))
  /\ (In f (GarageSpace.west_features garage) ->
      exists c, In c (generate_constraints garage)
        /\ Constraint.wall c = "W" /\ Constraint.constraint_type c = ftype
        /\ Constraint.depth c = width /\ Constraint.width c = table
        /\ Constraint.x c == 0
        /\ Constraint.y c = Py.max 0 (pos - width / 2))
  /\ (Feature.type f = Some "garage_door" -> table = 36).
Proof.
  intros ftype name pos width table Hdoor.
  repeat split.
  - intros Hin. eexists. split.
    { apply in_generate_constraints. right; right; left.
      eapply in_add_wall_constraints; [exact Hin |].
      unfold wall_constraint. fold ftype name pos width table.
      rewrite Hdoor. simpl. reflexivity. }
    simpl. repeat split; try reflexivity.
    intros Hd. apply Py_max_0_nonneg. lra.
  - intros Hin. eexists. split.
    { apply in_generate_constraints. left.
      eapply in_add_wall_constraints; [exact Hin |].
      unfold wall_constraint. fold ftype name pos width table.
      rewrite Hdoor. simpl. reflexivity. }
    simpl. repeat split; reflexivity.
  - intros Hin. eexists. split.
    { apply in_generate_constraints. right; left.
      eapply in_add_wall_constraints; [exact Hin |].
      unfold wall_constraint. fold ftype name pos width table.
      rewrite Hdoor. simpl. reflexivity. }
    simpl. repeat split; reflexivity.
  - intros Hin. eexists. split.
    { apply in_generate_constraints. right; right; right.
      eapply in_add_wall_constraints; [exact Hin |].
      unfold wall_constraint. fold ftype name pos width table.
      rewrite Hdoor. simpl. reflexivity. }
    simpl. repeat split; reflexivity.
  - intros Ht. subst table ftype. rewrite Ht. reflexivity.
Qed.

(** Scenario E yields a constraint of depth 60 at y = 300 - 60. *)
Lemma C4_scenario_E :
  indicates_garage_door "garage_door" "Garage Door" = true
  /\ In garage_door (GarageSpace.south_features scenario_E)
  /\ exists c, In c (generate_constraints scenario_E)
    /\ Constraint.wall c = "S" /\ Constraint.depth c = 60
    /\ Constraint.y c == 300 - 60.
Proof.
  split; [reflexivity | split; [left; reflexivity |]].
  destruct (C4_garage_door_constraint scenario_E garage_door eq_refl) as [HS _].
  destruct (HS (or_introl eq_refl)) as (c & Hin & Hw & _ & Hd & _ & _ & _ & Hy).
  exists c. repeat split; [exact Hin | exact Hw | exact Hd |].
  apply Hy. discriminate.
Defined.

(** C4 as stated fails: a garage door on the east wall keeps the 36-inch
    table clearance (as the constraint's width) and gets depth 192, the
    feature's width, not 60; and on the south wall of a garage 48 inches deep
    the constraint has y = 0, not 48 - 60. *)
Lemma C4_east_wall_counterexample :
  (exists c, generate_constraints door_on_east = [c]
     /\ Constraint.wall c = "E" /\ Constraint.width c = 36
     /\ Constraint.depth c = 192 /\ ~ Constraint.depth c == 60)
  /\ (exists c, generate_constraints shallow_garage = [c]
        /\ Constraint.wall c = "S" /\ Constraint.depth c = 60
        /\ Constraint.y c = 0 /\ ~ Constraint.y c == 48 - 60).
Proof.
  split; eexists; (split; [vm_compute; reflexivity |]); simpl;
    repeat split; try reflexivity; discriminate.
Qed.

(** ** The main placement pass *)

Lemma prefix_append (n b : string) : String.prefix n (n ++ b) = true.
Proof.
  induction n as [| c n IH]; simpl; [now destruct b |].
  destruct (ascii_dec c c); [exact IH | congruence].
Qed.

Lemma contains_prefix (n h : string) :
  String.prefix n h = true -> Str.contains n h = true.
Proof. intros H. destruct h; cbn [Str.contains]; rewrite H; reflexivity. Qed.

Lemma contains_append (a n b : string) : Str.contains n (a ++ n ++ b) = true.
Proof.
  induction a as [| c a IH].
  - change (Str.contains n (n ++ b) = true).
    apply contains_prefix, prefix_append.
  - simpl. rewrite IH. apply orb_true_r.
Qed.

Lemma unplaced_message_names spec :
  Str.contains (ZoneSpec.name spec) (unplaced_message spec) = true.
Proof. apply contains_append. Qed.

Lemma place_all_cons garage constraints preferences spec specs st :
  place_all garage constraints preferences (spec :: specs) st
  = place_all garage constraints preferences specs
      (place_step garage constraints preferences st spec).
Proof. reflexivity. Qed.

Lemma place_step_lengths garage constraints preferences st spec :
  (List.length (Run.zones (place_step garage constraints preferences st spec))
   + List.length (Run.warnings (place_step garage constraints preferences st spec))
   = S (List.length (Run.zones st) + List.length (Run.warnings st)))%nat
  /\ (List.length (Run.reasoning (place_step garage constraints preferences st spec))
      + List.length (Run.warnings (place_step garage constraints preferences st spec))
      = S (List.length (Run.reasoning st) + List.length (Run.warnings st)))%nat.
Proof.
  unfold place_step. destruct (place_zone _ _ _ _ _); simpl;
    rewrite !List.length_app; simpl; lia.
Qed.

Lemma place_all_lengths garage constraints preferences specs st :
  (List.length (Run.zones (place_all garage constraints preferences specs st))
   + List.length (Run.warnings (place_all garage constraints preferences specs st))
   = List.length (Run.zones st) + List.length (Run.warnings st)
     + List.length specs)%nat
  /\ (List.length (Run.reasoning (place_all garage constraints preferences specs st))
      + List.length (Run.warnings (place_all garage constraints preferences specs st))
      = List.length (Run.reasoning st) + List.length (Run.warnings st)
        + List.length specs)%nat.
Proof.
  revert st. induction specs as [| spec specs IH]; intros st.
  - simpl. lia.
  - rewrite place_all_cons.
    destruct (IH (place_step garage constraints preferences st spec)) as [I1 I2].
    destruct (place_step_lengths garage constraints preferences st spec) as [H1 H2].
    simpl List.length. lia.
Qed.

(** C9: in the main placement pass each demand has exactly one outcome.  A
    success appends the zone to the placed list and to the result's zones and
    appends one reasoning string, leaving the warnings; a failure appends one
    warning that names the zone and leaves the placed list, the zones and the
    reasoning; in both cases the loop goes on with the next demand, so a full
    pass over a demand list adds one zone or one warning per demand. *)
Theorem C9_one_outcome_per_demand (garage : GarageSpace.t)
    (constraints : list Constraint.t) (preferences : gmap string bool)
    (st : Run.t) (spec : ZoneSpec.t) (specs : list ZoneSpec.t)
    (profile : UsageProfile.t) :
  let attempt :=
    place_zone spec garage constraints (Run.placed_zones st) preferences in
  let st' := place_step garage constraints preferences st spec in
  (forall zone, attempt = Some zone ->
     Run.placed_zones st' = (Run.placed_zones st ++ [zone])%list
     /\ Run.zones st' = (Run.zones st ++ [zone])%list
     /\ Run.reasoning st' = (Run.reasoning st ++ [placed_message zone])%list
     /\ Run.warnings st' = Run.warnings st)
  /\ (attempt = None ->
      Run.placed_zones st' = Run.placed_zones st
      /\ Run.zones st' = Run.zones st
      /\ Run.reasoning st' = Run.reasoning st
      /\ Run.warnings st' = (Run.warnings st ++ [unplaced_message spec])%list
      /\ Str.contains (ZoneSpec.name spec) (unplaced_message spec) = true)
  /\ place_all garage constraints preferences (spec :: specs) st
     = place_all garage constraints preferences specs st'
  /\ (List.length (Run.zones (main_pass garage profile))
      + List.length (Run.warnings (main_pass garage profile))
      = List.length (zones_needed_sorted profile))%nat
  /\ List.length (Run.reasoning (main_pass garage profile))
     = List.length (Run.zones (main_pass garage profile)).
Proof.
  intros attempt st'. subst attempt st'. unfold place_step.
  split; [| split; [| split; [| split]]].
  - intros zone ->. simpl. auto.
  - intros ->. simpl. repeat split. apply unplaced_message_names.
  - reflexivity.
  - destruct (place_all_lengths garage (generate_constraints garage)
                (UsageProfile.preferences profile)
                (zones_needed_sorted profile) Run.init) as [H _].
    exact H.
  - destruct (place_all_lengths garage (generate_constraints garage)
                (UsageProfile.preferences profile)
                (zones_needed_sorted profile) Run.init) as [H1 H2].
    unfold main_pass. change (List.length (Run.zones Run.init)) with 0%nat in H1.
    change (List.length (Run.reasoning Run.init)) with 0%nat in H2. lia.
Qed.

(** ** The overhead pass *)

Lemma overhead_locations_east garage placed_zones :
  exists others,
    overhead_locations garage placed_zones
    = (others ++ [ Loc.mk "Overhead Storage - East"
                     (GarageSpace.width garage - 48) 48 48 96 ])%list.
Proof.
  unfold overhead_locations.
  match goal with
  | |- context [ (?n ++ ?w ++ [?e])%list ] => exists (n ++ w)%list
  end.
  cbv zeta. rewrite <- List.app_assoc. reflexivity.
Qed.

Lemma overhead_step_east garage profile st :
  overhead_step profile st
    (Loc.mk "Overhead Storage - East" (GarageSpace.width garage - 48) 48 48 96)
  = Run.mk (Run.placed_zones st)
      (Run.zones st ++ [ east_platform garage profile ])
      (Run.reasoning st
       ++ [ overhead_message
              (Loc.mk "Overhead Storage - East"
                 (GarageSpace.width garage - 48) 48 48 96) ])
      (Run.warnings st).
Proof. reflexivity. Qed.

Lemma overhead_pass_runs garage profile st :
  preference_of profile "overhead_storage" false = true ->
  96 <= GarageSpace.ceiling_height garage ->
  overhead_pass garage profile st
  = fold_left (overhead_step profile)
      (overhead_locations garage (Run.placed_zones st)) st.
Proof.
  intros Hpref Hceil. unfold overhead_pass. rewrite Hpref.
  apply Py_leb_le in Hceil. unfold Py.geb. rewrite Hceil. reflexivity.
Qed.

(** C10: whenever the overhead pass runs, the east platform (48 by 96 at
    x = width - 48, y = 48) is the last zone of the result, whatever the
    garage and the zones placed before; its width and depth exceed the
    36-inch threshold; with a garage less than 144 inches deep it lies
    outside the garage rectangle. *)
Theorem C10_east_platform_unconditional (garage : GarageSpace.t)
    (profile : UsageProfile.t) :
  preference_of profile "overhead_storage" false = true ->
  96 <= GarageSpace.ceiling_height garage ->
  (exists before,
     LayoutRecommendation.zones (optimize_layout garage profile)
     = (before ++ [ east_platform garage profile ])%list)
  /\ (36 < Zone.width (east_platform garage profile)
      /\ 36 < Zone.depth (east_platform garage profile))
  /\ (GarageSpace.depth garage < 144 ->
      ~ within_garage garage (east_platform garage profile)).
Proof.
  intros Hpref Hceil. split; [| split; [split; reflexivity |]].
  - unfold optimize_layout. cbn [LayoutRecommendation.zones].
    rewrite overhead_pass_runs by assumption.
    destruct (overhead_locations_east garage
                (Run.placed_zones (main_pass garage profile))) as [others ->].
    rewrite fold_left_app. cbn [fold_left].
    rewrite overhead_step_east. cbn [Run.zones]. eauto.
  - intros Hd (_ & _ & _ & Hy). unfold east_platform in Hy.
    cbn [Zone.y Zone.depth] in Hy. lra.
Qed.

(** With two wide cars the east platform is added although it overlaps the
    rectangle of the second vehicle, which was placed in the main pass. *)
Lemma C10_platform_over_vehicle :
  preference_of two_wide_cars "overhead_storage" false = true
  /\ 96 <= GarageSpace.ceiling_height (garage_300 96)
  /\ exists before z,
       LayoutRecommendation.zones (optimize_layout (garage_300 96) two_wide_cars)
       = (before ++ [ east_platform (garage_300 96) two_wide_cars ])%list
       /\ In z before /\ Zone.zone_type z = VEHICLE
       /\ zones_overlap z (east_platform (garage_300 96) two_wide_cars) = true.
Proof.
  split; [reflexivity | split; [apply Qle_refl |]].
  destruct (C10_east_platform_unconditional (garage_300 96) two_wide_cars
              eq_refl (Qle_refl 96)) as [[before Hb] _].
  exists before.
  exists (Zone.mk VEHICLE EmptyString 166 96 124 204 "S" 3 "Pull in from garage door").
  split; [exact Hb |].
  split; [| split; reflexivity].
  assert (Hin : In (Zone.mk VEHICLE EmptyString 166 96 124 204 "S" 3
                      "Pull in from garage door")
                  (LayoutRecommendation.zones
                     (optimize_layout (garage_300 96) two_wide_cars))).
  { vm_compute. right. left. reflexivity. }
  rewrite Hb in Hin. apply in_app_or in Hin. destruct Hin as [Hin | [Hin | []]].
  - exact Hin.
  - discriminate Hin.
Defined.

(** ** Zones stay within the garage *)

Lemma first_some_inv {A B} (f : A -> option B) l b :
  first_some f l = Some b -> exists a, In a l /\ f a = Some b.
Proof.
  induction l as [| a l IH]; simpl; [discriminate |].
  destruct (f a) eqn:E.
  - intros [= ->]. eauto.
  - intros H. destruct (IH H) as (a' & Hin & Ha'). eauto.
Qed.

Lemma position_is_clear_inv x y width depth garage constraints placed_zones :
  position_is_clear x y width depth garage constraints placed_zones = true ->
  (0 <= x /\ 0 <= y
   /\ x + width <= GarageSpace.width garage
   /\ y + depth <= GarageSpace.depth garage)
  /\ (forall c, In c constraints ->
        rectangles_overlap x y width depth (Constraint.x c) (Constraint.y c)
          (Constraint.width c) (Constraint.depth c) = false)
  /\ (forall z, In z placed_zones ->
        rectangles_overlap x y width depth (Zone.x z) (Zone.y z)
          (Zone.width z) (Zone.depth z) = false).
Proof.
  unfold position_is_clear, Py.gtb.
  destruct (Py.ltb x 0) eqn:Hx; [discriminate |].
  destruct (Py.ltb y 0) eqn:Hy; [discriminate |].
  destruct (Py.ltb (GarageSpace.width garage) (x + width)) eqn:Hw; [discriminate |].
  destruct (Py.ltb (GarageSpace.depth garage) (y + depth)) eqn:Hd; [discriminate |].
  cbn [orb].
  destruct (existsb _ constraints) eqn:Hc; [discriminate |].
  destruct (existsb _ placed_zones) eqn:Hz; [discriminate |].
  intros _. apply Py_ltb_ge in Hx, Hy, Hw, Hd.
  split; [tauto |]. split.
  - intros c Hin. destruct (rectangles_overlap _ _ _ _ _ _ _ _) eqn:E; [| reflexivity].
    rewrite <- Hc. symmetry. apply existsb_exists. eauto.
  - intros z Hin. destruct (rectangles_overlap _ _ _ _ _ _ _ _) eqn:E; [| reflexivity].
    rewrite <- Hz. symmetry. apply existsb_exists. eauto.
Qed.

Lemma vehicle_candidate_ok_inv garage constraints placed_zones width depth pos x y :
  vehicle_candidate_ok garage constraints placed_zones width depth pos = Some (x, y) ->
  pos = (x, y)
  /\ (0 <= x /\ 0 <= y
      /\ x + width <= GarageSpace.width garage
      /\ y + depth <= GarageSpace.depth garage)
  /\ (forall z, In z placed_zones ->
        rectangles_overlap x y width depth (Zone.x z) (Zone.y z)
          (Zone.width z) (Zone.depth z) = false).
Proof.
  unfold vehicle_candidate_ok, Py.gtb. destruct pos as [px py].
  destruct (Py.ltb px 0) eqn:Hx; [discriminate |].
  destruct (Py.ltb py 0) eqn:Hy; [discriminate |].
  destruct (Py.ltb (GarageSpace.width garage) (px + width)) eqn:Hw; [discriminate |].
  destruct (Py.ltb (GarageSpace.depth garage) (py + depth)) eqn:Hd; [discriminate |].
  cbn [orb].
  destruct (existsb _ constraints) eqn:Hc; [discriminate |].
  destruct (existsb _ placed_zones) eqn:Hz; [discriminate |].
  cbn [orb negb]. intros [= <- <-]. apply Py_ltb_ge in Hx, Hy, Hw, Hd.
  split; [reflexivity |]. split; [tauto |].
  intros z Hin. destruct (rectangles_overlap _ _ _ _ _ _ _ _) eqn:E; [| reflexivity].
  rewrite <- Hz. symmetry. apply existsb_exists. eauto.
Qed.

Lemma find_vehicle_position_inv garage constraints placed_zones width depth spec x y :
  find_vehicle_position garage constraints placed_zones width depth spec = Some (x, y) ->
  In (x, y) (positions_to_try garage placed_zones width depth spec)
  /\ (0 <= x /\ 0 <= y
      /\ x + width <= GarageSpace.width garage
      /\ y + depth <= GarageSpace.depth garage)
  /\ (forall z, In z placed_zones ->
        rectangles_overlap x y width depth (Zone.x z) (Zone.y z)
          (Zone.width z) (Zone.depth z) = false).
Proof.
  intros H. apply first_some_inv in H. destruct H as (pos & Hin & Hok).
  apply vehicle_candidate_ok_inv in Hok. destruct Hok as (-> & Hb & Hz). auto.
Qed.

Lemma clearance_walkway : clearance "walkway" = 30.
Proof. reflexivity. Qed.

Lemma position_is_clear_at x y w d garage constraints placed_zones :
  position_is_clear x y w d garage constraints placed_zones = true ->
  clear_at garage placed_zones x y w d.
Proof.
  intros H. apply position_is_clear_inv in H. unfold clear_at. tauto.
Qed.

Lemma workbench_on_wall_inv garage constraints placed_zones width depth wall wall' x y :
  workbench_on_wall garage constraints placed_zones width depth wall
  = Some (wall', x, y) ->
  wall' = wall
  /\ ((wall = "N" /\ x = 30 /\ y = 0
       /\ clear_at garage placed_zones x y width depth)
      \/ (wall = "E" /\ x = GarageSpace.width garage - depth /\ y = 30
          /\ clear_at garage placed_zones x y depth width)
      \/ (wall = "W" /\ x = 0 /\ y = 30
          /\ clear_at garage placed_zones x y depth width)).
Proof.
  unfold workbench_on_wall. rewrite clearance_walkway.
  destruct (String.eqb_spec wall "N") as [-> | _].
  { destruct (position_is_clear _ _ _ _ _ _ _) eqn:E; [| discriminate].
    intros [= <- <- <-]. apply position_is_clear_at in E. tauto. }
  destruct (String.eqb_spec wall "E") as [-> | _].
  { destruct (position_is_clear _ _ _ _ _ _ _) eqn:E; [| discriminate].
    intros [= <- <- <-]. apply position_is_clear_at in E. tauto. }
  destruct (String.eqb_spec wall "W") as [-> | _]; [| discriminate].
  destruct (position_is_clear _ _ _ _ _ _ _) eqn:E; [| discriminate].
  intros [= <- <- <-]. apply position_is_clear_at in E. tauto.
Qed.

Lemma find_best_wall_for_workbench_inv garage constraints placed_zones width depth
    wall x y :
  find_best_wall_for_workbench garage constraints placed_zones width depth
  = Some (wall, x, y) ->
  (wall = "N" /\ x = 30 /\ y = 0 /\ clear_at garage placed_zones x y width depth)
  \/ (wall = "E" /\ x = GarageSpace.width garage - depth /\ y = 30
      /\ clear_at garage placed_zones x y depth width)
  \/ (wall = "W" /\ x = 0 /\ y = 30
      /\ clear_at garage placed_zones x y depth width).
Proof.
  unfold find_best_wall_for_workbench. intros H.
  apply first_some_inv in H. destruct H as (w & _ & H).
  apply workbench_on_wall_inv in H. destruct H as [<- H]. exact H.
Qed.

Lemma scan_wall_inv garage constraints placed_zones width depth step wall wall' x y :
  scan_wall garage constraints placed_zones width depth step wall
  = Some (wall', x, y) ->
  wall' = wall
  /\ ((wall = "N" /\ y = 0 /\ clear_at garage placed_zones x y width depth)
      \/ (wall = "E" /\ x = GarageSpace.width garage - depth
          /\ clear_at garage placed_zones x y depth width)
      \/ (wall = "W" /\ x = 0 /\ clear_at garage placed_zones x y depth width)).
Proof.
  unfold scan_wall.
  destruct (String.eqb_spec wall "N") as [-> | _].
  { intros H. apply first_some_inv in H. destruct H as (n & _ & H).
    destruct (position_is_clear _ _ _ _ _ _ _) eqn:E; [| discriminate].
    injection H as <- <- <-. apply position_is_clear_at in E. tauto. }
  destruct (String.eqb_spec wall "E") as [-> | _].
  { intros H. apply first_some_inv in H. destruct H as (n & _ & H).
    destruct (position_is_clear _ _ _ _ _ _ _) eqn:E; [| discriminate].
    injection H as <- <- <-. apply position_is_clear_at in E. tauto. }
  destruct (String.eqb_spec wall "W") as [-> | _]; [| discriminate].
  intros H. apply first_some_inv in H. destruct H as (n & _ & H).
  destruct (position_is_clear _ _ _ _ _ _ _) eqn:E; [| discriminate].
  injection H as <- <- <-. apply position_is_clear_at in E. tauto.
Qed.

Lemma find_wall_storage_spot_inv garage constraints placed_zones width depth wall x y :
  find_wall_storage_spot garage constraints placed_zones width depth
  = Some (wall, x, y) ->
  (wall = "N" /\ y = 0 /\ clear_at garage placed_zones x y width depth)
  \/ (wall = "E" /\ x = GarageSpace.width garage - depth
      /\ clear_at garage placed_zones x y depth width)
  \/ (wall = "W" /\ x = 0 /\ clear_at garage placed_zones x y depth width).
Proof.
  unfold find_wall_storage_spot.
  destruct (first_some _ (sorted_by_key _ _)) as [spot |] eqn:E.
  - intros [= ->]. apply first_some_inv in E. destruct E as (w & _ & H).
    apply scan_wall_inv in H. destruct H as [<- H]. exact H.
  - intros H. apply first_some_inv in H. destruct H as (w & _ & H).
    apply scan_wall_inv in H. destruct H as [<- H]. exact H.
Qed.

Lemma place_zone_inv spec garage constraints placed_zones preferences z :
  place_zone spec garage constraints placed_zones preferences = Some z ->
  Zone.zone_type z = ZoneSpec.type spec
  /\ Zone.name z = ZoneSpec.name spec
  /\ Zone.width z = ZoneSpec.width spec
  /\ Zone.depth z = ZoneSpec.depth spec
  /\ clear_at garage placed_zones (Zone.x z) (Zone.y z)
       (checked_width z) (checked_depth z)
  /\ placed_by_strategy garage placed_zones spec z.
Proof.
  unfold place_zone, placed_by_strategy.
  destruct (ZoneSpec.type spec) eqn:Ht; try discriminate.
  - destruct (find_vehicle_position _ _ _ _ _ _) as [[x y] |] eqn:E; [| discriminate].
    intros [= <-]. apply find_vehicle_position_inv in E.
    destruct E as (Hin & Hb & Hz). cbn.
    repeat split; tauto.
  - destruct (find_best_wall_for_workbench _ _ _ _ _) as [[[wall x] y] |] eqn:E;
      [| discriminate].
    intros [= <-]. apply find_best_wall_for_workbench_inv in E.
    destruct E as [(-> & -> & -> & Hc) | [(-> & -> & -> & Hc) | (-> & -> & -> & Hc)]];
      cbn; (repeat split; try apply Hc); right; left; tauto.
  - destruct (find_wall_storage_spot _ _ _ _ _) as [[[wall x] y] |] eqn:E;
      [| discriminate].
    intros [= <-]. apply find_wall_storage_spot_inv in E.
    destruct E as [(-> & -> & Hc) | [(-> & -> & Hc) | (-> & -> & Hc)]];
      cbn; (repeat split; try apply Hc); right; right; tauto.
Qed.

Lemma place_all_zones_origin garage constraints preferences specs st z :
  In z (Run.zones (place_all garage constraints preferences specs st)) ->
  In z (Run.zones st)
  \/ exists spec placed_zones,
       In spec specs
       /\ place_zone spec garage constraints placed_zones preferences = Some z.
Proof.
  revert st. induction specs as [| spec specs IH]; intros st; [now left |].
  rewrite place_all_cons. intros H. apply IH in H.
  destruct H as [H | (spec' & placed & Hin & Hp)].
  - unfold place_step in H.
    destruct (place_zone spec garage constraints (Run.placed_zones st) preferences)
      as [zone |] eqn:E; cbn [Run.zones] in H.
    + apply in_app_or in H. destruct H as [H | [<- | []]]; [now left |].
      right. exists spec, (Run.placed_zones st). split; [now left | exact E].
    + now left.
  - right. exists spec', placed. split; [now right | exact Hp].
Qed.

Lemma overhead_fold_origin profile locs st z :
  In z (Run.zones (fold_left (overhead_step profile) locs st)) ->
  In z (Run.zones st)
  \/ (Zone.zone_type z = OVERHEAD_STORAGE /\ Zone.wall z = "ceiling").
Proof.
  revert st. induction locs as [| loc locs IH]; intros st; [now left |].
  cbn [fold_left]. intros H. apply IH in H. destruct H as [H | H]; [| now right].
  unfold overhead_step in H. destruct (_ && _); [| now left].
  cbn [Run.zones] in H. apply in_app_or in H.
  destruct H as [H | [<- | []]]; [now left | right; split; reflexivity].
Qed.

Lemma overhead_pass_origin garage profile st z :
  In z (Run.zones (overhead_pass garage profile st)) ->
  In z (Run.zones st)
  \/ (Zone.zone_type z = OVERHEAD_STORAGE /\ Zone.wall z = "ceiling").
Proof.
  unfold overhead_pass. destruct (_ && _); [| now left].
  apply overhead_fold_origin.
Qed.

(** Every zone of the result is an overhead zone or was returned by
    [place_zone] for one of the demands. *)
Lemma optimize_layout_zones_origin garage profile z :
  In z (LayoutRecommendation.zones (optimize_layout garage profile)) ->
  (Zone.zone_type z = OVERHEAD_STORAGE /\ Zone.wall z = "ceiling")
  \/ exists spec placed_zones,
       In spec (zones_needed_sorted profile)
       /\ place_zone spec garage (generate_constraints garage) placed_zones
            (UsageProfile.preferences profile) = Some z.
Proof.
  unfold optimize_layout. cbn [LayoutRecommendation.zones]. intros H.
  apply overhead_pass_origin in H. destruct H as [H | H]; [| now left].
  apply place_all_zones_origin in H. destruct H as [[] | H]. now right.
Qed.

Lemma placed_zone_within garage constraints placed_zones preferences spec z :
  place_zone spec garage constraints placed_zones preferences = Some z ->
  Zone.zone_type z = VEHICLE \/ Zone.wall z = "N" ->
  within_garage garage z.
Proof.
  intros H Hz. apply place_zone_inv in H.
  destruct H as (_ & _ & _ & _ & [Hb _] & Hs).
  assert (Hr : rotated z = false).
  { unfold rotated. destruct Hz as [Ht | ->]; [| reflexivity].
    destruct Hs as [(_ & -> & _) | [(Ht' & _) | (Ht' & _)]];
      [reflexivity | congruence | congruence]. }
  unfold checked_width, checked_depth in Hb. rewrite Hr in Hb. exact Hb.
Qed.

(** C1 (amended): every VEHICLE zone of the result, and every zone placed
    along the north wall, lies within the garage rectangle: 0 <= x, 0 <= y,
    x + width <= garage.width and y + depth <= garage.depth. *)
Theorem C1_zones_within_garage (garage : GarageSpace.t) (profile : UsageProfile.t)
    (z : Zone.t) :
  In z (LayoutRecommendation.zones (optimize_layout garage profile)) ->
  Zone.zone_type z = VEHICLE \/ Zone.wall z = "N" ->
  within_garage garage z.
Proof.
  intros Hin Hz. apply optimize_layout_zones_origin in Hin.
  destruct Hin as [[Ht Hw] | (spec & placed & _ & Hp)].
  - destruct Hz as [Hz | Hz]; [congruence | rewrite Hw in Hz; discriminate].
  - eapply placed_zone_within; eassumption.
Qed.

(** In Scenario A the vehicle zone lies within the garage. *)
Lemma C1_scenario_A_vehicle :
  let z := Zone.mk VEHICLE EmptyString (180 # 2) 96 120 204 "S" 3
             "Pull in from garage door" in
  In z (LayoutRecommendation.zones (optimize_layout (garage_300 0) scenario_A))
  /\ (Zone.zone_type z = VEHICLE \/ Zone.wall z = "N")
  /\ within_garage (garage_300 0) z.
Proof.
  cbv zeta.
  assert (Hin : In (Zone.mk VEHICLE EmptyString (180 # 2) 96 120 204 "S" 3
                      "Pull in from garage door")
                  (LayoutRecommendation.zones
                     (optimize_layout (garage_300 0) scenario_A))).
  { vm_compute. left. reflexivity. }
  split; [exact Hin | split; [left; reflexivity |]].
  exact (C1_zones_within_garage (garage_300 0) scenario_A _ Hin
           (or_introl eq_refl)).
Defined.

(** C1 as stated fails: in a garage with positive width and depth the
    overhead pass adds the east platform, whose rectangle ends at
    y + depth = 144, beyond the garage depth of 100. *)
Lemma C1_overhead_counterexample :
  0 < GarageSpace.width low_garage /\ 0 < GarageSpace.depth low_garage
  /\ exists z,
       In z (LayoutRecommendation.zones (optimize_layout low_garage overhead_only))
       /\ Zone.zone_type z = OVERHEAD_STORAGE
       /\ ~ within_garage low_garage z.
Proof.
  split; [reflexivity | split; [reflexivity |]].
  exists (east_platform low_garage overhead_only).
  split; [vm_compute; right; left; reflexivity | split; [reflexivity |]].
  intros (_ & _ & _ & Hy). vm_compute in Hy. apply Hy. reflexivity.
Qed.

(** ** Overlap between placed zones *)

(** C2 fails on the program: in a 300 x 300 garage the third wall-storage
    section goes to the west wall, where the check examines the rectangle
    18 wide and 48 deep at (0, 0), but the zone is recorded 48 wide and 18
    deep; as recorded it overlaps the workbench at (30, 0), 48 by 60. *)
Theorem C2_storage_overlaps_workbench :
  let bench := Zone.mk WORKBENCH "Workbench" 30 0 48 60 "N" 3
                 "Position for good lighting and electrical access" in
  let section := Zone.mk WALL_STORAGE "Wall Storage 3" 0 0 48 18 "W" 3 EmptyString in
  In bench (LayoutRecommendation.zones (optimize_layout (garage_300 0) bench_and_storage))
  /\ In section
       (LayoutRecommendation.zones (optimize_layout (garage_300 0) bench_and_storage))
  /\ bench <> section
  /\ Zone.zone_type bench <> OVERHEAD_STORAGE
  /\ Zone.zone_type section <> OVERHEAD_STORAGE
  /\ zones_overlap bench section = true
  /\ zones_overlap section bench = true
  /\ ~ within_garage (garage_300 0)
         (Zone.mk WALL_STORAGE "Wall Storage 2" 282 0 48 18 "E" 3 EmptyString)
  /\ In (Zone.mk WALL_STORAGE "Wall Storage 2" 282 0 48 18 "E" 3 EmptyString)
       (LayoutRecommendation.zones (optimize_layout (garage_300 0) bench_and_storage)).
Proof.
  cbv zeta.
  split; [vm_compute; left; reflexivity |].
  split; [vm_compute; do 3 right; left; reflexivity |].
  split; [discriminate |].
  split; [discriminate |].
  split; [discriminate |].
  split; [reflexivity |].
  split; [reflexivity |].
  split; [| vm_compute; do 2 right; left; reflexivity].
  intros (_ & _ & Hx & _). vm_compute in Hx. apply Hx. reflexivity.
Qed.

(** ** Vehicle placement *)

Lemma existsb_false_Forall {A} (f : A -> bool) (P : A -> Prop) l :
  (forall a, P a -> f a = false) -> Forall P l -> existsb f l = false.
Proof.
  intros H. induction 1 as [| a l Ha _ IH]; simpl; [reflexivity |].
  now rewrite (H a Ha).
Qed.

Lemma vehicle_candidate_ok_intro garage placed_zones width depth x y :
  0 <= x -> 0 <= y ->
  x + width <= GarageSpace.width garage ->
  y + depth <= GarageSpace.depth garage ->
  Forall (clear_of x y width depth) placed_zones ->
  vehicle_candidate_ok garage [] placed_zones width depth (x, y) = Some (x, y).
Proof.
  intros Hx Hy Hw Hd Hz. unfold vehicle_candidate_ok, Py.gtb.
  apply Py_ltb_ge in Hx, Hy, Hw, Hd. rewrite Hx, Hy, Hw, Hd.
  cbn [orb existsb].
  rewrite (existsb_false_Forall _ (clear_of x y width depth)); [reflexivity | | exact Hz].
  intros z Hc. exact Hc.
Qed.

Lemma place_all_zones_mono garage constraints preferences specs st z :
  In z (Run.zones st) ->
  In z (Run.zones (place_all garage constraints preferences specs st)).
Proof.
  revert st. induction specs as [| spec specs IH]; intros st H; [exact H |].
  rewrite place_all_cons. apply IH. unfold place_step.
  destruct (place_zone _ _ _ _ _); cbn [Run.zones]; [| exact H].
  apply in_or_app. now left.
Qed.

Lemma overhead_pass_zones_mono garage profile st z :
  In z (Run.zones st) -> In z (Run.zones (overhead_pass garage profile st)).
Proof.
  unfold overhead_pass. destruct (_ && _); [| trivial].
  generalize (overhead_locations garage (Run.placed_zones st)). intros locs.
  revert st. induction locs as [| loc locs IH]; intros st H; [exact H |].
  cbn [fold_left]. apply IH. unfold overhead_step.
  destruct (_ && _); cbn [Run.zones]; [| exact H].
  apply in_or_app. now left.
Qed.

Lemma generate_constraints_300 ceiling :
  generate_constraints (garage_300 ceiling) = [].
Proof. reflexivity. Qed.

(** The demand of a vehicle whose measurements read as 72 wide and 180 long,
    among [n] vehicles. *)
Lemma vehicle_spec_72_180 profile n i v :
  reads_as (Vehicle.width v) "72" 72 -> reads_as (Vehicle.length v) "180" 180 ->
  vehicle_spec profile n i v
  = ZoneSpec.mk VEHICLE (vehicle_name v)
      (if (n =? 1)%Z then 120 else 96) 204
      (priority_of profile "vehicle_storage" 3) (Some (Z.of_nat i)) (Some n).
Proof.
  unfold reads_as. intros Hw Hl. unfold vehicle_spec. rewrite Hw, Hl.
  destruct (n =? 1)%Z; reflexivity.
Qed.

Lemma workbench_specs_small profile : Forall small_demand (workbench_specs profile).
Proof.
  unfold workbench_specs. destruct (_ || _); [| constructor].
  constructor; [| constructor]. left. split; [reflexivity |].
  cbn [ZoneSpec.depth].
  destruct (_ || _); [| destruct (_ || _)]; vm_compute; discriminate.
Qed.

Lemma wall_storage_specs_small profile :
  Forall small_demand (wall_storage_specs profile).
Proof.
  unfold wall_storage_specs.
  destruct (preference_of profile "wall_storage" true); [| constructor].
  apply List.Forall_forall. intros d Hd. apply in_map_iff in Hd.
  destruct Hd as (i & <- & _). right.
  split; [reflexivity | split; vm_compute; discriminate].
Qed.

Lemma small_demand_clear ceiling spec placed_zones preferences z x0 :
  x0 == 90 ->
  small_demand spec ->
  place_zone spec (garage_300 ceiling) [] placed_zones preferences = Some z ->
  clear_of x0 (300 - 204) 120 204 z.
Proof.
  intros Hx0 Hs Hp. apply place_zone_inv in Hp.
  destruct Hp as (Ht & _ & Hw & Hd & _ & Hstrat).
  unfold clear_of. apply rectangles_overlap_false.
  unfold placed_by_strategy in Hstrat. cbn [GarageSpace.width garage_300] in Hstrat.
  rewrite Hw, Hd. rewrite Hd in Hstrat.
  destruct Hs as [(Hty & Hdepth) | (Hty & Hwidth & Hdepth)];
    destruct Hstrat as [(Ht' & _) | [(Ht' & Hpos) | (Ht' & Hpos)]];
    try congruence; clear Hw Hd;
    destruct Hpos as [(_ & Hpos) | [(_ & Hpos) | (_ & Hpos)]].
  - destruct Hpos as [_ ->]. right; right; right. lra.
  - destruct Hpos as [-> _]. left. lra.
  - destruct Hpos as [_ ->]. right; right; right. lra.
  - rewrite Hpos. clear Hpos. right; right; right. lra.
  - rewrite Hpos. clear Hpos. left. lra.
  - rewrite Hpos. clear Hpos. right; left. lra.
Qed.

Lemma first_some_head {A B} (f : A -> option B) a l b :
  f a = Some b -> first_some f (a :: l) = Some b.
Proof. intros H. simpl. now rewrite H. Qed.

(** With nothing in its way, a single vehicle 120 by 204 takes the centred
    candidate of the 300 x 300 garage. *)
Lemma place_single_vehicle ceiling d placed_zones preferences :
  ZoneSpec.type d = VEHICLE ->
  ZoneSpec.width d = 120 -> ZoneSpec.depth d = 204 ->
  ZoneSpec.total_vehicles d = Some 1%Z ->
  Forall (clear_of ((300 - 120) / 2) (300 - 204) 120 204) placed_zones ->
  place_zone d (garage_300 ceiling) [] placed_zones preferences
  = Some (vehicle_zone d ((300 - 120) / 2) (300 - 204)).
Proof.
  intros Ht Hw Hd Htot Hclear.
  assert (E : find_vehicle_position (garage_300 ceiling) [] placed_zones
                (ZoneSpec.width d) (ZoneSpec.depth d) d
              = Some ((300 - 120) / 2, 300 - 204)).
  { unfold find_vehicle_position, positions_to_try.
    rewrite Htot, Hw, Hd.
    change (default 1%Z (Some 1%Z) =? 1)%Z with true. cbv iota.
    apply first_some_head.
    apply vehicle_candidate_ok_intro; try exact Hclear; vm_compute; discriminate. }
  unfold place_zone. rewrite E, Ht. reflexivity.
Qed.

Lemma Forall_snoc {A} (P : A -> Prop) l a :
  Forall P l -> P a -> Forall P (l ++ [a]).
Proof.
  intros Hl Ha. apply List.Forall_forall. intros b Hb.
  apply in_app_or in Hb. destruct Hb as [Hb | [<- | []]]; [| exact Ha].
  eapply List.Forall_forall in Hl; eassumption.
Qed.

(** The main pass reaches the vehicle demand with only zones that leave the
    centred slot free, and places the vehicle there. *)
Lemma place_all_single_vehicle ceiling preferences d specs st :
  ZoneSpec.type d = VEHICLE ->
  ZoneSpec.width d = 120 -> ZoneSpec.depth d = 204 ->
  ZoneSpec.total_vehicles d = Some 1%Z ->
  Forall (fun s => s = d \/ small_demand s) specs ->
  In d specs ->
  Forall (clear_of ((300 - 120) / 2) (300 - 204) 120 204) (Run.placed_zones st) ->
  In (vehicle_zone d ((300 - 120) / 2) (300 - 204))
     (Run.zones (place_all (garage_300 ceiling) [] preferences specs st)).
Proof.
  intros Ht Hw Hd Htot Hall. revert st.
  induction Hall as [| s specs Hs Hall IH]; intros st Hin Hclear; [destruct Hin |].
  rewrite place_all_cons.
  assert (Hd_here : s = d ->
            In (vehicle_zone d ((300 - 120) / 2) (300 - 204))
               (Run.zones
                  (place_all (garage_300 ceiling) [] preferences specs
                     (place_step (garage_300 ceiling) [] preferences st s)))).
  { intros ->. apply place_all_zones_mono. unfold place_step.
    rewrite (place_single_vehicle ceiling d _ preferences Ht Hw Hd Htot Hclear).
    cbn [Run.zones]. apply in_or_app. right. now left. }
  destruct Hs as [Hs | Hs]; [auto |].
  destruct Hin as [Hin | Hin]; [auto |].
  apply IH; [exact Hin |]. unfold place_step.
  destruct (place_zone s _ _ _ _) as [z |] eqn:E; cbn [Run.placed_zones];
    [| exact Hclear].
  apply Forall_snoc; [exact Hclear |].
  eapply small_demand_clear; [| exact Hs | exact E]. vm_compute. reflexivity.
Qed.

Lemma single_vehicle_specs profile v :
  UsageProfile.vehicles profile = [v] ->
  Vehicle.must_fit_inside v = Some true ->
  reads_as (Vehicle.width v) "72" 72 -> reads_as (Vehicle.length v) "180" 180 ->
  vehicle_specs profile
  = [ ZoneSpec.mk VEHICLE (vehicle_name v) 120 204
        (priority_of profile "vehicle_storage" 3) (Some 0%Z) (Some 1%Z) ].
Proof.
  intros Hv Hfit Hw Hl. unfold vehicle_specs, vehicles_must_fit.
  rewrite Hv. cbn [List.filter]. rewrite Hfit. cbn [default from_option id].
  cbn [List.length imap]. rewrite (vehicle_spec_72_180 _ _ _ _ Hw Hl). reflexivity.
Qed.

Lemma vehicle_demands_only profile :
  List.filter (fun s => ZoneType_eqb (ZoneSpec.type s) VEHICLE) (zones_needed profile)
  = vehicle_specs profile.
Proof.
  unfold zones_needed. rewrite !List.filter_app.
  rewrite (filter_all _ (vehicle_specs profile)),
    (filter_none _ (workbench_specs profile)),
    (filter_none _ (wall_storage_specs profile)).
  - now rewrite !List.app_nil_r.
  - eapply List.Forall_impl; [| apply wall_storage_specs_type].
    intros d ->. reflexivity.
  - eapply List.Forall_impl; [| apply workbench_specs_type].
    intros d ->. reflexivity.
  - eapply List.Forall_impl; [| apply vehicle_specs_type].
    intros d ->. reflexivity.
Qed.

(** C6: in a 300 x 300 garage without features, for every profile whose
    only vehicle must fit inside and reads as 72 wide and 180 long, there is
    exactly one vehicle demand, 120 wide (72 plus twice the 24-inch side
    clearance) and 204 deep (180 plus 12 in front and 12 behind), and the
    result has a VEHICLE zone on wall S at the centred candidate
    x = (300 - 120) / 2 = 90, y = 300 - 204 = 96. *)
Theorem C6_single_vehicle_centred (ceiling : Q) (profile : UsageProfile.t)
    (v : Vehicle.t) :
  UsageProfile.vehicles profile = [v] ->
  Vehicle.must_fit_inside v = Some true ->
  reads_as (Vehicle.width v) "72" 72 -> reads_as (Vehicle.length v) "180" 180 ->
  exists d z,
    List.filter (fun s => ZoneType_eqb (ZoneSpec.type s) VEHICLE)
      (zones_needed profile) = [d]
    /\ ZoneSpec.width d = 120 /\ ZoneSpec.depth d = 204
    /\ ZoneSpec.width d == 72 + 2 * clearance "vehicle_side"
    /\ ZoneSpec.depth d == 180 + clearance "vehicle_front" + clearance "vehicle_rear"
    /\ In z (LayoutRecommendation.zones (optimize_layout (garage_300 ceiling) profile))
    /\ Zone.zone_type z = VEHICLE /\ Zone.wall z = "S"
    /\ Zone.width z = 120 /\ Zone.depth z = 204
    /\ Zone.x z = (300 - 120) / 2 /\ Zone.y z = 300 - 204
    /\ Zone.x z == 90 /\ Zone.y z == 96.
Proof.
  intros Hv Hfit Hw Hl.
  pose proof (single_vehicle_specs profile v Hv Hfit Hw Hl) as Hspecs.
  set (d := ZoneSpec.mk VEHICLE (vehicle_name v) 120 204
              (priority_of profile "vehicle_storage" 3) (Some 0%Z) (Some 1%Z))
    in Hspecs.
  exists d, (vehicle_zone d ((300 - 120) / 2) (300 - 204)).
  split; [rewrite vehicle_demands_only; exact Hspecs |].
  split; [reflexivity |]. split; [reflexivity |].
  split; [vm_compute; reflexivity |]. split; [vm_compute; reflexivity |].
  split.
  - unfold optimize_layout. cbn [LayoutRecommendation.zones].
    apply overhead_pass_zones_mono. unfold main_pass.
    rewrite generate_constraints_300.
    apply place_all_single_vehicle; try reflexivity.
    + eapply Permutation_Forall.
      * symmetry. apply zones_needed_sorted_perm.
      * unfold zones_needed. rewrite Hspecs.
        constructor; [now left |].
        apply List.Forall_app. split.
        -- eapply List.Forall_impl; [| apply workbench_specs_small]. auto.
        -- eapply List.Forall_impl; [| apply wall_storage_specs_small]. auto.
    + eapply Permutation_in.
      * symmetry. apply zones_needed_sorted_perm.
      * unfold zones_needed. rewrite Hspecs. now left.
    + constructor.
  - repeat split; vm_compute; reflexivity.
Qed.

(** Scenario A: the vehicle of a profile that holds nothing but the one car
    is placed at x = 90, y = 96. *)
Lemma C6_scenario_A :
  UsageProfile.vehicles scenario_A = [car]
  /\ Vehicle.must_fit_inside car = Some true
  /\ reads_as (Vehicle.width car) "72" 72
  /\ reads_as (Vehicle.length car) "180" 180
  /\ exists d z,
    List.filter (fun s => ZoneType_eqb (ZoneSpec.type s) VEHICLE)
      (zones_needed scenario_A) = [d]
    /\ ZoneSpec.width d = 120 /\ ZoneSpec.depth d = 204
    /\ In z (LayoutRecommendation.zones (optimize_layout (garage_300 0) scenario_A))
    /\ Zone.zone_type z = VEHICLE /\ Zone.wall z = "S"
    /\ Zone.x z == 90 /\ Zone.y z == 96.
Proof.
  assert (Hw : reads_as (Vehicle.width car) "72" 72) by (vm_compute; reflexivity).
  assert (Hl : reads_as (Vehicle.length car) "180" 180) by (vm_compute; reflexivity).
  do 2 (split; [reflexivity |]). split; [exact Hw |]. split; [exact Hl |].
  destruct (C6_single_vehicle_centred 0 scenario_A car eq_refl eq_refl Hw Hl)
    as (d & z & H1 & H2 & H3 & _ & _ & H4 & H5 & H6 & _ & _ & _ & _ & H7 & H8).
  exists d, z. tauto.
Defined.

(** ** Two vehicles side by side *)






















(** ** What the placement check guarantees *)

Lemma ordered_snoc garage l z :
  (forall before z' after, l = (before ++ z' :: after)%list ->
     clear_at garage before (Zone.x z') (Zone.y z')
       (checked_width z') (checked_depth z')) ->
  clear_at garage l (Zone.x z) (Zone.y z) (checked_width z) (checked_depth z) ->
  forall before z' after, (l ++ [z])%list = (before ++ z' :: after)%list ->
    clear_at garage before (Zone.x z') (Zone.y z')
      (checked_width z') (checked_depth z').
Proof.
  intros Hl Hz before z' after E.
  destruct after as [| a after _] using rev_ind.
  - apply app_inj_tail in E. destruct E as [-> ->]. exact Hz.
  - change (before ++ z' :: after ++ [a])%list
      with (before ++ (z' :: after) ++ [a])%list in E.
    rewrite List.app_assoc in E. apply app_inj_tail in E. destruct E as [-> _].
    eapply Hl. reflexivity.
Qed.

Lemma place_all_ordered garage constraints preferences specs st :
  Run.zones st = Run.placed_zones st ->
  (forall before z after, Run.zones st = (before ++ z :: after)%list ->
     clear_at garage before (Zone.x z) (Zone.y z)
       (checked_width z) (checked_depth z)) ->
  forall before z after,
    Run.zones (place_all garage constraints preferences specs st)
    = (before ++ z :: after)%list ->
    clear_at garage before (Zone.x z) (Zone.y z) (checked_width z) (checked_depth z).
Proof.
  revert st. induction specs as [| spec specs IH]; intros st Heq Hord; [exact Hord |].
  rewrite place_all_cons. apply IH; unfold place_step;
    destruct (place_zone spec _ _ _ _) as [zone |] eqn:E;
    cbn [Run.zones Run.placed_zones]; auto.
  - now rewrite Heq.
  - apply ordered_snoc; [exact Hord |].
    apply place_zone_inv in E. rewrite Heq. apply E.
Qed.

Lemma overhead_pass_zones_split garage profile st :
  exists more,
    Run.zones (overhead_pass garage profile st) = (Run.zones st ++ more)%list
    /\ Forall (fun z => Zone.zone_type z = OVERHEAD_STORAGE) more.
Proof.
  unfold overhead_pass. destruct (_ && _).
  2:{ exists []. split; [now rewrite List.app_nil_r | constructor]. }
  generalize (overhead_locations garage (Run.placed_zones st)). intros locs.
  revert st. induction locs as [| loc locs IH]; intros st.
  - exists []. split; [cbn; now rewrite List.app_nil_r | constructor].
  - cbn [fold_left]. destruct (IH (overhead_step profile st loc)) as (more & -> & Hm).
    unfold overhead_step. destruct (_ && _); cbn [Run.zones].
    + eexists. split; [now rewrite <- List.app_assoc |].
      constructor; [reflexivity | exact Hm].
    + now exists more.
Qed.

(** X1: for every zone of the result that is not an overhead zone, the rectangle
    that its placement check examined (with width and depth swapped along
    the east and west walls) lies within the garage and overlaps the
    recorded rectangle of no zone that precedes it in the zone list. *)
Theorem checked_rectangle_clear (garage : GarageSpace.t) (profile : UsageProfile.t)
    (before after : list Zone.t) (z : Zone.t) :
  LayoutRecommendation.zones (optimize_layout garage profile)
  = (before ++ z :: after)%list ->
  Zone.zone_type z <> OVERHEAD_STORAGE ->
  (0 <= Zone.x z /\ 0 <= Zone.y z
   /\ Zone.x z + checked_width z <= GarageSpace.width garage
   /\ Zone.y z + checked_depth z <= GarageSpace.depth garage)
  /\ (forall p, In p before ->
        rectangles_overlap (Zone.x z) (Zone.y z) (checked_width z) (checked_depth z)
          (Zone.x p) (Zone.y p) (Zone.width p) (Zone.depth p) = false).
Proof.
  intros E Hz. unfold optimize_layout in E. cbn [LayoutRecommendation.zones] in E.
  destruct (overhead_pass_zones_split garage profile (main_pass garage profile))
    as (more & Hsplit & Hmore).
  rewrite Hsplit in E. apply List.app_eq_app in E.
  destruct E as (l & [[E1 E2] | [E1 E2]]).
  - destruct l as [| a l].
    + rewrite List.app_nil_r in E1. cbn [app] in E2. subst more.
      inversion Hmore; subst. contradiction.
    + injection E2 as <- ->.
      eapply (place_all_ordered garage (generate_constraints garage)
                (UsageProfile.preferences profile) (zones_needed_sorted profile)
                Run.init); [reflexivity | | exact E1].
      intros b z' a' Hnil. destruct b; discriminate Hnil.
  - subst more. apply List.Forall_app in Hmore. destruct Hmore as [_ Hmore].
    inversion Hmore; subst. contradiction.
Qed.

(** On [bench_and_storage] the third section is checked as the rectangle 18
    wide and 48 deep at (0, 0), which lies in the garage and is clear of the
    workbench and of the two sections placed before it. *)
Lemma checked_rectangle_clear_west :
  let bench := Zone.mk WORKBENCH "Workbench" 30 0 48 60 "N" 3
                 "Position for good lighting and electrical access" in
  let s1 := Zone.mk WALL_STORAGE "Wall Storage 1" 96 0 48 18 "N" 3 EmptyString in
  let s2 := Zone.mk WALL_STORAGE "Wall Storage 2" 282 0 48 18 "E" 3 EmptyString in
  let s3 := Zone.mk WALL_STORAGE "Wall Storage 3" 0 0 48 18 "W" 3 EmptyString in
  LayoutRecommendation.zones (optimize_layout (garage_300 0) bench_and_storage)
  = ([ bench; s1; s2 ] ++ s3 :: [])%list
  /\ Zone.zone_type s3 <> OVERHEAD_STORAGE
  /\ checked_width s3 = 18 /\ checked_depth s3 = 48
  /\ (0 <= Zone.x s3 /\ 0 <= Zone.y s3
      /\ Zone.x s3 + checked_width s3 <= GarageSpace.width (garage_300 0)
      /\ Zone.y s3 + checked_depth s3 <= GarageSpace.depth (garage_300 0))
  /\ (forall p, In p [ bench; s1; s2 ] ->
        rectangles_overlap (Zone.x s3) (Zone.y s3) (checked_width s3) (checked_depth s3)
          (Zone.x p) (Zone.y p) (Zone.width p) (Zone.depth p) = false).
Proof.
  cbv zeta.
  assert (E : LayoutRecommendation.zones
                (optimize_layout (garage_300 0) bench_and_storage)
              = ([ Zone.mk WORKBENCH "Workbench" 30 0 48 60 "N" 3
                     "Position for good lighting and electrical access";
                   Zone.mk WALL_STORAGE "Wall Storage 1" 96 0 48 18 "N" 3 EmptyString;
                   Zone.mk WALL_STORAGE "Wall Storage 2" 282 0 48 18 "E" 3 EmptyString ]
                 ++ Zone.mk WALL_STORAGE "Wall Storage 3" 0 0 48 18 "W" 3 EmptyString
                    :: [])%list)
    by (vm_compute; reflexivity).
  split; [exact E |]. split; [discriminate |].
  split; [reflexivity |]. split; [reflexivity |].
  apply (checked_rectangle_clear (garage_300 0) bench_and_storage _ _ _ E).
  discriminate.
Defined.

(** ** Constraints: one per wall feature *)

Lemma Py_max_0_ge a : 0 <= Py.max 0 a.
Proof.
  unfold Py.max. destruct (Py.ltb 0 a) eqn:E.
  - apply Py_ltb_lt in E. lra.
  - apply Qle_refl.
Qed.

Lemma clearance_table_positive (key : string) : 0 < default 24 (CLEARANCES !! key).
Proof.
  destruct (CLEARANCES !! key) as [v |] eqn:E; [| reflexivity].
  apply elem_of_list_to_map_2 in E.
  repeat (apply elem_of_cons in E; destruct E as [E | E];
          [injection E as _ ->; reflexivity |]).
  apply elem_of_nil in E. destruct E.
Qed.

Lemma wall_constraint_shape garage wall f :
  wall = "N" \/ wall = "E" \/ wall = "S" \/ wall = "W" ->
  exists c,
    wall_constraint garage wall f = Some c
    /\ Constraint.wall c = wall
    /\ Constraint.constraint_type c = Str.lower (default EmptyString (Feature.type f))
    /\ 0 <= Constraint.x c /\ 0 <= Constraint.y c
    /\ (0 < default 36 (Feature.width f) ->
        0 < Constraint.width c /\ 0 < Constraint.depth c).
Proof.
  intros Hwall. unfold wall_constraint.
  set (ftype := Str.lower (default EmptyString (Feature.type f))).
  set (name := default "Unknown" (Feature.name f)).
  pose proof (clearance_table_positive ftype) as Hpos.
  set (table := default 24 (CLEARANCES !! ftype)) in *.
  set (width := default 36 (Feature.width f)).
  destruct (indicates_garage_door ftype name);
    destruct Hwall as [-> | [-> | [-> | ->]]]; simpl;
    (eexists; split; [reflexivity |]); simpl;
    (split; [reflexivity |]); (split; [reflexivity |]);
    (split; [apply Py_max_0_ge |]); (split; [apply Py_max_0_ge |]);
    intros Hw; split; solve [exact Hw | exact Hpos | reflexivity].
Qed.

Lemma add_wall_constraints_shape garage wall features :
  wall = "N" \/ wall = "E" \/ wall = "S" \/ wall = "W" ->
  List.length (add_wall_constraints garage features wall) = List.length features
  /\ map Constraint.wall (add_wall_constraints garage features wall)
     = List.repeat wall (List.length features)
  /\ map Constraint.constraint_type (add_wall_constraints garage features wall)
     = map (fun f => Str.lower (default EmptyString (Feature.type f))) features
  /\ Forall (fun c => 0 <= Constraint.x c /\ 0 <= Constraint.y c)
       (add_wall_constraints garage features wall)
  /\ (Forall (fun f => 0 < default 36 (Feature.width f)) features ->
      Forall (fun c => 0 < Constraint.width c /\ 0 < Constraint.depth c)
        (add_wall_constraints garage features wall)).
Proof.
  intros Hwall. unfold add_wall_constraints.
  induction features as [| f features IH].
  - repeat split; try reflexivity; constructor.
  - destruct (wall_constraint_shape garage wall f Hwall)
      as (c & Hc & Hw & Ht & Hx & Hy & Hdims).
    destruct IH as (IH1 & IH2 & IH3 & IH4 & IH5).
    cbn [omap list_omap]. rewrite Hc. cbn [map List.length List.repeat].
    rewrite IH1, IH2, IH3, Hw, Ht. repeat split; try reflexivity.
    + constructor; [split; assumption | exact IH4].
    + intros Hall. inversion Hall as [| ? ? Hf Hrest]; subst.
      constructor; [apply Hdims, Hf | apply IH5, Hrest].
Qed.

(** X2: [generate_constraints] returns exactly one constraint per wall
    feature, in the order north, east, south, west and feature order within a
    wall; floor features yield none.  Each constraint carries its wall and
    the lowercased feature type, and its x and y are never negative. *)
Theorem generate_constraints_one_per_feature (garage : GarageSpace.t) :
  let wall_features :=
    (GarageSpace.north_features garage ++ GarageSpace.east_features garage
     ++ GarageSpace.south_features garage ++ GarageSpace.west_features garage)%list in
  List.length (generate_constraints garage) = List.length wall_features
  /\ map Constraint.wall (generate_constraints garage)
     = (List.repeat "N" (List.length (GarageSpace.north_features garage))
        ++ List.repeat "E" (List.length (GarageSpace.east_features garage))
        ++ List.repeat "S" (List.length (GarageSpace.south_features garage))
        ++ List.repeat "W" (List.length (GarageSpace.west_features garage)))%list
  /\ map Constraint.constraint_type (generate_constraints garage)
     = map (fun f => Str.lower (default EmptyString (Feature.type f))) wall_features
  /\ Forall (fun c => 0 <= Constraint.x c /\ 0 <= Constraint.y c)
       (generate_constraints garage).
Proof.
  cbv zeta. unfold generate_constraints.
  destruct (add_wall_constraints_shape garage "N" (GarageSpace.north_features garage))
    as (N1 & N2 & N3 & N4 & _); [tauto |].
  destruct (add_wall_constraints_shape garage "E" (GarageSpace.east_features garage))
    as (E1 & E2 & E3 & E4 & _); [tauto |].
  destruct (add_wall_constraints_shape garage "S" (GarageSpace.south_features garage))
    as (S1 & S2 & S3 & S4 & _); [tauto |].
  destruct (add_wall_constraints_shape garage "W" (GarageSpace.west_features garage))
    as (W1 & W2 & W3 & W4 & _); [tauto |].
  rewrite !List.length_app, !List.map_app.
  rewrite N1, E1, S1, W1, N2, E2, S2, W2, N3, E3, S3, W3.
  repeat split; try reflexivity.
  repeat (apply List.Forall_app; split); assumption.
Qed.

(** X3: when every wall feature has a positive width (36 when the key is
    absent), every generated constraint has strictly positive width and
    depth. *)
Theorem constraint_dimensions_positive (garage : GarageSpace.t) :
  Forall (fun f => 0 < default 36 (Feature.width f))
    (GarageSpace.north_features garage ++ GarageSpace.east_features garage
     ++ GarageSpace.south_features garage ++ GarageSpace.west_features garage) ->
  Forall (fun c => 0 < Constraint.width c /\ 0 < Constraint.depth c)
    (generate_constraints garage).
Proof.
  intros Hall. unfold generate_constraints.
  apply List.Forall_app in Hall. destruct Hall as [HN Hall].
  apply List.Forall_app in Hall. destruct Hall as [HE Hall].
  apply List.Forall_app in Hall. destruct Hall as [HS HW].
  repeat (apply List.Forall_app; split);
    (eapply add_wall_constraints_shape; [tauto | assumption]).
Qed.

(** A garage with a window on each of two walls, a panel without a width,
    and a floor drain. *)
Lemma constraint_dimensions_positive_example :
  Forall (fun f => 0 < default 36 (Feature.width f))
    (GarageSpace.north_features furnished_garage
     ++ GarageSpace.east_features furnished_garage
     ++ GarageSpace.south_features furnished_garage
     ++ GarageSpace.west_features furnished_garage)
  /\ Forall (fun c => 0 < Constraint.width c /\ 0 < Constraint.depth c)
       (generate_constraints furnished_garage)
  /\ List.length (generate_constraints furnished_garage) = 4%nat.
Proof.
  assert (H : Forall (fun f => 0 < default 36 (Feature.width f))
                (GarageSpace.north_features furnished_garage
                 ++ GarageSpace.east_features furnished_garage
                 ++ GarageSpace.south_features furnished_garage
                 ++ GarageSpace.west_features furnished_garage)).
  { repeat constructor. }
  split; [exact H |]. split; [| reflexivity].
  exact (constraint_dimensions_positive furnished_garage H).
Defined.

(** ** The placement checks *)

Lemma existsb_and_filter {A} (f g : A -> bool) l :
  existsb (fun a => f a && g a) l
  = existsb (fun a => f a && g a) (List.filter g l).
Proof.
  induction l as [| a l IH]; [reflexivity |]. cbn [existsb List.filter].
  destruct (g a) eqn:E; cbn [existsb]; rewrite IH, ?E, ?andb_false_r; reflexivity.
Qed.

Lemma first_some_ext {A B} (f g : A -> option B) l :
  (forall a, f a = g a) -> first_some f l = first_some g l.
Proof.
  intros H. induction l as [| a l IH]; [reflexivity |].
  cbn [first_some]. now rewrite H, IH.
Qed.

(** X4: constraints whose type contains garage_door never block a vehicle:
    [find_vehicle_position] returns the same position with them as without
    them. *)
Theorem garage_door_never_blocks_vehicle (garage : GarageSpace.t)
    (constraints : list Constraint.t) (placed_zones : list Zone.t)
    (width depth : Q) (zone_spec : ZoneSpec.t) :
  find_vehicle_position garage constraints placed_zones width depth zone_spec
  = find_vehicle_position garage
      (List.filter (fun c => negb (is_garage_door_constraint c)) constraints)
      placed_zones width depth zone_spec.
Proof.
  unfold find_vehicle_position. apply first_some_ext. intros [x y].
  unfold vehicle_candidate_ok, is_garage_door_constraint.
  rewrite (existsb_and_filter
             (fun c => rectangles_overlap x y width depth (Constraint.x c)
                         (Constraint.y c) (Constraint.width c) (Constraint.depth c))
             (fun c => negb (Str.contains "garage_door" (Constraint.constraint_type c)))
             constraints).
  reflexivity.
Qed.

Lemma existsb_false_iff {A} (f : A -> bool) l :
  existsb f l = false <-> Forall (fun a => f a = false) l.
Proof.
  induction l as [| a l IH]; cbn [existsb].
  - split; [constructor | reflexivity].
  - rewrite orb_false_iff, IH. split.
    + intros [H1 H2]. now constructor.
    + intros H. inversion H; subst. now split.
Qed.

(** X5: [position_is_clear] accepts a rectangle exactly when it lies within
    the garage and overlaps no constraint and no placed zone; so a rectangle
    that is clear stays clear when constraints or placed zones are removed. *)
Theorem position_is_clear_iff (x y width depth : Q) (garage : GarageSpace.t)
    (constraints more_constraints : list Constraint.t)
    (placed_zones more_zones : list Zone.t) :
  (position_is_clear x y width depth garage constraints placed_zones = true <->
   rect_in_garage garage x y width depth
   /\ Forall (fun c => rectangles_overlap x y width depth (Constraint.x c)
                         (Constraint.y c) (Constraint.width c) (Constraint.depth c)
                       = false) constraints
   /\ Forall (fun z => rectangles_overlap x y width depth (Zone.x z) (Zone.y z)
                         (Zone.width z) (Zone.depth z) = false) placed_zones)
  /\ (position_is_clear x y width depth garage
        (constraints ++ more_constraints) (placed_zones ++ more_zones) = true ->
      position_is_clear x y width depth garage constraints placed_zones = true).
Proof.
  assert (Hiff : forall cs zs,
    position_is_clear x y width depth garage cs zs = true <->
    rect_in_garage garage x y width depth
    /\ Forall (fun c => rectangles_overlap x y width depth (Constraint.x c)
                          (Constraint.y c) (Constraint.width c) (Constraint.depth c)
                        = false) cs
    /\ Forall (fun z => rectangles_overlap x y width depth (Zone.x z) (Zone.y z)
                          (Zone.width z) (Zone.depth z) = false) zs).
  { intros cs zs. unfold position_is_clear, rect_in_garage, Py.gtb.
    rewrite <- !existsb_false_iff.
    rewrite <- (Py_ltb_ge x 0), <- (Py_ltb_ge y 0),
      <- (Py_ltb_ge (GarageSpace.width garage) (x + width)),
      <- (Py_ltb_ge (GarageSpace.depth garage) (y + depth)).
    destruct (Py.ltb x 0), (Py.ltb y 0),
      (Py.ltb (GarageSpace.width garage) (x + width)),
      (Py.ltb (GarageSpace.depth garage) (y + depth)); cbn [orb];
      try (split; [discriminate | intros (H & _); decompose [and] H; discriminate]).
    destruct (existsb _ cs), (existsb _ zs);
      split; try discriminate; try tauto;
      intros (_ & H1 & H2); discriminate. }
  split; [apply Hiff |].
  intros H. apply Hiff in H. apply Hiff.
  destruct H as (Hb & Hc & Hz).
  apply List.Forall_app in Hc. apply List.Forall_app in Hz. tauto.
Qed.

(** ** The priority sort *)

Lemma insert_by_sorted {A} (key : A -> Z) x l :
  StronglySorted (fun a b => (key b <= key a)%Z) l ->
  StronglySorted (fun a b => (key b <= key a)%Z)
    (insert_by (fun a b => (key b <=? key a)%Z) x l).
Proof.
  induction 1 as [| y l Hsorted IH Hy]; cbn [insert_by].
  - constructor; constructor.
  - destruct (Z.leb_spec (key y) (key x)) as [Hle | Hgt].
    + constructor; [constructor; assumption |].
      constructor; [exact Hle |].
      eapply List.Forall_impl; [| exact Hy]. intros z Hz. cbv beta in Hz. lia.
    + constructor; [exact IH |].
      eapply Permutation_Forall; [symmetry; apply insert_by_perm |].
      constructor; [lia | exact Hy].
Qed.

Lemma sorted_by_key_reverse_sorted {A} (key : A -> Z) l :
  StronglySorted (fun a b => (key b <= key a)%Z) (sorted_by_key_reverse key l).
Proof.
  unfold sorted_by_key_reverse, stable_sort.
  induction l as [| x l IH]; cbn [fold_right]; [constructor |].
  apply insert_by_sorted, IH.
Qed.

Lemma insert_by_filter_key {A} (key : A -> Z) k x l :
  List.filter (fun a => (key a =? k)%Z)
    (insert_by (fun a b => (key b <=? key a)%Z) x l)
  = List.filter (fun a => (key a =? k)%Z) (x :: l).
Proof.
  induction l as [| y l IH]; cbn [insert_by]; [reflexivity |].
  destruct (Z.leb_spec (key y) (key x)) as [Hle | Hgt]; [reflexivity |].
  cbn [List.filter] in *. rewrite IH.
  destruct (Z.eqb_spec (key x) k), (Z.eqb_spec (key y) k); try reflexivity. lia.
Qed.

Lemma sorted_by_key_reverse_stable {A} (key : A -> Z) k l :
  List.filter (fun a => (key a =? k)%Z) (sorted_by_key_reverse key l)
  = List.filter (fun a => (key a =? k)%Z) l.
Proof.
  unfold sorted_by_key_reverse, stable_sort.
  induction l as [| x l IH]; cbn [fold_right]; [reflexivity |].
  rewrite insert_by_filter_key. cbn [List.filter]. now rewrite IH.
Qed.

(** X6: the sorted demand list holds the same demands as the generated one,
    in non-increasing priority, and demands of equal priority keep their
    generation order (vehicles, then the workbench, then the wall-storage
    sections by number). *)
Theorem zones_needed_sorted_stable (profile : UsageProfile.t) :
  Permutation (zones_needed_sorted profile) (zones_needed profile)
  /\ StronglySorted (fun a b => (ZoneSpec.priority b <= ZoneSpec.priority a)%Z)
       (zones_needed_sorted profile)
  /\ forall p : Z,
       List.filter (fun d => (ZoneSpec.priority d =? p)%Z) (zones_needed_sorted profile)
       = List.filter (fun d => (ZoneSpec.priority d =? p)%Z) (zones_needed profile).
Proof.
  split; [apply zones_needed_sorted_perm |]. split.
  - apply sorted_by_key_reverse_sorted.
  - intros p. apply sorted_by_key_reverse_stable.
Qed.

(** ** The shape of the result *)

Lemma overhead_fold_shape profile locs st :
  fold_left (overhead_step profile) locs st
  = Run.mk (Run.placed_zones st)
      (Run.zones st ++ map (overhead_zone profile) (List.filter useful_size locs))
      (Run.reasoning st ++ map overhead_message (List.filter useful_size locs))
      (Run.warnings st).
Proof.
  revert st. induction locs as [| loc locs IH]; intros st.
  - destruct st. cbn. now rewrite !List.app_nil_r.
  - cbn [fold_left List.filter]. rewrite IH. unfold overhead_step.
    fold (useful_size loc). destruct (useful_size loc);
      cbn [Run.placed_zones Run.zones Run.reasoning Run.warnings map].
    + now rewrite <- !List.app_assoc.
    + reflexivity.
Qed.

Lemma overhead_locations_count garage placed_zones :
  (1 <= List.length (List.filter useful_size (overhead_locations garage placed_zones)) <= 3)%nat.
Proof.
  unfold overhead_locations. cbv zeta.
  match goal with
  | |- context [ List.filter useful_size (?n ++ ?w ++ ?e) ] =>
      set (north := n); set (west := w);
      assert (Hn : (List.length north <= 1)%nat);
      [| assert (Hw : (List.length west <= 1)%nat) ]
  end.
  - subst north. destruct (Py.ltb _ _); cbn [List.length]; lia.
  - subst west. destruct (List.filter (is_type VEHICLE) placed_zones) as [| v ?];
      [cbn [List.length]; lia |].
    destruct (Py.gtb _ _); cbn [List.length]; lia.
  - rewrite !List.filter_app, !List.length_app.
    pose proof (List.filter_length_le useful_size north).
    pose proof (List.filter_length_le useful_size west).
    change (List.filter useful_size
              [Loc.mk "Overhead Storage - East"
                 (GarageSpace.width garage - overhead_depth) 48 overhead_depth 96])
      with [Loc.mk "Overhead Storage - East"
              (GarageSpace.width garage - overhead_depth) 48 overhead_depth 96].
    cbn [List.length]. lia.
Qed.

Lemma main_pass_floor_zones garage profile :
  Forall floor_zone (Run.zones (main_pass garage profile)).
Proof.
  apply List.Forall_forall. intros z Hin. unfold main_pass in Hin.
  apply place_all_zones_origin in Hin. destruct Hin as [[] | (spec & placed & _ & Hp)].
  apply place_zone_inv in Hp. destruct Hp as (_ & _ & _ & _ & _ & Hs).
  unfold floor_zone. destruct Hs as [(H & _) | [(H & _) | (H & _)]]; tauto.
Qed.

(** X7: the zones of the result are the zones of the main pass (vehicles,
    workbench, wall storage) followed by the overhead zones.  There are no
    overhead zones unless the overhead_storage preference is set and the
    ceiling is at least 96 high; then there are between one and three, each
    on wall ceiling, more than 36 wide and deep, with the general_storage
    priority. *)
Theorem overhead_zones_follow (garage : GarageSpace.t) (profile : UsageProfile.t) :
  exists overhead,
    LayoutRecommendation.zones (optimize_layout garage profile)
    = (Run.zones (main_pass garage profile) ++ overhead)%list
    /\ Forall floor_zone (Run.zones (main_pass garage profile))
    /\ Forall (fun z => Zone.zone_type z = OVERHEAD_STORAGE
                        /\ Zone.wall z = "ceiling"
                        /\ 36 < Zone.width z /\ 36 < Zone.depth z
                        /\ Zone.priority z = spec_priority profile "general_storage")
         overhead
    /\ (preference_of profile "overhead_storage" false = false
        \/ GarageSpace.ceiling_height garage < 96 -> overhead = [])
    /\ (preference_of profile "overhead_storage" false = true
        /\ 96 <= GarageSpace.ceiling_height garage ->
        (1 <= List.length overhead <= 3)%nat).
Proof.
  unfold optimize_layout. cbn [LayoutRecommendation.zones].
  set (st := main_pass garage profile).
  pose proof (main_pass_floor_zones garage profile) as Hfloor. fold st in Hfloor.
  unfold overhead_pass.
  destruct (preference_of profile "overhead_storage" false) eqn:Hpref;
    [destruct (Py.geb (GarageSpace.ceiling_height garage) 96) eqn:Hceil |];
    cbn [andb].
  - rewrite overhead_fold_shape. cbn [Run.zones].
    eexists. split; [reflexivity |]. split; [exact Hfloor |]. split; [| split].
    + apply List.Forall_forall. intros z Hz. apply in_map_iff in Hz.
      destruct Hz as (loc & <- & Hloc). apply List.filter_In in Hloc.
      destruct Hloc as [_ Hloc]. unfold useful_size in Hloc.
      apply andb_true_iff in Hloc. destruct Hloc as [Hw Hd].
      apply Py_ltb_lt in Hw, Hd. cbn. tauto.
    + intros [H | H]; [discriminate |].
      apply Py_leb_le in Hceil. lra.
    + intros _. rewrite List.length_map. apply overhead_locations_count.
  - exists []. rewrite List.app_nil_r.
    split; [reflexivity |]. split; [exact Hfloor |]. split; [constructor |].
    split; [reflexivity |].
    intros [_ H]. apply Py_leb_gt in Hceil. lra.
  - exists []. rewrite List.app_nil_r.
    split; [reflexivity |]. split; [exact Hfloor |]. split; [constructor |].
    split; [reflexivity |]. intros [H _]. discriminate.
Qed.

(** X8: in every result there is one reasoning string per zone, the zones of
    the main pass and the warnings together account for every demand, the
    overhead pass adds no warning, and the constraints are those of
    [generate_constraints]. *)
Theorem result_accounts_for_demands (garage : GarageSpace.t)
    (profile : UsageProfile.t) :
  List.length (LayoutRecommendation.reasoning (optimize_layout garage profile))
  = List.length (LayoutRecommendation.zones (optimize_layout garage profile))
  /\ (List.length
        (List.filter (fun z => negb (is_type OVERHEAD_STORAGE z))
           (LayoutRecommendation.zones (optimize_layout garage profile)))
      + List.length (LayoutRecommendation.warnings (optimize_layout garage profile))
      = List.length (zones_needed profile))%nat
  /\ LayoutRecommendation.warnings (optimize_layout garage profile)
     = Run.warnings (main_pass garage profile)
  /\ LayoutRecommendation.constraints (optimize_layout garage profile)
     = generate_constraints garage.
Proof.
  pose proof (main_pass_floor_zones garage profile) as Hfloor.
  destruct (place_all_lengths garage (generate_constraints garage)
              (UsageProfile.preferences profile) (zones_needed_sorted profile)
              Run.init) as [Hz Hr].
  fold (main_pass garage profile) in Hz, Hr.
  change (List.length (Run.zones Run.init)) with 0%nat in Hz.
  change (List.length (Run.reasoning Run.init)) with 0%nat in Hr.
  change (List.length (Run.warnings Run.init)) with 0%nat in Hz, Hr.
  rewrite (Permutation_length (zones_needed_sorted_perm profile)) in Hz, Hr.
  unfold optimize_layout.
  cbn [LayoutRecommendation.zones LayoutRecommendation.reasoning
       LayoutRecommendation.warnings LayoutRecommendation.constraints].
  set (st := main_pass garage profile) in *.
  assert (Hshape : exists locs,
            overhead_pass garage profile st
            = Run.mk (Run.placed_zones st)
                (Run.zones st ++ map (overhead_zone profile) locs)
                (Run.reasoning st ++ map overhead_message locs)
                (Run.warnings st)).
  { unfold overhead_pass. destruct (_ && _).
    - eexists. apply overhead_fold_shape.
    - exists []. destruct st. cbn. now rewrite !List.app_nil_r. }
  destruct Hshape as [locs ->].
  cbn [Run.zones Run.reasoning Run.warnings].
  rewrite List.filter_app, !List.length_app, !List.length_map.
  rewrite (filter_all _ (Run.zones st)), (filter_none _ (map (overhead_zone profile) locs)).
  - cbn [List.length]. repeat split; lia.
  - apply List.Forall_forall. intros z Hin. apply in_map_iff in Hin.
    destruct Hin as (loc & <- & _). reflexivity.
  - eapply List.Forall_impl; [| exact Hfloor].
    intros z Hfz. unfold is_type. destruct Hfz as [-> | [-> | ->]]; reflexivity.
Qed.

(** ** Every zone comes from a placement against the zones before it *)

Lemma snoc_split {A} (P : list A -> A -> Prop) (l : list A) (z : A) :
  (forall before z' after, l = (before ++ z' :: after)%list -> P before z') ->
  P l z ->
  forall before z' after, (l ++ [z])%list = (before ++ z' :: after)%list -> P before z'.
Proof.
  intros Hl Hz before z' after E.
  destruct after as [| a after _] using rev_ind.
  - apply app_inj_tail in E. destruct E as [-> ->]. exact Hz.
  - change (before ++ z' :: after ++ [a])%list
      with (before ++ (z' :: after) ++ [a])%list in E.
    rewrite List.app_assoc in E. apply app_inj_tail in E. destruct E as [-> _].
    eapply Hl. reflexivity.
Qed.

Lemma place_all_origin_ordered garage constraints preferences all_specs specs st :
  (forall s, In s specs -> In s all_specs) ->
  Run.zones st = Run.placed_zones st ->
  (forall before z after, Run.zones st = (before ++ z :: after)%list ->
     exists spec, In spec all_specs
       /\ place_zone spec garage constraints before preferences = Some z) ->
  forall before z after,
    Run.zones (place_all garage constraints preferences specs st)
    = (before ++ z :: after)%list ->
    exists spec, In spec all_specs
      /\ place_zone spec garage constraints before preferences = Some z.
Proof.
  revert st. induction specs as [| spec specs IH]; intros st Hsub Heq Hord;
    [exact Hord |].
  rewrite place_all_cons.
  apply IH; [intros s Hs; apply Hsub; now right | |]; unfold place_step;
    destruct (place_zone spec _ _ _ _) as [zone |] eqn:E;
    cbn [Run.zones Run.placed_zones]; auto.
  - now rewrite Heq.
  - apply (snoc_split
             (fun before z =>
                exists spec0, In spec0 all_specs
                  /\ place_zone spec0 garage constraints before preferences = Some z));
      [exact Hord |].
    exists spec. split; [apply Hsub; now left |]. rewrite Heq. exact E.
Qed.

(** A zone of the result that is not an overhead zone was returned by
    [place_zone] for one of the demands, against exactly the zones that
    precede it. *)
Lemma result_zone_origin garage profile before z after :
  LayoutRecommendation.zones (optimize_layout garage profile)
  = (before ++ z :: after)%list ->
  Zone.zone_type z <> OVERHEAD_STORAGE ->
  exists spec,
    In spec (zones_needed_sorted profile)
    /\ place_zone spec garage (generate_constraints garage) before
         (UsageProfile.preferences profile) = Some z.
Proof.
  intros E Hz. unfold optimize_layout in E. cbn [LayoutRecommendation.zones] in E.
  destruct (overhead_pass_zones_split garage profile (main_pass garage profile))
    as (more & Hsplit & Hmore).
  rewrite Hsplit in E. apply List.app_eq_app in E.
  destruct E as (l & [[E1 E2] | [E1 E2]]).
  - destruct l as [| a l].
    + rewrite List.app_nil_r in E1. cbn [app] in E2. subst more.
      inversion Hmore; subst. contradiction.
    + injection E2 as <- ->.
      eapply (place_all_origin_ordered garage (generate_constraints garage)
                (UsageProfile.preferences profile) (zones_needed_sorted profile)
                (zones_needed_sorted profile) Run.init);
        [auto | reflexivity | | exact E1].
      intros b z' a' Hnil. destruct b; discriminate Hnil.
  - subst more. apply List.Forall_app in Hmore. destruct Hmore as [_ Hmore].
    inversion Hmore; subst. contradiction.
Qed.

(** X9: a VEHICLE zone, or a zone placed along the north wall, overlaps no
    zone that precedes it in the zone list of the result; in particular no
    two VEHICLE zones overlap. *)
Theorem unrotated_zone_overlaps_none_before (garage : GarageSpace.t)
    (profile : UsageProfile.t) (before after : list Zone.t) (z p : Zone.t) :
  LayoutRecommendation.zones (optimize_layout garage profile)
  = (before ++ z :: after)%list ->
  Zone.zone_type z = VEHICLE \/ Zone.wall z = "N" ->
  In p before ->
  zones_overlap z p = false /\ zones_overlap p z = false.
Proof.
  intros E Hz Hp.
  assert (Hno : Zone.zone_type z <> OVERHEAD_STORAGE).
  { intros Ht. destruct Hz as [Hz | Hz]; [congruence |].
    assert (Hin : In z (LayoutRecommendation.zones (optimize_layout garage profile))).
    { rewrite E. apply in_or_app. right. now left. }
    apply optimize_layout_zones_origin in Hin.
    destruct Hin as [[_ Hw] | (spec & placed & _ & Hpl)].
    - rewrite Hw in Hz. discriminate.
    - apply place_zone_inv in Hpl. destruct Hpl as (_ & _ & _ & _ & _ & Hs).
      destruct Hs as [(H & _) | [(H & _) | (H & _)]]; congruence. }
  destruct (result_zone_origin garage profile before z after E Hno)
    as (spec & _ & Hpl).
  apply place_zone_inv in Hpl.
  destruct Hpl as (_ & _ & _ & _ & [_ Hclear] & Hs).
  assert (Hr : rotated z = false).
  { unfold rotated. destruct Hz as [Ht | ->]; [| reflexivity].
    destruct Hs as [(_ & -> & _) | [(Ht' & _) | (Ht' & _)]];
      [reflexivity | congruence | congruence]. }
  unfold checked_width, checked_depth in Hclear. rewrite Hr in Hclear.
  assert (H1 : zones_overlap z p = false) by (apply Hclear, Hp).
  split; [exact H1 |].
  unfold zones_overlap in *.
  apply rectangles_overlap_false in H1. apply rectangles_overlap_false. tauto.
Qed.

(** ** Vehicles stand at the south wall *)



(** ** Wall storage stays on the scan grid *)

Lemma range0_In (stop step n : Z) :
  (0 < step)%Z -> In n (Py.range0 stop step) ->
  (0 <= n < stop)%Z /\ (step | n)%Z.
Proof.
  intros Hstep. unfold Py.range0. destruct (Z.leb_spec stop 0) as [| Hpos];
    [intros [] |].
  intros H. apply in_map_iff in H. destruct H as (i & <- & Hi).
  apply in_seq in Hi. destruct Hi as [_ Hi]. cbn [Nat.add] in Hi.
  assert (Hq : (0 <= (stop + step - 1) / step)%Z) by (apply Z.div_pos; lia).
  assert (Hi' : (Z.of_nat i < (stop + step - 1) / step)%Z) by lia.
  pose proof (Z.mul_div_le (stop + step - 1) step Hstep) as Hle.
  split; [| exists (Z.of_nat i); reflexivity]. nia.
Qed.

Lemma Py_int_above (q : Q) (n : Z) :
  (0 <= n)%Z -> (n < Py.int q)%Z -> inject_Z n + 1 <= q.
Proof.
  intros Hn Hlt. destruct q as [num den]. unfold Py.int in Hlt.
  cbn [Qnum Qden] in Hlt.
  assert (Hnum : (0 <= num)%Z).
  { destruct (Z.le_gt_cases 0 num) as [H | H]; [exact H |].
    pose proof (Z.quot_opp_l (- num) (Zpos den)) as Ho.
    rewrite Z.opp_involutive in Ho.
    assert (0 <= - num ÷ Zpos den)%Z by (apply Z.quot_pos; lia).
    lia. }
  rewrite Z.quot_div_nonneg in Hlt by lia.
  pose proof (Qfloor_le (num # den)) as Hfl. cbn [Qfloor] in Hfl.
  assert (Hinj : inject_Z n + 1 <= inject_Z (num / Zpos den)).
  { change (inject_Z n + 1) with (inject_Z n + inject_Z 1).
    rewrite <- (inject_Z_plus n 1). rewrite <- Zle_Qle. lia. }
  lra.
Qed.

Lemma scan_wall_grid garage constraints placed_zones width depth step wall wall' x y :
  (0 < step)%Z ->
  scan_wall garage constraints placed_zones width depth step wall
  = Some (wall', x, y) ->
  exists n : Z,
    (0 <= n)%Z /\ (step | n)%Z
    /\ ((wall' = "N" /\ x = inject_Z n /\ y = 0
         /\ (n < Py.int (GarageSpace.width garage - width))%Z)
        \/ (wall' = "E" /\ x = GarageSpace.width garage - depth /\ y = inject_Z n
            /\ (n < Py.int (GarageSpace.depth garage - width))%Z)
        \/ (wall' = "W" /\ x = 0 /\ y = inject_Z n
            /\ (n < Py.int (GarageSpace.depth garage - width))%Z)).
Proof.
  intros Hstep. unfold scan_wall.
  destruct (String.eqb_spec wall "N") as [-> | _].
  { intros H. apply first_some_inv in H. destruct H as (n & Hn & H).
    destruct (position_is_clear _ _ _ _ _ _ _); [| discriminate].
    injection H as <- <- <-. apply (range0_In _ _ _ Hstep) in Hn.
    exists n. intuition. }
  destruct (String.eqb_spec wall "E") as [-> | _].
  { intros H. apply first_some_inv in H. destruct H as (n & Hn & H).
    destruct (position_is_clear _ _ _ _ _ _ _); [| discriminate].
    injection H as <- <- <-. apply (range0_In _ _ _ Hstep) in Hn.
    exists n. intuition. }
  destruct (String.eqb_spec wall "W") as [-> | _]; [| discriminate].
  intros H. apply first_some_inv in H. destruct H as (n & Hn & H).
  destruct (position_is_clear _ _ _ _ _ _ _); [| discriminate].
  injection H as <- <- <-. apply (range0_In _ _ _ Hstep) in Hn.
  exists n. intuition.
Qed.

Lemma find_wall_storage_spot_grid garage constraints placed_zones width depth
    wall x y :
  find_wall_storage_spot garage constraints placed_zones width depth
  = Some (wall, x, y) ->
  exists n : Z,
    (0 <= n)%Z /\ (12 | n)%Z
    /\ ((wall = "N" /\ x = inject_Z n /\ y = 0
         /\ (n < Py.int (GarageSpace.width garage - width))%Z)
        \/ (wall = "E" /\ x = GarageSpace.width garage - depth /\ y = inject_Z n
            /\ (n < Py.int (GarageSpace.depth garage - width))%Z)
        \/ (wall = "W" /\ x = 0 /\ y = inject_Z n
            /\ (n < Py.int (GarageSpace.depth garage - width))%Z)).
Proof.
  unfold find_wall_storage_spot.
  destruct (first_some _ (sorted_by_key _ _)) as [spot |] eqn:E.
  - intros [= ->]. apply first_some_inv in E. destruct E as (w & _ & H).
    apply scan_wall_grid in H; [| lia].
    destruct H as (n & Hn & [k Hk] & H). exists n.
    split; [exact Hn |]. split; [exists (2 * k)%Z; lia | exact H].
  - intros H. apply first_some_inv in H. destruct H as (w & _ & H).
    apply scan_wall_grid in H; [| lia].
    destruct H as (n & Hn & Hk & H). exists n. auto.
Qed.

Lemma wall_storage_specs_dims profile :
  Forall (fun s => ZoneSpec.width s = 48 /\ ZoneSpec.depth s = 18)
    (wall_storage_specs profile).
Proof.
  unfold wall_storage_specs.
  destruct (preference_of profile "wall_storage" true); [| constructor].
  apply List.Forall_forall. intros d Hd. apply in_map_iff in Hd.
  destruct Hd as (i & <- & _). split; reflexivity.
Qed.

Lemma wall_storage_demand_dims profile spec :
  In spec (zones_needed_sorted profile) ->
  ZoneSpec.type spec = WALL_STORAGE ->
  ZoneSpec.width spec = 48 /\ ZoneSpec.depth spec = 18.
Proof.
  intros Hin Ht.
  apply (Permutation_in _ (zones_needed_sorted_perm profile)) in Hin.
  unfold zones_needed in Hin. apply in_app_or in Hin.
  destruct Hin as [Hin | Hin].
  { pose proof (vehicle_specs_type profile) as H.
    eapply List.Forall_forall in H; [| exact Hin]. congruence. }
  apply in_app_or in Hin. destruct Hin as [Hin | Hin].
  { pose proof (workbench_specs_type profile) as H.
    eapply List.Forall_forall in H; [| exact Hin]. congruence. }
  pose proof (wall_storage_specs_dims profile) as H.
  eapply List.Forall_forall in H; [exact H | exact Hin].
Qed.

(** X11: every WALL_STORAGE zone of the result is recorded 48 wide and 18
    deep and sits on the scan grid of its wall: on the north wall at y = 0
    and x a non-negative multiple of 12, on the east wall at
    x = garage.width - 18, on the west wall at x = 0, with y a non-negative
    multiple of 12.  The scan stops short of the far end: the start
    coordinate plus the 48-inch length is at least one inch less than the
    wall's extent, so a wall exactly 48 long takes no section. *)
Theorem wall_storage_on_grid (garage : GarageSpace.t) (profile : UsageProfile.t)
    (z : Zone.t) :
  In z (LayoutRecommendation.zones (optimize_layout garage profile)) ->
  Zone.zone_type z = WALL_STORAGE ->
  Zone.width z = 48 /\ Zone.depth z = 18
  /\ exists n : Z,
       (0 <= n)%Z /\ (12 | n)%Z
       /\ ((Zone.wall z = "N" /\ Zone.x z = inject_Z n /\ Zone.y z = 0
            /\ inject_Z n + 48 + 1 <= GarageSpace.width garage)
           \/ (Zone.wall z = "E" /\ Zone.x z = GarageSpace.width garage - 18
               /\ Zone.y z = inject_Z n
               /\ inject_Z n + 48 + 1 <= GarageSpace.depth garage)
           \/ (Zone.wall z = "W" /\ Zone.x z = 0 /\ Zone.y z = inject_Z n
               /\ inject_Z n + 48 + 1 <= GarageSpace.depth garage)).
Proof.
  intros Hin Ht. apply optimize_layout_zones_origin in Hin.
  destruct Hin as [[Ht' _] | (spec & placed & Hspec & Hp)]; [congruence |].
  assert (Hts : ZoneSpec.type spec = WALL_STORAGE).
  { pose proof (place_zone_inv _ _ _ _ _ _ Hp) as (H & _). congruence. }
  destruct (wall_storage_demand_dims profile spec Hspec Hts) as [Hw Hd].
  unfold place_zone in Hp. rewrite Hts, Hw, Hd in Hp.
  destruct (find_wall_storage_spot _ _ _ _ _) as [[[wall x] y] |] eqn:E;
    [| discriminate].
  injection Hp as <-. cbn [Zone.width Zone.depth Zone.wall Zone.x Zone.y].
  split; [reflexivity |]. split; [reflexivity |].
  apply find_wall_storage_spot_grid in E.
  destruct E as (n & Hn & Hk & H). exists n.
  split; [exact Hn |]. split; [exact Hk |].
  destruct H as [(-> & -> & -> & Hlt) | [(-> & -> & -> & Hlt) | (-> & -> & -> & Hlt)]];
    apply (Py_int_above _ _ Hn) in Hlt.
  - left. repeat split. lra.
  - right; left. repeat split. lra.
  - right; right. repeat split. lra.
Qed.

(** ** The properties above on Scenario B and on [bench_and_storage] *)

(** In Scenario B the second vehicle does not overlap the first. *)
Lemma unrotated_zone_overlaps_none_before_scenario_B :
  let z1 := Zone.mk VEHICLE EmptyString 30 96 96 204 "S" 3 "Pull in from garage door" in
  let z2 := Zone.mk VEHICLE EmptyString 138 96 96 204 "S" 3 "Pull in from garage door" in
  let s1 := Zone.mk WALL_STORAGE "Wall Storage 1" 0 0 48 18 "N" 3 EmptyString in
  let s2 := Zone.mk WALL_STORAGE "Wall Storage 2" 282 0 48 18 "E" 3 EmptyString in
  LayoutRecommendation.zones (optimize_layout (garage_300 0) scenario_B)
  = ([ z1 ] ++ z2 :: [ s1; s2 ])%list
  /\ (Zone.zone_type z2 = VEHICLE \/ Zone.wall z2 = "N")
  /\ In z1 [ z1 ]
  /\ zones_overlap z2 z1 = false /\ zones_overlap z1 z2 = false.
Proof.
  cbv zeta.
  assert (E : LayoutRecommendation.zones (optimize_layout (garage_300 0) scenario_B)
              = ([ Zone.mk VEHICLE EmptyString 30 96 96 204 "S" 3
                     "Pull in from garage door" ]
                 ++ Zone.mk VEHICLE EmptyString 138 96 96 204 "S" 3
                      "Pull in from garage door"
                    :: [ Zone.mk WALL_STORAGE "Wall Storage 1" 0 0 48 18 "N" 3 EmptyString;
                         Zone.mk WALL_STORAGE "Wall Storage 2" 282 0 48 18 "E" 3
                           EmptyString ])%list)
    by (vm_compute; reflexivity).
  split; [exact E |]. split; [left; reflexivity |]. split; [left; reflexivity |].
  exact (unrotated_zone_overlaps_none_before (garage_300 0) scenario_B _ _ _ _ E
           (or_introl eq_refl) (or_introl eq_refl)).
Defined.


(** On [bench_and_storage] the first section sits at x = 96 = 8 x 12 on the
    north wall. *)
Lemma wall_storage_on_grid_example :
  let s1 := Zone.mk WALL_STORAGE "Wall Storage 1" 96 0 48 18 "N" 3 EmptyString in
  In s1 (LayoutRecommendation.zones (optimize_layout (garage_300 0) bench_and_storage))
  /\ Zone.zone_type s1 = WALL_STORAGE
  /\ Zone.width s1 = 48 /\ Zone.depth s1 = 18
  /\ exists n : Z,
       (0 <= n)%Z /\ (12 | n)%Z
       /\ ((Zone.wall s1 = "N" /\ Zone.x s1 = inject_Z n /\ Zone.y s1 = 0
            /\ inject_Z n + 48 + 1 <= GarageSpace.width (garage_300 0))
           \/ (Zone.wall s1 = "E" /\ Zone.x s1 = GarageSpace.width (garage_300 0) - 18
               /\ Zone.y s1 = inject_Z n
               /\ inject_Z n + 48 + 1 <= GarageSpace.depth (garage_300 0))
           \/ (Zone.wall s1 = "W" /\ Zone.x s1 = 0 /\ Zone.y s1 = inject_Z n
               /\ inject_Z n + 48 + 1 <= GarageSpace.depth (garage_300 0))).
Proof.
  cbv zeta.
  assert (Hin : In (Zone.mk WALL_STORAGE "Wall Storage 1" 96 0 48 18 "N" 3 EmptyString)
                  (LayoutRecommendation.zones
                     (optimize_layout (garage_300 0) bench_and_storage)))
    by (vm_compute; right; left; reflexivity).
  split; [exact Hin |]. split; [reflexivity |].
  exact (wall_storage_on_grid (garage_300 0) bench_and_storage _ Hin eq_refl).
Defined.

(** ** Edges of the score *)

Lemma inject_Z_of_nat_nonneg (n : nat) : 0 <= inject_Z (Z.of_nat n).
Proof. change 0 with (inject_Z 0). rewrite <- Zle_Qle. lia. Qed.

Lemma clamp_cases (s : Q) :
  (100 <= s -> Py.max 0 (Py.min 100 s) == 100)
  /\ (s <= 0 -> Py.max 0 (Py.min 100 s) == 0)
  /\ (0 <= s <= 100 -> Py.max 0 (Py.min 100 s) == s).
Proof.
  unfold Py.max, Py.min.
  destruct (Py.ltb s 100) eqn:E1;
    [apply Py_ltb_lt in E1 | apply Py_ltb_ge in E1];
    match goal with
    | |- context [Py.ltb 0 ?t] =>
        destruct (Py.ltb 0 t) eqn:E2;
          [apply Py_ltb_lt in E2 | apply Py_ltb_ge in E2]
    end;
    repeat split; intros; lra.
Qed.

Lemma clamp_monotone (s t : Q) :
  s <= t -> Py.max 0 (Py.min 100 s) <= Py.max 0 (Py.min 100 t).
Proof.
  intros Hst. rewrite !Py_max_Qmax, !Py_min_Qmin.
  apply Q.max_le_compat_l. apply Q.min_le_compat_l. exact Hst.
Qed.

(** X12: a layout without warnings scores exactly 100 whatever was placed
    (the bonuses are absorbed by the clamp); a layout with eight or more
    warnings scores 0; and one more warning never raises the score. *)
Theorem score_edges (zones : list Zone.t) (warnings : list string)
    (warning : string) (profile : UsageProfile.t) :
  calculate_layout_score zones [] profile == 100
  /\ ((8 <= List.length warnings)%nat ->
      calculate_layout_score zones warnings profile == 0)
  /\ calculate_layout_score zones (warning :: warnings) profile
     <= calculate_layout_score zones warnings profile.
Proof.
  unfold calculate_layout_score.
  generalize (existsb (is_type VEHICLE) zones
              && (4 <=? priority_of profile "vehicle_storage" 0)%Z).
  generalize (existsb (is_type WORKBENCH) zones
              && (4 <=? priority_of profile "workspace" 0)%Z).
  intros bw bv. split; [| split].
  - apply clamp_cases. cbn [List.length Z.of_nat].
    destruct bv, bw; vm_compute; discriminate.
  - intros H8. apply clamp_cases.
    assert (Hn : 8 <= inject_Z (Z.of_nat (List.length warnings))).
    { change 8 with (inject_Z 8). rewrite <- Zle_Qle. lia. }
    destruct bv, bw; lra.
  - apply clamp_monotone.
    assert (Hn : inject_Z (Z.of_nat (List.length warnings))
                 <= inject_Z (Z.of_nat (List.length (warning :: warnings)))).
    { rewrite <- Zle_Qle. cbn [List.length]. lia. }
    destruct bv, bw; lra.
Qed.

(** ** The measurement parser *)









(** *** The matcher fails when every continuation fails *)












(** *** Texts without a digit *)

Lemma rep_greedy_no_start {A} p n s (k : string -> option A) :
  match s with String c _ => p c = false | EmptyString => True end ->
  Re.rep_greedy p (S n) s k = None.
Proof. destruct s as [| c s]; simpl; [reflexivity |]. now intros ->. Qed.

Lemma match_number_no_start rest s :
  no_digit_first s -> Re.match_ (Re.Cat (Re.Grp 1 Re.number) rest) s = None.
Proof.
  intros H. unfold Re.match_, Re.number, Re.digits1. cbn [Re.rmatch].
  now apply rep_greedy_no_start.
Qed.

Lemma no_digit_first_all s : all_chars not_digit s = true -> no_digit_first s.
Proof.
  destruct s as [| c s]; simpl; [trivial |].
  intros H. apply andb_true_iff in H. destruct H as [H _].
  now apply negb_true_iff in H.
Qed.

Lemma search_number_no_digit rest s :
  all_chars not_digit s = true ->
  Re.search (Re.Cat (Re.Grp 1 Re.number) rest) s = None.
Proof.
  induction s as [| c s IH]; intros H; cbn [Re.search];
    rewrite match_number_no_start by now apply no_digit_first_all.
  - reflexivity.
  - apply IH. simpl in H. now apply andb_true_iff in H.
Qed.

Lemma all_chars_lstrip p s :
  all_chars p s = true -> all_chars p (Str.lstrip s) = true.
Proof.
  induction s as [| c s IH]; [auto |]. intros H. cbn [Str.lstrip].
  destruct (Str.is_space c); [| exact H].
  apply IH. simpl in H. now apply andb_true_iff in H.
Qed.

Lemma all_chars_rstrip p s :
  all_chars p s = true -> all_chars p (Str.rstrip s) = true.
Proof.
  induction s as [| c s IH]; [auto |]. intros H. cbn [Str.rstrip].
  simpl in H. apply andb_true_iff in H. destruct H as [Hc Hs].
  specialize (IH Hs). destruct (Str.rstrip s) as [| c' t].
  - destruct (Str.is_space c); simpl; [reflexivity | now rewrite Hc].
  - change (p c && all_chars p (String c' t) = true). now rewrite Hc, IH.
Qed.

(** X13: a text without any digit (the empty text and N/A among them) is not
    a measurement: the parser returns None for it. *)
Theorem measurement_needs_a_digit (measurement : string) :
  all_chars not_digit measurement = true ->
  measurement_to_inches measurement = None.
Proof.
  intros H. unfold measurement_to_inches.
  destruct (_ || _); [reflexivity |]. cbv zeta.
  assert (Hf : Re.search feet_pattern measurement = None)
    by now apply search_number_no_digit.
  assert (Hi : Re.search inches_pattern measurement = None)
    by now apply search_number_no_digit.
  assert (Hp : Re.match_ plain_pattern (Str.strip measurement) = None).
  { apply match_number_no_start, no_digit_first_all.
    now apply all_chars_rstrip, all_chars_lstrip. }
  rewrite Hf, Hi, Hp. reflexivity.
Qed.

Lemma measurement_needs_a_digit_example :
  all_chars not_digit "about six feet" = true
  /\ measurement_to_inches "about six feet" = None.
Proof.
  split; [reflexivity |].
  apply (measurement_needs_a_digit "about six feet"). reflexivity.
Defined.

(** *** The result is positive *)


(** *** Texts of digits *)

















(** *** Printing integers *)





(** *** Formatting a whole number of inches *)

Lemma round_half_even_integer (x : Q) (m : Z) :
  x == inject_Z m -> round_half_even x = m.
Proof.
  intros H. unfold round_half_even. cbv zeta.
  rewrite (Qfloor_comp _ _ H), Qfloor_Z.
  destruct (Py.ltb (x - inject_Z m) (1 # 2)) eqn:E; [reflexivity |].
  apply Py_ltb_ge in E. lra.
Qed.

Lemma inches_to_feet_str_integer (n : Z) :
  inches_to_feet_str (inject_Z n)
  = if (n mod 12 =? 0)%Z then Str.of_Z (n / 12) ++ "'"
    else if (n / 12 =? 0)%Z then Str.of_Z (n mod 12) ++ String "034" EmptyString
    else Str.of_Z (n / 12) ++ "' " ++ Str.of_Z (n mod 12) ++ String "034" EmptyString.
Proof.
  unfold inches_to_feet_str. cbv zeta.
  assert (Hf : Qfloor (inject_Z n / 12) = (n / 12)%Z).
  { change 12 with (inject_Z 12). now rewrite <- Zdiv_Qdiv. }
  rewrite Hf.
  assert (Hr : inject_Z n - 12 * inject_Z (n / 12) == inject_Z (n mod 12)).
  { rewrite Zmod_eq_full by lia.
    unfold Z.sub. rewrite inject_Z_plus, inject_Z_opp, inject_Z_mult.
    change (inject_Z 12) with 12. ring. }
  rewrite (round_half_even_integer _ _ Hr).
  assert (Hz : Qeq_bool (inject_Z n - 12 * inject_Z (n / 12)) 0
               = (n mod 12 =? 0)%Z).
  { destruct (n mod 12 =? 0)%Z eqn:E.
    - apply Z.eqb_eq in E. apply Qeq_bool_iff. rewrite Hr, E. reflexivity.
    - apply Z.eqb_neq in E. apply not_true_iff_false. intros Hq.
      apply Qeq_bool_iff in Hq. rewrite Hr in Hq.
      apply E. unfold Qeq in Hq. cbn [Qnum Qden inject_Z] in Hq. lia. }
  now rewrite Hz.
Qed.

(** *** Reading back a formatted length *)















(** X15: a whole number of inches, [12 f + r] with [r] below 12, is printed
    as feet alone when [r] is zero, as inches alone when [f] is zero, and as
    feet and inches otherwise. *)
Theorem feet_string_of_whole_inches (f r : Z) :
  (0 <= r < 12)%Z ->
  inches_to_feet_str (inject_Z (12 * f + r))
  = if (r =? 0)%Z then Str.of_Z f ++ "'"
    else if (f =? 0)%Z then Str.of_Z r ++ String "034" EmptyString
    else Str.of_Z f ++ "' " ++ Str.of_Z r ++ String "034" EmptyString.
Proof.
  intros Hr. rewrite inches_to_feet_str_integer.
  replace ((12 * f + r) mod 12)%Z with r
    by (rewrite Z.add_comm, Z.mul_comm, Z.mod_add, Z.mod_small; lia).
  replace ((12 * f + r) / 12)%Z with f
    by (rewrite Z.add_comm, Z.mul_comm, Z.div_add, Z.div_small; lia).
  reflexivity.
Qed.

Lemma feet_string_of_whole_inches_example :
  inches_to_feet_str 75 = "6' 3" ++ String "034" EmptyString.
Proof.
  apply (feet_string_of_whole_inches 6 3). lia.
Defined.



(** ** Dimensions of the zones *)








(** ** The wall order of the workbench *)

Lemma has_electrical_fold (features : list Feature.t) (h : gmap string bool) (b : bool) :
  h !! "N" = Some false -> h !! "W" = Some false -> h !! "E" = Some b ->
  let h' :=
    fold_left (fun h f => if mentions_electrical f then <["E" := true]> h else h)
      features h in
  h' !! "N" = Some false /\ h' !! "W" = Some false
  /\ h' !! "E" = Some (b || existsb mentions_electrical features).
Proof.
  revert h b. induction features as [| f l IH]; intros h b HN HW HE; cbv zeta.
  - cbn [fold_left existsb]. now rewrite orb_false_r.
  - cbn [fold_left existsb]. destruct (mentions_electrical f).
    + rewrite orb_true_r.
      specialize (IH (<["E" := true]> h) true).
      cbv zeta in IH. rewrite orb_true_l in IH. apply IH.
      * now rewrite lookup_insert_ne.
      * now rewrite lookup_insert_ne.
      * apply lookup_insert_eq.
    + rewrite orb_false_l. now apply IH.
Qed.

Lemma sort_walls_by_flag (key : string -> Z) (b : bool) :
  key "N" = 0%Z -> key "W" = 0%Z -> key "E" = Z.b2z b ->
  sorted_by_key_reverse key [ "N"; "E"; "W" ]
  = if b then [ "E"; "N"; "W" ] else [ "N"; "E"; "W" ].
Proof.
  intros HN HW HE. unfold sorted_by_key_reverse, stable_sort.
  destruct b; cbn [Z.b2z] in HE;
    repeat (cbn [fold_right insert_by]; rewrite ?HN, ?HW, ?HE;
            cbn [Z.leb Z.compare Pos.compare]);
    reflexivity.
Qed.

(** X18: the workbench tries the east wall first exactly when a feature of
    the east wall has electrical or panel in its name, and the north wall
    first otherwise; the west wall comes last and the south wall is never
    tried.  Features of the other walls do not change the order. *)
Theorem workbench_wall_order (garage : GarageSpace.t)
    (constraints : list Constraint.t) (placed_zones : list Zone.t)
    (width depth : Q) :
  find_best_wall_for_workbench garage constraints placed_zones width depth
  = first_some (workbench_on_wall garage constraints placed_zones width depth)
      (if existsb mentions_electrical (GarageSpace.east_features garage)
       then [ "E"; "N"; "W" ] else [ "N"; "E"; "W" ]).
Proof.
  unfold find_best_wall_for_workbench. cbv zeta.
  destruct (has_electrical_fold (GarageSpace.east_features garage)
              (list_to_map [ ("N", false); ("E", false); ("W", false); ("S", false) ])
              false) as (HN & HW & HE); try reflexivity.
  rewrite orb_false_l in HE.
  rewrite (sort_walls_by_flag _ (existsb mentions_electrical
                                   (GarageSpace.east_features garage))).
  - reflexivity.
  - now rewrite HN.
  - now rewrite HW.
  - now rewrite HE.
Qed.

(** ** Demands *)




(** X20: a profile that does not give the workspace priority gets a workbench
    demand exactly when it lists a work activity; the demand then has
    priority 3 and is never the large bench: it is 72 by 66 when an activity
    needs a medium or large space and 48 by 60 otherwise. *)
Theorem workbench_without_priority (profile : UsageProfile.t) :
  UsageProfile.priorities profile !! "workspace" = None ->
  workbench_specs profile
  = if is_empty (UsageProfile.work_activities profile) then []
    else [ ZoneSpec.mk WORKBENCH "Workbench"
             (if needs_large profile then 72 else 48)
             (if needs_large profile then 66 else 60) 3 None None ].
Proof.
  intros H. unfold workbench_specs, priority_of. rewrite H.
  cbn [default from_option id Z.leb Z.compare orb andb].
  destruct (is_empty (UsageProfile.work_activities profile));
    [reflexivity |].
  cbn [negb orb]. rewrite !orb_false_r.
  destruct (needs_large profile); reflexivity.
Qed.

Lemma workbench_without_priority_example :
  workbench_specs hobby_profile
  = [ ZoneSpec.mk WORKBENCH "Workbench" 72 66 3 None None ].
Proof. apply (workbench_without_priority hobby_profile). reflexivity. Defined.

(** ** The wall order of wall storage *)

Lemma sections_on_cons wall z placed_zones :
  sections_on wall (z :: placed_zones)
  = ((if is_type WALL_STORAGE z && String.eqb (Zone.wall z) wall then 1 else 0)
     + sections_on wall placed_zones)%Z.
Proof.
  unfold sections_on. cbn [List.filter].
  destruct (_ && _); cbn [List.length]; lia.
Qed.

Lemma wall_counts_fold (placed_zones : list Zone.t) (counts : gmap string Z)
    (wall : string) :
  fold_left
    (fun counts z =>
       if is_type WALL_STORAGE z then
         match counts !! Zone.wall z with
         | Some n => <[Zone.wall z := (n + 1)%Z]> counts
         | None => counts
         end
       else counts)
    placed_zones counts !! wall
  = (fun n => (n + sections_on wall placed_zones)%Z) <$> counts !! wall.
Proof.
  revert counts. induction placed_zones as [| z l IH]; intros counts.
  - cbn [fold_left].
    destruct (counts !! wall); cbn;
      [f_equal; unfold sections_on; cbn; lia | reflexivity].
  - cbn [fold_left]. rewrite IH, sections_on_cons.
    destruct (is_type WALL_STORAGE z); cbn [andb].
    + destruct (counts !! Zone.wall z) as [n |] eqn:E.
      * destruct (String.eqb_spec (Zone.wall z) wall) as [<- | Hne].
        -- rewrite lookup_insert_eq, E. cbn. f_equal. lia.
        -- rewrite lookup_insert_ne by exact Hne.
           destruct (counts !! wall); cbn; [f_equal; lia | reflexivity].
      * destruct (String.eqb_spec (Zone.wall z) wall) as [<- | Hne].
        -- now rewrite E.
        -- destruct (counts !! wall); cbn; [f_equal; lia | reflexivity].
    + destruct (counts !! wall); cbn; [f_equal; lia | reflexivity].
Qed.

Lemma wall_counts_lookup (placed_zones : list Zone.t) (wall : string) :
  wall_counts placed_zones !! wall
  = if is_storage_wall wall then Some (sections_on wall placed_zones) else None.
Proof.
  unfold wall_counts. rewrite wall_counts_fold. unfold is_storage_wall.
  destruct (String.eqb_spec wall "N") as [-> | HN]; [reflexivity |].
  destruct (String.eqb_spec wall "E") as [-> | HE]; [reflexivity |].
  destruct (String.eqb_spec wall "W") as [-> | HW]; [reflexivity |].
  cbn [orb].
  assert (H : (list_to_map [ ("N", 0%Z); ("E", 0%Z); ("W", 0%Z) ] : gmap string Z)
              !! wall = None).
  { apply not_elem_of_list_to_map_1. cbn [fmap list_fmap fst].
    rewrite !not_elem_of_cons. repeat split; try assumption. apply not_elem_of_nil. }
  now rewrite H.
Qed.

Lemma insert_by_ext_in {A} (le le' : A -> A -> bool) x l :
  (forall y, In y l -> le x y = le' x y) ->
  insert_by le x l = insert_by le' x l.
Proof.
  induction l as [| y l IH]; intros H; [reflexivity |].
  cbn [insert_by]. rewrite (H y) by now left.
  destruct (le' x y); [reflexivity |]. f_equal. apply IH.
  intros y' Hy'. apply H. now right.
Qed.

Lemma stable_sort_ext_in {A} (le le' : A -> A -> bool) l :
  (forall a b, In a l -> In b l -> le a b = le' a b) ->
  stable_sort le l = stable_sort le' l.
Proof.
  induction l as [| a l IH]; intros H; [reflexivity |].
  unfold stable_sort in *. cbn [fold_right].
  rewrite IH by (intros; apply H; now right).
  apply insert_by_ext_in. intros y Hy. apply H; [now left |].
  right. eapply Permutation_in; [apply (stable_sort_perm le' l) | exact Hy].
Qed.

(** X21: the dictionary wall_counts holds, for the north, east and west wall,
    the number of wall-storage zones already recorded on that wall, and has
    no other key; the first scan of find_wall_storage_spot visits the three
    walls by increasing count (equal counts in the order N, E, W), before the
    closer scan in the fixed order N, E, W. *)
Theorem wall_storage_wall_order (garage : GarageSpace.t)
    (constraints : list Constraint.t) (placed_zones : list Zone.t)
    (width depth : Q) :
  (forall wall,
     wall_counts placed_zones !! wall
     = if is_storage_wall wall then Some (sections_on wall placed_zones) else None)
  /\ find_wall_storage_spot garage constraints placed_zones width depth
     = match
         first_some (scan_wall garage constraints placed_zones width depth 24)
           (sorted_by_key (fun wall => sections_on wall placed_zones)
              [ "N"; "E"; "W" ])
       with
       | Some spot => Some spot
       | None =>
           first_some (scan_wall garage constraints placed_zones width depth 12)
             [ "N"; "E"; "W" ]
       end.
Proof.
  split; [apply wall_counts_lookup |].
  unfold find_wall_storage_spot. cbv zeta.
  assert (E : sorted_by_key
                (fun w => default 0%Z (wall_counts placed_zones !! w))
                [ "N"; "E"; "W" ]
              = sorted_by_key (fun wall => sections_on wall placed_zones)
                  [ "N"; "E"; "W" ]).
  { unfold sorted_by_key. apply stable_sort_ext_in. intros a b Ha Hb.
    assert (Hk : forall w, In w [ "N"; "E"; "W" ] ->
                 default 0%Z (wall_counts placed_zones !! w)
                 = sections_on w placed_zones).
    { intros w Hw. rewrite wall_counts_lookup.
      destruct Hw as [<- | [<- | [<- | []]]]; reflexivity. }
    now rewrite (Hk a Ha), (Hk b Hb). }
  now rewrite E.
Qed.

(** ** The layout picture *)

Lemma py_index_in (n : nat) (i : Z) :
  (0 <= i < Z.of_nat n)%Z -> py_index n i = Some (Z.to_nat i).
Proof.
  intros H. unfold py_index.
  destruct (Z.leb_spec 0 i); [| lia]. destruct (Z.ltb_spec i (Z.of_nat n)); [| lia].
  reflexivity.
Qed.

Lemma set_cell_spec w h grid y x c :
  grid_of_size w h grid -> in_grid w h (y, x) ->
  exists grid',
    set_cell grid y x c = Some grid'
    /\ grid_of_size w h grid'
    /\ forall y' x',
         cell_at grid' y' x'
         = if hit (y, x) y' x' then Some c else cell_at grid y' x'.
Proof.
  intros [Hh Hw] [Hy Hx]. cbn [fst snd] in Hy, Hx. unfold set_cell.
  rewrite py_index_in by lia. cbv beta iota.
  destruct (lookup_lt_is_Some_2 grid (Z.to_nat y)) as [row Hrow]; [lia |].
  rewrite Hrow.
  assert (Hlen : List.length row = w) by exact (Forall_lookup_1 _ _ _ _ Hw Hrow).
  rewrite py_index_in by lia. cbv beta iota.
  eexists. split; [reflexivity |]. split.
  - split.
    + now rewrite length_insert.
    + apply Forall_insert; [exact Hw |]. now rewrite length_insert.
  - intros y' x'. unfold cell_at, hit. cbn [fst snd].
    destruct (Nat.eqb_spec y' (Z.to_nat y)) as [-> | Hne].
    + rewrite list_lookup_insert_eq by lia. cbn [andb].
      destruct (Nat.eqb_spec x' (Z.to_nat x)) as [-> | Hnx].
      * rewrite list_lookup_insert_eq by lia. reflexivity.
      * rewrite list_lookup_insert_ne by congruence. now rewrite Hrow.
    + cbn [andb]. now rewrite list_lookup_insert_ne by congruence.
Qed.

Lemma paint_cells w h c targets grid :
  grid_of_size w h grid -> Forall (in_grid w h) targets ->
  exists grid',
    for_each (fun g p => set_cell g (fst p) (snd p) c) targets grid = Some grid'
    /\ grid_of_size w h grid'
    /\ forall y x,
         cell_at grid' y x
         = if existsb (fun p => hit p y x) targets then Some c
           else cell_at grid y x.
Proof.
  revert grid. induction targets as [| [ty tx] l IH]; intros grid Hg Ht.
  - exists grid. repeat split; apply Hg.
  - inversion Ht as [| ? ? Hp Hl]; subst.
    destruct (set_cell_spec w h grid ty tx c Hg Hp) as (g1 & E1 & Hg1 & Hc1).
    destruct (IH g1 Hg1 Hl) as (g2 & E2 & Hg2 & Hc2).
    exists g2. cbn [for_each fst snd]. rewrite E1. split; [exact E2 |].
    split; [exact Hg2 |]. intros y x. rewrite Hc2, Hc1. cbn [existsb].
    destruct (hit (ty, tx) y x), (existsb _ l); reflexivity.
Qed.

Lemma for_each_ext {A S} (f g : S -> A -> option S) l s :
  (forall s a, f s a = g s a) -> for_each f l s = for_each g l s.
Proof.
  intros H. revert s. induction l as [| a l IH]; intros s; [reflexivity |].
  cbn [for_each]. rewrite H. destruct (g s a); [apply IH | reflexivity].
Qed.

Lemma for_each_app {A S} (f : S -> A -> option S) l1 l2 s :
  for_each f (l1 ++ l2)%list s
  = match for_each f l1 s with
    | Some s' => for_each f l2 s'
    | None => None
    end.
Proof.
  revert s. induction l1 as [| a l1 IH]; intros s; [reflexivity |].
  cbn [for_each app]. destruct (f s a); [apply IH | reflexivity].
Qed.

Lemma for_each_flat_map {A B S} (f : S -> B -> option S) (g : A -> list B) l s :
  for_each (fun s a => for_each f (g a) s) l s = for_each f (flat_map g l) s.
Proof.
  revert s. induction l as [| a l IH]; intros s; [reflexivity |].
  cbn [for_each flat_map]. rewrite for_each_app.
  destruct (for_each f (g a) s); [apply IH | reflexivity].
Qed.

Lemma for_each_map {A B S} (f : S -> B -> option S) (g : A -> B) l s :
  for_each f (map g l) s = for_each (fun s a => f s (g a)) l s.
Proof.
  revert s. induction l as [| a l IH]; intros s; [reflexivity |].
  cbn [for_each map]. destruct (f s (g a)); [apply IH | reflexivity].
Qed.

Lemma range_In (n i : Z) : In i (range n) <-> (0 <= i < n)%Z.
Proof.
  unfold range. rewrite in_map_iff. split.
  - intros (k & <- & Hk). apply in_seq in Hk. lia.
  - intros H. exists (Z.to_nat i). split; [lia |]. apply in_seq. lia.
Qed.

Lemma range_from_In (a b i : Z) : In i (range_from a b) <-> (a <= i < b)%Z.
Proof.
  unfold range_from. rewrite in_map_iff. split.
  - intros (k & <- & Hk). apply in_seq in Hk. lia.
  - intros H. exists (Z.to_nat (i - a)). split; [lia |]. apply in_seq. lia.
Qed.

Lemma existsb_iff {A} (f : A -> bool) l (b : bool) :
  ((exists a, In a l /\ f a = true) <-> b = true) -> existsb f l = b.
Proof.
  intros H. apply eq_true_iff_eq. rewrite existsb_exists. exact H.
Qed.

Lemma hit_iff (p : Z * Z) y x :
  (0 <= fst p)%Z -> (0 <= snd p)%Z ->
  hit p y x = true <-> (Z.of_nat y = fst p /\ Z.of_nat x = snd p).
Proof.
  intros Hy Hx. unfold hit. rewrite andb_true_iff, !Nat.eqb_eq. lia.
Qed.

(** The cells that the nested loops over two ranges reach. *)
Lemma existsb_hit_box (ya yb xa xb : Z) y x :
  (0 <= ya)%Z -> (0 <= xa)%Z ->
  existsb (fun p => hit p y x)
    (flat_map (fun y0 => map (fun x0 => (y0, x0)) (range_from xa xb))
       (range_from ya yb))
  = ((ya <=? Z.of_nat y) && (Z.of_nat y <? yb)
     && (xa <=? Z.of_nat x) && (Z.of_nat x <? xb))%Z.
Proof.
  intros Hya Hxa. apply existsb_iff.
  rewrite !andb_true_iff, !Z.leb_le, !Z.ltb_lt. split.
  - intros ([y0 x0] & Hin & Hh). apply in_flat_map in Hin.
    destruct Hin as (y1 & Hy1 & Hin). apply in_map_iff in Hin.
    destruct Hin as (x1 & [= <- <-] & Hx1).
    apply range_from_In in Hy1, Hx1.
    apply hit_iff in Hh; cbn [fst snd] in *; lia.
  - intros Hb. exists (Z.of_nat y, Z.of_nat x). split.
    + apply in_flat_map. exists (Z.of_nat y). split; [apply range_from_In; lia |].
      apply in_map_iff. exists (Z.of_nat x). split; [reflexivity |].
      apply range_from_In. lia.
    + apply hit_iff; cbn [fst snd]; lia.
Qed.

Lemma Py_int_nonneg (q : Q) : 0 <= q -> (0 <= Py.int q)%Z.
Proof.
  intros H. unfold Py.int. apply Z.quot_pos; [| lia].
  unfold Qle in H. cbn [Qnum Qden] in H. lia.
Qed.

Lemma grid_cells_nonneg (q : Q) : 0 <= q -> (2 <= Py.int (q / scale) + 2)%Z.
Proof.
  intros H. assert (0 <= Py.int (q / scale))%Z; [| lia].
  apply Py_int_nonneg. unfold Qdiv. apply Qmult_le_0_compat; [exact H |].
  discriminate.
Qed.

Lemma hit_eqb (yp xp : Z) y x :
  (0 <= yp)%Z -> (0 <= xp)%Z ->
  hit (yp, xp) y x = ((Z.of_nat y =? yp) && (Z.of_nat x =? xp))%Z.
Proof.
  intros Hy Hx. apply eq_true_iff_eq.
  rewrite hit_iff by assumption. cbn [fst snd].
  now rewrite andb_true_iff, !Z.eqb_eq.
Qed.

Lemma existsb_hit_rows (gw gh : Z) y x :
  (1 <= gh)%Z -> (x < Z.to_nat gw)%nat ->
  existsb (fun p => hit p y x)
    (flat_map (fun x0 => [ (0%Z, x0); ((gh - 1)%Z, x0) ]) (range gw))
  = ((y =? 0) || (y =? Z.to_nat gh - 1))%nat.
Proof.
  intros Hgh Hx. apply existsb_iff.
  rewrite orb_true_iff, !Nat.eqb_eq. split.
  - intros ([y0 x0] & Hin & Hh). apply in_flat_map in Hin.
    destruct Hin as (x1 & Hx1 & Hin). apply range_In in Hx1.
    destruct Hin as [[= <- <-] | [[= <- <-] | []]];
      apply hit_iff in Hh; cbn [fst snd] in *; lia.
  - intros Hy. destruct Hy as [-> | ->].
    + exists (0%Z, Z.of_nat x). split; [| apply hit_iff; cbn [fst snd]; lia].
      apply in_flat_map. exists (Z.of_nat x). split; [apply range_In; lia |].
      now left.
    + exists ((gh - 1)%Z, Z.of_nat x).
      split; [| apply hit_iff; cbn [fst snd]; lia].
      apply in_flat_map. exists (Z.of_nat x). split; [apply range_In; lia |].
      right. now left.
Qed.

Lemma existsb_hit_columns (gw gh : Z) y x :
  (1 <= gw)%Z -> (y < Z.to_nat gh)%nat ->
  existsb (fun p => hit p y x)
    (flat_map (fun y0 => [ (y0, 0%Z); (y0, (gw - 1)%Z) ]) (range gh))
  = ((x =? 0) || (x =? Z.to_nat gw - 1))%nat.
Proof.
  intros Hgw Hy. apply existsb_iff.
  rewrite orb_true_iff, !Nat.eqb_eq. split.
  - intros ([y0 x0] & Hin & Hh). apply in_flat_map in Hin.
    destruct Hin as (y1 & Hy1 & Hin). apply range_In in Hy1.
    destruct Hin as [[= <- <-] | [[= <- <-] | []]];
      apply hit_iff in Hh; cbn [fst snd] in *; lia.
  - intros Hx. destruct Hx as [-> | ->].
    + exists (Z.of_nat y, 0%Z). split; [| apply hit_iff; cbn [fst snd]; lia].
      apply in_flat_map. exists (Z.of_nat y). split; [apply range_In; lia |].
      now left.
    + exists (Z.of_nat y, (gw - 1)%Z).
      split; [| apply hit_iff; cbn [fst snd]; lia].
      apply in_flat_map. exists (Z.of_nat y). split; [apply range_In; lia |].
      right. now left.
Qed.

Lemma draw_borders_spec garage grid :
  0 <= GarageSpace.width garage -> 0 <= GarageSpace.depth garage ->
  let w := Z.to_nat (grid_width garage) in
  let h := Z.to_nat (grid_height garage) in
  grid_of_size w h grid ->
  exists grid',
    draw_borders garage grid = Some grid'
    /\ grid_of_size w h grid'
    /\ forall y x, (y < h)%nat -> (x < w)%nat ->
         cell_at grid' y x
         = if on_frameb w h y x then Some (frame_char w h y x)
           else cell_at grid y x.
Proof.
  intros Hgw Hgh w h Hg.
  apply grid_cells_nonneg in Hgw, Hgh.
  fold (grid_width garage) in Hgw. fold (grid_height garage) in Hgh.
  unfold draw_borders. cbv zeta.
  rewrite (for_each_ext _
             (fun g x => for_each (fun g p => set_cell g (fst p) (snd p) "-")
                           [ (0%Z, x); ((grid_height garage - 1)%Z, x) ] g)).
  2:{ intros s a. cbn [for_each fst snd].
      destruct (set_cell s 0 a "-"); [| reflexivity].
      now destruct (set_cell _ _ a "-"). }
  rewrite for_each_flat_map.
  match goal with
  | |- context [for_each _ ?l grid] =>
      destruct (paint_cells w h "-" l grid Hg) as (g1 & E1 & Hg1 & Hc1);
        [| rewrite E1]
  end.
  { apply List.Forall_forall. intros [y0 x0] Hin. apply in_flat_map in Hin.
    destruct Hin as (x1 & Hx1 & Hin). apply range_In in Hx1.
    destruct Hin as [[= <- <-] | [[= <- <-] | []]]; split; cbn [fst snd]; lia. }
  rewrite (for_each_ext _
             (fun g y => for_each (fun g p => set_cell g (fst p) (snd p) "|")
                           [ (y, 0%Z); (y, (grid_width garage - 1)%Z) ] g)).
  2:{ intros s a. cbn [for_each fst snd].
      destruct (set_cell s a 0 "|"); [| reflexivity].
      now destruct (set_cell _ a _ "|"). }
  rewrite for_each_flat_map.
  match goal with
  | |- context [for_each _ ?l g1] =>
      destruct (paint_cells w h "|" l g1 Hg1) as (g2 & E2 & Hg2 & Hc2);
        [| rewrite E2]
  end.
  { apply List.Forall_forall. intros [y0 x0] Hin. apply in_flat_map in Hin.
    destruct Hin as (y1 & Hy1 & Hin). apply range_In in Hy1.
    destruct Hin as [[= <- <-] | [[= <- <-] | []]]; split; cbn [fst snd]; lia. }
  rewrite (for_each_ext _ (fun g p => set_cell g (fst p) (snd p) "+"))
    by (intros s [y0 x0]; reflexivity).
  match goal with
  | |- context [for_each _ ?l g2] =>
      destruct (paint_cells w h "+" l g2 Hg2) as (g3 & E3 & Hg3 & Hc3);
        [| rewrite E3]
  end.
  { repeat constructor; cbn [fst snd]; lia. }
  exists g3. split; [reflexivity |]. split; [exact Hg3 |].
  intros y x Hy Hx. rewrite Hc3, Hc2, Hc1.
  rewrite (existsb_hit_rows _ _ y x) by (fold w; lia).
  rewrite (existsb_hit_columns _ _ y x) by (fold h; lia).
  fold w h. cbn [existsb]. rewrite !hit_eqb by lia.
  unfold on_frameb, frame_char.
  destruct (Nat.eqb_spec y 0), (Nat.eqb_spec y (h - 1)),
           (Nat.eqb_spec x 0), (Nat.eqb_spec x (w - 1));
    cbn [orb andb];
    repeat match goal with
           | |- context [(?a =? ?b)%Z] => destruct (Z.eqb_spec a b); try lia
           end;
    cbn [orb andb]; reflexivity.
Qed.

Lemma draw_zone_spec garage grid zone :
  let w := Z.to_nat (grid_width garage) in
  let h := Z.to_nat (grid_height garage) in
  grid_of_size w h grid ->
  exists grid',
    draw_zone garage grid zone = Some grid'
    /\ grid_of_size w h grid'
    /\ forall y x,
         cell_at grid' y x
         = if zone_covers garage zone y x
           then Some (zone_chars (Zone.zone_type zone))
           else cell_at grid y x.
Proof.
  intros w h Hg. unfold draw_zone. cbv zeta.
  set (c := zone_chars (Zone.zone_type zone)).
  set (xs := range_from _ _). set (ys := range_from _ _).
  rewrite (for_each_ext _
             (fun g y => for_each (fun g p => set_cell g (fst p) (snd p) c)
                           (map (fun x => (y, x)) xs) g))
    by (intros s a; symmetry; apply for_each_map).
  rewrite for_each_flat_map.
  destruct (paint_cells w h c
              (flat_map (fun y => map (fun x => (y, x)) xs) ys) grid Hg)
    as (g1 & E1 & Hg1 & Hc1).
  { apply List.Forall_forall. intros [y0 x0] Hin. apply in_flat_map in Hin.
    destruct Hin as (y1 & Hy1 & Hin). apply in_map_iff in Hin.
    destruct Hin as (x1 & [= <- <-] & Hx1). subst xs ys.
    apply range_from_In in Hy1, Hx1. split; cbn [fst snd]; lia. }
  exists g1. split; [exact E1 |]. split; [exact Hg1 |].
  intros y x. rewrite Hc1. subst xs ys.
  rewrite existsb_hit_box by lia. reflexivity.
Qed.

Lemma draw_zones_spec garage zones grid :
  let w := Z.to_nat (grid_width garage) in
  let h := Z.to_nat (grid_height garage) in
  grid_of_size w h grid ->
  exists grid',
    for_each (draw_zone garage) zones grid = Some grid'
    /\ grid_of_size w h grid'
    /\ forall y x,
         cell_at grid' y x
         = match zone_letter garage zones y x with
           | Some c => Some c
           | None => cell_at grid y x
           end.
Proof.
  intros w h. revert grid. induction zones as [| z l IH]; intros grid Hg.
  - exists grid. repeat split; apply Hg.
  - destruct (draw_zone_spec garage grid z Hg) as (g1 & E1 & Hg1 & Hc1).
    destruct (IH g1 Hg1) as (g2 & E2 & Hg2 & Hc2).
    exists g2. cbn [for_each]. rewrite E1. split; [exact E2 |].
    split; [exact Hg2 |]. intros y x. rewrite Hc2, Hc1.
    unfold zone_letter. cbn [last_some].
    destruct (last_some _ l); [reflexivity |].
    now destruct (zone_covers garage z y x).
Qed.

Lemma draw_constraint_spec garage grid constraint :
  let w := Z.to_nat (grid_width garage) in
  let h := Z.to_nat (grid_height garage) in
  grid_of_size w h grid ->
  exists grid',
    draw_constraint garage grid constraint = Some grid'
    /\ grid_of_size w h grid'
    /\ forall y x,
         cell_at grid' y x
         = match constraint_marks garage constraint y x with
           | Some c => Some c
           | None => cell_at grid y x
           end.
Proof.
  intros w h Hg. unfold draw_constraint, constraint_marks. cbv zeta.
  set (xp := (Py.int _ + 1)%Z). set (yp := (Py.int _ + 1)%Z).
  destruct ((0 <? xp)%Z && (xp <? grid_width garage - 1)%Z
            && (0 <? yp)%Z && (yp <? grid_height garage - 1)%Z) eqn:Eg.
  2:{ exists grid. split; [reflexivity |]. split; [exact Hg |].
      intros y x. reflexivity. }
  cbn [andb].
  destruct (constraint_letter constraint) as [c |].
  2:{ exists grid. split; [reflexivity |]. split; [exact Hg |].
      intros y x. destruct ((Z.of_nat y =? yp)%Z && _); reflexivity. }
  rewrite !andb_true_iff, !Z.ltb_lt in Eg.
  destruct (set_cell_spec w h grid yp xp c Hg) as (g1 & E1 & Hg1 & Hc1).
  { split; cbn [fst snd]; lia. }
  exists g1. split; [exact E1 |]. split; [exact Hg1 |].
  intros y x. rewrite Hc1, hit_eqb by lia.
  destruct ((Z.of_nat y =? yp)%Z && _); reflexivity.
Qed.

Lemma draw_constraints_spec garage constraints grid :
  let w := Z.to_nat (grid_width garage) in
  let h := Z.to_nat (grid_height garage) in
  grid_of_size w h grid ->
  exists grid',
    for_each (draw_constraint garage) constraints grid = Some grid'
    /\ grid_of_size w h grid'
    /\ forall y x,
         cell_at grid' y x
         = match last_some (fun c => constraint_marks garage c y x) constraints with
           | Some c => Some c
           | None => cell_at grid y x
           end.
Proof.
  intros w h. revert grid. induction constraints as [| c l IH]; intros grid Hg.
  - exists grid. repeat split; apply Hg.
  - destruct (draw_constraint_spec garage grid c Hg) as (g1 & E1 & Hg1 & Hc1).
    destruct (IH g1 Hg1) as (g2 & E2 & Hg2 & Hc2).
    exists g2. cbn [for_each]. rewrite E1. split; [exact E2 |].
    split; [exact Hg2 |]. intros y x. rewrite Hc2, Hc1. cbn [last_some].
    now destruct (last_some _ l).
Qed.

Lemma blank_grid (w h y x : nat) :
  grid_of_size w h (replicate h (replicate w " "%char))
  /\ ((y < h)%nat -> (x < w)%nat ->
      cell_at (replicate h (replicate w " "%char)) y x = Some " "%char).
Proof.
  split.
  - split; [apply length_replicate |].
    apply Forall_replicate, length_replicate.
  - intros Hy Hx. unfold cell_at.
    rewrite (lookup_replicate_2 h _ y Hy). now apply lookup_replicate_2.
Qed.

(** The grid is drawn whatever the zones and constraints are, and each of
    its cells shows [picture_char]. *)
Lemma layout_grid_spec garage recommendation :
  0 <= GarageSpace.width garage -> 0 <= GarageSpace.depth garage ->
  let w := Z.to_nat (grid_width garage) in
  let h := Z.to_nat (grid_height garage) in
  exists grid,
    layout_grid garage recommendation = Some grid
    /\ grid_of_size w h grid
    /\ forall y x, (y < h)%nat -> (x < w)%nat ->
         cell_at grid y x = Some (picture_char garage recommendation y x).
Proof.
  intros Hgw Hgh w h. unfold layout_grid. cbv zeta. fold w h.
  destruct (draw_borders_spec garage _ Hgw Hgh (proj1 (blank_grid w h 0 0)))
    as (g1 & E1 & Hg1 & Hc1).
  fold w h in E1, Hg1, Hc1. rewrite E1.
  destruct (draw_zones_spec garage (LayoutRecommendation.zones recommendation)
              g1 Hg1) as (g2 & E2 & Hg2 & Hc2).
  rewrite E2.
  destruct (draw_constraints_spec garage
              (LayoutRecommendation.constraints recommendation) g2 Hg2)
    as (g3 & E3 & Hg3 & Hc3).
  exists g3. split; [exact E3 |]. split; [exact Hg3 |].
  intros y x Hy Hx. rewrite Hc3, Hc2, (Hc1 y x Hy Hx).
  rewrite (proj2 (blank_grid w h y x) Hy Hx).
  unfold picture_char. cbv zeta. fold w h.
  destruct (last_some _ (LayoutRecommendation.constraints recommendation));
    [reflexivity |].
  destruct (zone_letter _ _ _ _); [reflexivity |].
  now destruct (on_frameb w h y x).
Qed.

Lemma last_some_none {A B} (f : A -> option B) l :
  (forall a, In a l -> f a = None) -> last_some f l = None.
Proof.
  induction l as [| a l IH]; intros H; [reflexivity |].
  cbn [last_some]. rewrite IH by (intros; apply H; now right).
  apply H. now left.
Qed.

Lemma on_frameb_true w h y x : on_frameb w h y x = true <-> on_frame w h y x.
Proof.
  unfold on_frameb, on_frame. rewrite !orb_true_iff, !Nat.eqb_eq. tauto.
Qed.

Lemma zone_covers_interior garage zone y x :
  zone_covers garage zone y x = true ->
  (0 < y < Z.to_nat (grid_height garage) - 1
   /\ 0 < x < Z.to_nat (grid_width garage) - 1)%nat.
Proof.
  unfold zone_covers. cbv zeta.
  rewrite !andb_true_iff, !Z.leb_le, !Z.ltb_lt. lia.
Qed.

Lemma constraint_marks_interior garage constraint y x c :
  constraint_marks garage constraint y x = Some c ->
  (0 < y < Z.to_nat (grid_height garage) - 1
   /\ 0 < x < Z.to_nat (grid_width garage) - 1)%nat.
Proof.
  unfold constraint_marks. cbv zeta. destruct (_ && _) eqn:E; [| discriminate].
  intros _. rewrite !andb_true_iff, !Z.ltb_lt, !Z.eqb_eq in E. lia.
Qed.

(** X22: for a garage of non-negative width and depth the picture is always
    drawn (no IndexError), whatever the zones and constraints, also for zones
    that reach outside the garage: it has int(depth/6) + 2 rows of
    int(width/6) + 2 characters, and its frame is intact: + in the four
    corners, - along the top and bottom rows, | along the side columns. *)
Theorem layout_grid_frame (garage : GarageSpace.t)
    (recommendation : LayoutRecommendation.t) :
  0 <= GarageSpace.width garage -> 0 <= GarageSpace.depth garage ->
  let w := Z.to_nat (grid_width garage) in
  let h := Z.to_nat (grid_height garage) in
  exists grid,
    layout_grid garage recommendation = Some grid
    /\ List.length grid = h
    /\ Forall (fun row => List.length row = w) grid
    /\ forall y x, (y < h)%nat -> (x < w)%nat -> on_frame w h y x ->
         cell_at grid y x = Some (frame_char w h y x).
Proof.
  intros Hgw Hgh w h.
  destruct (layout_grid_spec garage recommendation Hgw Hgh)
    as (grid & E & [Hh Hw] & Hc).
  exists grid. split; [exact E |]. split; [exact Hh |]. split; [exact Hw |].
  intros y x Hy Hx Hf. rewrite (Hc y x Hy Hx). f_equal.
  unfold picture_char. cbv zeta. fold w h.
  assert (Hedge : ~ (0 < y < h - 1 /\ 0 < x < w - 1)%nat)
    by (unfold on_frame in Hf; lia).
  rewrite last_some_none.
  2:{ intros c _. destruct (constraint_marks garage c y x) eqn:Em; [| reflexivity].
      apply constraint_marks_interior in Em. contradiction. }
  unfold zone_letter. rewrite last_some_none.
  2:{ intros z _. destruct (zone_covers garage z y x) eqn:Ez; [| reflexivity].
      apply zone_covers_interior in Ez. contradiction. }
  apply on_frameb_true in Hf. now rewrite Hf.
Qed.

(** X23: inside the frame each cell of the picture shows the letter of the
    last constraint in the list whose marker falls on it; failing that, the
    character of the last zone in the list whose clipped rectangle covers
    it; failing that, a blank.  Later zones hide earlier ones, and
    constraint letters hide zones. *)
Theorem layout_grid_cells (garage : GarageSpace.t)
    (recommendation : LayoutRecommendation.t) :
  0 <= GarageSpace.width garage -> 0 <= GarageSpace.depth garage ->
  exists grid,
    layout_grid garage recommendation = Some grid
    /\ forall y x,
         (0 < y < Z.to_nat (grid_height garage) - 1)%nat ->
         (0 < x < Z.to_nat (grid_width garage) - 1)%nat ->
         cell_at grid y x
         = Some
             match
               last_some (fun c => constraint_marks garage c y x)
                 (LayoutRecommendation.constraints recommendation)
             with
             | Some c => c
             | None =>
                 match
                   zone_letter garage
                     (LayoutRecommendation.zones recommendation) y x
                 with
                 | Some c => c
                 | None => " "%char
                 end
             end.
Proof.
  intros Hgw Hgh.
  destruct (layout_grid_spec garage recommendation Hgw Hgh)
    as (grid & E & _ & Hc).
  exists grid. split; [exact E |]. intros y x Hy Hx.
  rewrite Hc by lia. f_equal. unfold picture_char. cbv zeta.
  destruct (last_some _ (LayoutRecommendation.constraints recommendation));
    [reflexivity |].
  destruct (zone_letter _ _ _ _); [reflexivity |].
  assert (Hf : on_frameb (Z.to_nat (grid_width garage))
                 (Z.to_nat (grid_height garage)) y x = false).
  { apply not_true_iff_false. rewrite on_frameb_true. unfold on_frame. lia. }
  now rewrite Hf.
Qed.

Lemma layout_grid_frame_example :
  exists grid,
    layout_grid low_garage (optimize_layout low_garage overhead_only) = Some grid
    /\ List.length grid = 18%nat
    /\ Forall (fun row => List.length row = 35%nat) grid
    /\ cell_at grid 0 0 = Some "+"%char
    /\ cell_at grid 0 34 = Some "+"%char
    /\ cell_at grid 17 20 = Some "-"%char
    /\ cell_at grid 10 34 = Some "|"%char.
Proof.
  assert (H0 : 0 <= GarageSpace.width low_garage) by discriminate.
  assert (H1 : 0 <= GarageSpace.depth low_garage) by discriminate.
  destruct (layout_grid_frame low_garage
              (optimize_layout low_garage overhead_only) H0 H1)
    as (grid & E & Hh & Hw & Hc).
  exists grid. split; [exact E |]. split; [exact Hh |]. split; [exact Hw |].
  split; [apply (Hc 0%nat 0%nat); [vm_compute; lia | vm_compute; lia | now left] |].
  split; [apply (Hc 0%nat 34%nat); [vm_compute; lia | vm_compute; lia | now left] |].
  split; [apply (Hc 17%nat 20%nat);
          [vm_compute; lia | vm_compute; lia | right; now left] |].
  apply (Hc 10%nat 34%nat); [vm_compute; lia | vm_compute; lia |].
  right. right. now right.
Defined.

Lemma layout_grid_cells_example :
  exists grid,
    layout_grid low_garage (optimize_layout low_garage overhead_only) = Some grid
    /\ cell_at grid 10 30 = Some "O"%char
    /\ cell_at grid 10 5 = Some " "%char.
Proof.
  assert (H0 : 0 <= GarageSpace.width low_garage) by discriminate.
  assert (H1 : 0 <= GarageSpace.depth low_garage) by discriminate.
  destruct (layout_grid_cells low_garage
              (optimize_layout low_garage overhead_only) H0 H1)
    as (grid & E & Hc).
  exists grid. split; [exact E |].
  split; (rewrite Hc; [vm_compute; reflexivity | vm_compute; lia ..]).
Defined.

(** ** Loading the garage layout *)













Lemma load_lines_without_section lines garage :
  (forall line, In line lines -> wall_after (Str.strip line) None = None) ->
  fold_left load_line lines (garage, None) = (garage, None).
Proof.
  revert garage. induction lines as [| line l IH]; intros garage H;
    [reflexivity |].
  cbn [fold_left]. unfold load_line at 2. cbv zeta.
  rewrite (H line) by now left. apply IH. intros line' Hin. apply H. now right.
Qed.

(** X26: feature lines count only under a section header: when no line of
    the file names a wall or the floor section, the loaded garage has no
    feature at all, whatever lines start with a dash or a star. *)
Theorem features_need_a_section (content : string) :
  (forall line, In line (split (String "010" EmptyString) content) ->
                wall_after (Str.strip line) None = None) ->
  all_features (load_garage_layout (Some content)) = [].
Proof.
  intros H. unfold load_garage_layout. cbv zeta.
  rewrite load_lines_without_section by exact H. cbn [fst].
  destruct (Re.search dim_pattern content), (Re.search ceiling_pattern content);
    reflexivity.
Qed.

Lemma features_need_a_section_example :
  all_features (load_garage_layout (Some "- Service Door at 3'")) = [].
Proof.
  apply (features_need_a_section "- Service Door at 3'").
  intros line [<- | []]. reflexivity.
Defined.
